(** * The Minix filesystem driver (fs/minix/inode.c): superblock, inodes, lifecycle

    A shallow embedding of the functions of [fs/minix/inode.c] and the
    properties of the specification that they decide.

    Conventions.
    - C integers are [Z]; an unsigned [w]-bit object holds [wrap w x].
    - A device block ([bh->b_data]) is a little-endian bit string held in a
      [Z]: byte [k] of the block is bits [8k .. 8k+7].
    - Services of the block layer, the VFS and the sibling files of the
      driver (bitmap.c, itree_v1.c, itree_v2.c) are fields of the record
      [host]; declarations of minix.h are fields of the record [minix_h].
    - Calls whose effect lives outside this file are recorded as [event]s. *)

From Stdlib Require Import ZArith Lia String Bool.
From stdpp Require Import base tactics option list.

Local Open Scope Z_scope.

(** ** Machine integers *)

Definition wrap (w x : Z) : Z := x mod 2 ^ w.

Definition u8 : Z -> Z := wrap 8.
Definition u16 : Z -> Z := wrap 16.
Definition u32 : Z -> Z := wrap 32.
Definition u64 : Z -> Z := wrap 64.

(** [unsigned long] of the kernel this tree builds (LP64). *)
Definition BITS_PER_LONG : Z := 64.
Definition ulong : Z -> Z := wrap BITS_PER_LONG.

(** errno values returned negated by the driver. *)
Definition EIO : Z := 5.
Definition ENOMEM : Z := 12.
Definition EINVAL : Z := 22.

(** ** Raw blocks *)

(** A 16-bit and a 32-bit load at byte offset [off] of [b_data]. *)
Definition b_u16 (d off : Z) : Z := Z.land (Z.shiftr d (8 * off)) (Z.ones 16).
Definition b_u32 (d off : Z) : Z := Z.land (Z.shiftr d (8 * off)) (Z.ones 32).

(** Builders of raw blocks, used to write concrete volumes down. *)
Definition put_le (d off v : Z) : Z := Z.lor d (Z.shiftl v (8 * off)).

(** Modelled from the spec: the bitmap macros of minix.h are not part of this
    file; a bitmap block has one bit per inode or zone, bit [nr] of the
    block. *)
Definition minix_set_bit (nr d : Z) : Z := Z.setbit d nr.
Definition minix_test_bit (nr d : Z) : bool := Z.testbit d nr.

(** ** On-disk superblocks *)

(** Modelled from the spec: magic numbers of the four V1/V2 layouts and of V3
    (minix_fs.h is not part of this file). *)
Definition MINIX_SUPER_MAGIC : Z := 0x137F.
Definition MINIX_SUPER_MAGIC2 : Z := 0x138F.
Definition MINIX2_SUPER_MAGIC : Z := 0x2468.
Definition MINIX2_SUPER_MAGIC2 : Z := 0x2478.
Definition MINIX3_SUPER_MAGIC : Z := 0x4D5A.

(** [BLOCK_SIZE] is [1 << 10] (linux/fs.h). *)
Definition BLOCK_SIZE : Z := 1024.

(** Modelled from the spec: inodes are numbered from 1 and inode 1 is the
    root ([MINIX_ROOT_INO] of minix_fs.h). *)
Definition MINIX_ROOT_INO : Z := 1.

Inductive version : Set := MINIX_V1 | MINIX_V2 | MINIX_V3.

Definition version_eqb (a b : version) : bool :=
  match a, b with
  | MINIX_V1, MINIX_V1 | MINIX_V2, MINIX_V2 | MINIX_V3, MINIX_V3 => true
  | _, _ => false
  end.

(** [struct minix_super_block]: the V1/V2 view of block 1. *)
Record minix_super_block : Set := {
  s_ninodes : Z;        (* u16 *)
  s_nzones : Z;         (* u16 *)
  s_imap_blocks : Z;    (* u16 *)
  s_zmap_blocks : Z;    (* u16 *)
  s_firstdatazone : Z;  (* u16 *)
  s_log_zone_size : Z;  (* u16 *)
  s_max_size : Z;       (* u32 *)
  s_magic : Z;          (* u16 *)
  s_state : Z;          (* u16 *)
  s_zones : Z           (* u32 *)
}.

(** Modelled from the spec: the field order and widths of the V1/V2
    superblock (ninodes, nzones, imap_blocks, zmap_blocks, firstdatazone,
    log_zone_size: u16; max_size: u32; magic, state: u16; zones: u32); this
    is the cast [(struct minix_super_block * ) bh->b_data]. *)
Definition minix_sb_of (d : Z) : minix_super_block :=
  {| s_ninodes := b_u16 d 0;
     s_nzones := b_u16 d 2;
     s_imap_blocks := b_u16 d 4;
     s_zmap_blocks := b_u16 d 6;
     s_firstdatazone := b_u16 d 8;
     s_log_zone_size := b_u16 d 10;
     s_max_size := b_u32 d 12;
     s_magic := b_u16 d 16;
     s_state := b_u16 d 18;
     s_zones := b_u32 d 20 |}.

Definition set_s_state (v : Z) (ms : minix_super_block) : minix_super_block :=
  {| s_ninodes := s_ninodes ms; s_nzones := s_nzones ms;
     s_imap_blocks := s_imap_blocks ms; s_zmap_blocks := s_zmap_blocks ms;
     s_firstdatazone := s_firstdatazone ms;
     s_log_zone_size := s_log_zone_size ms; s_max_size := s_max_size ms;
     s_magic := s_magic ms; s_state := v; s_zones := s_zones ms |}.

(** [struct minix3_super_block]: the V3 view of block 1. *)
Record minix3_super_block : Set := {
  s3_ninodes : Z;        (* u32 *)
  s3_imap_blocks : Z;    (* u16 *)
  s3_zmap_blocks : Z;    (* u16 *)
  s3_firstdatazone : Z;  (* u16 *)
  s3_log_zone_size : Z;  (* u16 *)
  s3_max_size : Z;       (* u32 *)
  s3_zones : Z;          (* u32 *)
  s3_magic : Z;          (* u16 *)
  s3_blocksize : Z       (* u16 *)
}.

(** What minix.h and minix_fs.h declare and this file uses without defining:
    the mount-state bits, the link ceilings, and where the fields of
    [struct minix3_super_block] lie (byte offsets into block 1). *)
Record minix_h : Set := {
  MINIX_VALID_FS : Z;
  MINIX_ERROR_FS : Z;
  MINIX_LINK_MAX : Z;
  MINIX2_LINK_MAX : Z;
  off3_ninodes : Z;
  off3_imap_blocks : Z;
  off3_zmap_blocks : Z;
  off3_firstdatazone : Z;
  off3_log_zone_size : Z;
  off3_max_size : Z;
  off3_zones : Z;
  off3_magic : Z;
  off3_blocksize : Z
}.

(** The cast [(struct minix3_super_block * ) bh->b_data]. *)
Definition minix3_sb_of (hdr : minix_h) (d : Z) : minix3_super_block :=
  {| s3_ninodes := b_u32 d (off3_ninodes hdr);
     s3_imap_blocks := b_u16 d (off3_imap_blocks hdr);
     s3_zmap_blocks := b_u16 d (off3_zmap_blocks hdr);
     s3_firstdatazone := b_u16 d (off3_firstdatazone hdr);
     s3_log_zone_size := b_u16 d (off3_log_zone_size hdr);
     s3_max_size := b_u32 d (off3_max_size hdr);
     s3_zones := b_u32 d (off3_zones hdr);
     s3_magic := b_u16 d (off3_magic hdr);
     s3_blocksize := b_u16 d (off3_blocksize hdr) |}.

(** The declarations as Linux has them; used for the concrete volumes. *)
Definition linux_minix_h : minix_h :=
  {| MINIX_VALID_FS := 1;
     MINIX_ERROR_FS := 2;
     MINIX_LINK_MAX := 250;
     MINIX2_LINK_MAX := 65530;
     off3_ninodes := 0;
     off3_imap_blocks := 6;
     off3_zmap_blocks := 8;
     off3_firstdatazone := 10;
     off3_log_zone_size := 12;
     off3_max_size := 16;
     off3_zones := 20;
     off3_magic := 24;
     off3_blocksize := 28 |}.

(** ** Inodes *)

Record timespec : Set := { tv_sec : Z; tv_nsec : Z }.

(** The operation tables [minix_set_inode] installs. *)
Inductive inode_ops : Set :=
| minix_file_inode_operations       (* with minix_file_operations, minix_aops *)
| minix_dir_inode_operations        (* with minix_dir_operations, minix_aops *)
| minix_symlink_inode_operations    (* nohighmem, minix_aops *)
| special_inode (rdev : Z).         (* init_special_inode *)

(** [struct inode] together with its [struct minix_inode_info]: [i_zones] is
    the union [u] ([i1_data] for V1, [i2_data] for V2 and V3). *)
Record inode : Set := {
  i_ino : Z;
  i_mode : Z;
  i_uid : Z;
  i_gid : Z;
  i_nlink : Z;
  i_size : Z;
  i_mtime : timespec;
  i_atime : timespec;
  i_ctime : timespec;
  i_blocks : Z;
  i_rdev : Z;
  i_new : bool;                 (* I_NEW in i_state *)
  i_op : option inode_ops;
  i_zones : list Z
}.

(** [struct minix_inode]: the 32-byte V1 record. *)
Record minix_inode : Set := {
  r1_mode : Z;      (* u16 *)
  r1_uid : Z;       (* u16 *)
  r1_size : Z;      (* u32 *)
  r1_time : Z;      (* u32 *)
  r1_gid : Z;       (* u8 *)
  r1_nlinks : Z;    (* u8 *)
  r1_zone : list Z  (* u16 [9] *)
}.

(** [struct minix2_inode]: the 64-byte V2/V3 record. *)
Record minix2_inode : Set := {
  r2_mode : Z;      (* u16 *)
  r2_nlinks : Z;    (* u16 *)
  r2_uid : Z;       (* u16 *)
  r2_gid : Z;       (* u16 *)
  r2_size : Z;      (* u32 *)
  r2_atime : Z;     (* u32 *)
  r2_mtime : Z;     (* u32 *)
  r2_ctime : Z;     (* u32 *)
  r2_zone : list Z  (* u32 [10] *)
}.

(** [struct buffer_head], seen through the record it holds. *)
Record bh_state : Set := { b_dirty : bool; b_req : bool; b_uptodate : bool }.

Record buffer_head (A : Type) : Type := { b_data : A; b_flags : bh_state }.
Arguments b_data {A} _.
Arguments b_flags {A} _.
Arguments Build_buffer_head {A} _ _.

Definition mark_buffer_dirty {A} (bh : buffer_head A) : buffer_head A :=
  {| b_data := b_data bh;
     b_flags := {| b_dirty := true; b_req := b_req (b_flags bh);
                   b_uptodate := b_uptodate (b_flags bh) |} |}.

Definition buffer_dirty {A} (bh : buffer_head A) : bool := b_dirty (b_flags bh).
Definition buffer_req {A} (bh : buffer_head A) : bool := b_req (b_flags bh).
Definition buffer_uptodate {A} (bh : buffer_head A) : bool :=
  b_uptodate (b_flags bh).

(** File types of [i_mode] (linux/stat.h). *)
Definition S_IFMT : Z := 0xF000.
Definition S_IFLNK : Z := 0xA000.
Definition S_IFREG : Z := 0x8000.
Definition S_IFBLK : Z := 0x6000.
Definition S_IFDIR : Z := 0x4000.
Definition S_IFCHR : Z := 0x2000.

Definition S_ISLNK (m : Z) : bool := Z.land m S_IFMT =? S_IFLNK.
Definition S_ISREG (m : Z) : bool := Z.land m S_IFMT =? S_IFREG.
Definition S_ISDIR (m : Z) : bool := Z.land m S_IFMT =? S_IFDIR.
Definition S_ISCHR (m : Z) : bool := Z.land m S_IFMT =? S_IFCHR.
Definition S_ISBLK (m : Z) : bool := Z.land m S_IFMT =? S_IFBLK.

(** ** The mounted volume *)

(** [struct minix_sb_info]. [s_ms] is the V1/V2 view of the superblock buffer
    [s_sbh]; stores through [ms->s_state] are stores into that view. *)
Record minix_sb_info : Set := {
  sbi_ninodes : Z;
  sbi_nzones : Z;
  sbi_imap_blocks : Z;
  sbi_zmap_blocks : Z;
  sbi_firstdatazone : Z;
  sbi_log_zone_size : Z;
  sbi_max_size : Z;
  sbi_dirsize : Z;
  sbi_namelen : Z;
  sbi_imap : list Z;             (* data of the pinned inode-bitmap blocks *)
  sbi_zmap : list Z;             (* data of the pinned zone-bitmap blocks *)
  sbi_sbh_dirty : bool;          (* dirty flag of s_sbh *)
  sbi_ms : minix_super_block;
  sbi_mount_state : Z;
  sbi_version : version
}.

(** The fields of [struct super_block] the driver reads or writes. *)
Record super_block : Set := {
  s_blocksize : Z;
  sb_magic : Z;
  s_max_links : Z;
  s_rdonly : bool;               (* s_flags & SB_RDONLY *)
  s_id : string;
  s_dev : Z;                     (* s_bdev->bd_dev *)
  s_fs_info : option minix_sb_info;
  s_root : option inode
}.

(** ** The environment of the driver *)

Record host : Type := {
  (* slab *)
  kzalloc_sbi : bool;
  kzalloc_map : bool;
  kmem_cache_create : bool;
  (* block layer: which sizes the device takes, and its blocks per size *)
  set_blocksize_ok : Z -> bool;
  bread : Z -> Z -> option Z;
  sync_dirty_buffer : bh_state -> bh_state;
  (* VFS *)
  iget_locked : Z -> option inode;
  d_make_root : inode -> bool;
  register_filesystem : Z;
  (* bitmap.c *)
  minix_V1_raw_inode : super_block -> Z -> option (buffer_head minix_inode);
  minix_V2_raw_inode : super_block -> Z -> option (buffer_head minix2_inode);
  minix_count_free_blocks : super_block -> Z;
  minix_count_free_inodes : super_block -> Z;
  (* linux/kdev_t.h, linux/highuid.h *)
  old_decode_dev : Z -> Z;
  old_encode_dev : Z -> Z;
  huge_encode_dev : Z -> Z;
  fs_high2lowuid : Z -> Z;
  fs_high2lowgid : Z -> Z
}.

(** Calls into collaborators whose effect is not a field of the records
    above, in the order the driver makes them. *)
Inductive event : Set :=
| truncate_inode_pages_final (ino : Z)
| V1_minix_truncate (ino size : Z)
| V2_minix_truncate (ino size : Z)
| invalidate_inode_buffers (ino : Z)
| clear_inode (ino : Z)
| minix_free_inode (ino : Z)
| sync_filesystem
| sync_buffer (ino : Z)
| brelse_inode_buffer (ino : Z)
| printk_io_error_syncing (id : string) (ino : Z)
| printk_remount_unchecked
| printk_remount_errors.

(** Results of functions that return a pointer or [ERR_PTR(-errno)]. *)
Inductive result (A : Type) : Type :=
| Ok (a : A)
| Err (errno : Z).
Arguments Ok {A} _.
Arguments Err {A} _.

(** A raw inode of either format, for the buffer [minix_write_inode] holds. *)
Inductive raw_inode : Set :=
| raw_V1 (r : minix_inode)
| raw_V2 (r : minix2_inode).

(** [struct kstatfs]. *)
Record kstatfs : Set := {
  f_type : Z;
  f_bsize : Z;
  f_blocks : Z;
  f_bfree : Z;
  f_bavail : Z;
  f_files : Z;
  f_ffree : Z;
  f_namelen : Z;
  f_fsid0 : Z;
  f_fsid1 : Z
}.

(** The exits of [minix_fill_super]: its labels, and the early return taken
    when the [minix_sb_info] cannot be allocated. *)
Inductive exit_path : Set :=
| ret_no_sbi
| out_bad_hblock
| out_bad_sb
| out_no_fs
| out_illegal_sb
| out_no_map
| out_no_bitmap
| out_no_root.

Inductive fill_result : Set :=
| mounted (s : super_block)
| failed (l : exit_path) (ret : Z) (s : super_block).

(** Module state: the inode slab cache and the filesystem registration. *)
Record module_state : Set := {
  minix_inode_cachep : bool;     (* cache exists *)
  minix_fs_registered : bool     (* "minix" is on the file_systems list *)
}.

(** Field stores on [struct super_block] and [struct minix_sb_info]. *)
Definition sb_with_blocksize (bs : Z) (s : super_block) : super_block :=
  {| s_blocksize := bs; sb_magic := sb_magic s; s_max_links := s_max_links s;
     s_rdonly := s_rdonly s; s_id := s_id s; s_dev := s_dev s;
     s_fs_info := s_fs_info s; s_root := s_root s |}.

Definition sb_with_magic (m links : Z) (s : super_block) : super_block :=
  {| s_blocksize := s_blocksize s; sb_magic := m; s_max_links := links;
     s_rdonly := s_rdonly s; s_id := s_id s; s_dev := s_dev s;
     s_fs_info := s_fs_info s; s_root := s_root s |}.

Definition sb_with_fs_info (i : option minix_sb_info) (s : super_block)
  : super_block :=
  {| s_blocksize := s_blocksize s; sb_magic := sb_magic s;
     s_max_links := s_max_links s; s_rdonly := s_rdonly s; s_id := s_id s;
     s_dev := s_dev s; s_fs_info := i; s_root := s_root s |}.

Definition sb_with_root (r : option inode) (s : super_block) : super_block :=
  {| s_blocksize := s_blocksize s; sb_magic := sb_magic s;
     s_max_links := s_max_links s; s_rdonly := s_rdonly s; s_id := s_id s;
     s_dev := s_dev s; s_fs_info := s_fs_info s; s_root := r |}.

Definition sbi_with_maps (imap zmap : list Z) (i : minix_sb_info)
  : minix_sb_info :=
  {| sbi_ninodes := sbi_ninodes i; sbi_nzones := sbi_nzones i;
     sbi_imap_blocks := sbi_imap_blocks i; sbi_zmap_blocks := sbi_zmap_blocks i;
     sbi_firstdatazone := sbi_firstdatazone i;
     sbi_log_zone_size := sbi_log_zone_size i; sbi_max_size := sbi_max_size i;
     sbi_dirsize := sbi_dirsize i; sbi_namelen := sbi_namelen i;
     sbi_imap := imap; sbi_zmap := zmap; sbi_sbh_dirty := sbi_sbh_dirty i;
     sbi_ms := sbi_ms i; sbi_mount_state := sbi_mount_state i;
     sbi_version := sbi_version i |}.

(** The three objects remount, mount and unmount write: the in-memory
    mount state, the on-disk state field and the dirty flag of [s_sbh]. *)
Definition sbi_with_state (mount_state : Z) (ms : minix_super_block)
    (dirty : bool) (i : minix_sb_info) : minix_sb_info :=
  {| sbi_ninodes := sbi_ninodes i; sbi_nzones := sbi_nzones i;
     sbi_imap_blocks := sbi_imap_blocks i; sbi_zmap_blocks := sbi_zmap_blocks i;
     sbi_firstdatazone := sbi_firstdatazone i;
     sbi_log_zone_size := sbi_log_zone_size i; sbi_max_size := sbi_max_size i;
     sbi_dirsize := sbi_dirsize i; sbi_namelen := sbi_namelen i;
     sbi_imap := sbi_imap i; sbi_zmap := sbi_zmap i; sbi_sbh_dirty := dirty;
     sbi_ms := ms; sbi_mount_state := mount_state;
     sbi_version := sbi_version i |}.

Definition inode_with_size (sz : Z) (i : inode) : inode :=
  {| i_ino := i_ino i; i_mode := i_mode i; i_uid := i_uid i; i_gid := i_gid i;
     i_nlink := i_nlink i; i_size := sz; i_mtime := i_mtime i;
     i_atime := i_atime i; i_ctime := i_ctime i; i_blocks := i_blocks i;
     i_rdev := i_rdev i; i_new := i_new i; i_op := i_op i;
     i_zones := i_zones i |}.

(** [for (i = from; i < from + n; i++) dst[i] = src[i];] *)
Fixpoint copy_zones (from n : nat) (src dst : list Z) : list Z :=
  match n with
  | O => dst
  | S k => copy_zones (S from) k src (<[from := default 0 (src !! from)]> dst)
  end.

(** Modelled from the spec: [minix_blocks_needed] of minix.h is not part of
    this file; it is the ceiling of [bits / bits_per_block], a block holding
    [8 * blocksize] bits. *)
Definition minix_blocks_needed (bits blocksize : Z) : Z :=
  (bits + 8 * blocksize - 1) / (8 * blocksize).

(** Is [a] somewhere before [b] in a trace? *)
Definition event_eqb (a b : event) : bool :=
  match a, b with
  | truncate_inode_pages_final i, truncate_inode_pages_final j => i =? j
  | V1_minix_truncate i s, V1_minix_truncate j t => (i =? j) && (s =? t)
  | V2_minix_truncate i s, V2_minix_truncate j t => (i =? j) && (s =? t)
  | invalidate_inode_buffers i, invalidate_inode_buffers j => i =? j
  | clear_inode i, clear_inode j => i =? j
  | minix_free_inode i, minix_free_inode j => i =? j
  | sync_filesystem, sync_filesystem => true
  | sync_buffer i, sync_buffer j => i =? j
  | brelse_inode_buffer i, brelse_inode_buffer j => i =? j
  | printk_io_error_syncing a i, printk_io_error_syncing b j =>
      String.eqb a b && (i =? j)
  | printk_remount_unchecked, printk_remount_unchecked => true
  | printk_remount_errors, printk_remount_errors => true
  | _, _ => false
  end.

Fixpoint precedes (a b : event) (tr : list event) : bool :=
  match tr with
  | [] => false
  | x :: rest =>
      (event_eqb x a && existsb (event_eqb b) rest) || precedes a b rest
  end.

(** ** The driver *)

Section Driver.

Context (hdr : minix_h) (h : host).

(** Throughout, an argument [v : version] of a function on an inode is
    [INODE_VERSION(inode)], the [s_version] of the inode's volume. *)

(** [minix_truncate]: only regular files, directories and symlinks reach
    the walker of their version. *)
Definition minix_truncate (v : version) (i : inode) : list event :=
  if negb (S_ISREG (i_mode i) || S_ISDIR (i_mode i) || S_ISLNK (i_mode i))
  then []
  else if version_eqb v MINIX_V1
       then [V1_minix_truncate (i_ino i) (i_size i)]
       else [V2_minix_truncate (i_ino i) (i_size i)].

(** [minix_evict_inode]: the inode as it leaves, and the calls made. *)
Definition minix_evict_inode (v : version) (i : inode) : inode * list event :=
  let t0 := [truncate_inode_pages_final (i_ino i)] in
  let '(i1, t1) :=
    if i_nlink i =? 0
    then let i' := inode_with_size 0 i in (i', t0 ++ minix_truncate v i')
    else (i, t0) in
  let t2 := t1 ++ [invalidate_inode_buffers (i_ino i1); clear_inode (i_ino i1)] in
  if i_nlink i1 =? 0 then (i1, t2 ++ [minix_free_inode (i_ino i1)])
  else (i1, t2).

(** [init_inodecache] and [destroy_inodecache]. *)
Definition init_inodecache (st : module_state) : Z * module_state :=
  if kmem_cache_create h
  then (0, {| minix_inode_cachep := true;
              minix_fs_registered := minix_fs_registered st |})
  else (- ENOMEM, {| minix_inode_cachep := false;
                     minix_fs_registered := minix_fs_registered st |}).

Definition destroy_inodecache (st : module_state) : module_state :=
  {| minix_inode_cachep := false;
     minix_fs_registered := minix_fs_registered st |}.

(** [minix_remount]; [flags_rdonly] is [*flags & SB_RDONLY]. *)
Definition minix_remount (s : super_block) (sbi : minix_sb_info)
    (flags_rdonly : bool) : Z * minix_sb_info * list event :=
  let ms := sbi_ms sbi in
  if Bool.eqb flags_rdonly (s_rdonly s) then (0, sbi, [sync_filesystem])
  else if flags_rdonly then
    if negb (Z.land (s_state ms) (MINIX_VALID_FS hdr) =? 0)
       || (Z.land (sbi_mount_state sbi) (MINIX_VALID_FS hdr) =? 0)
    then (0, sbi, [sync_filesystem])
    else
      let ms' := if version_eqb (sbi_version sbi) MINIX_V3 then ms
                 else set_s_state (sbi_mount_state sbi) ms in
      (0, sbi_with_state (sbi_mount_state sbi) ms' true sbi, [sync_filesystem])
  else
    let '(mount_state, ms') :=
      if negb (version_eqb (sbi_version sbi) MINIX_V3)
      then (s_state ms,
            set_s_state
              (u16 (Z.land (s_state ms) (Z.lnot (MINIX_VALID_FS hdr)))) ms)
      else (MINIX_VALID_FS hdr, ms) in
    let warn :=
      if Z.land mount_state (MINIX_VALID_FS hdr) =? 0
      then [printk_remount_unchecked]
      else if negb (Z.land mount_state (MINIX_ERROR_FS hdr) =? 0)
           then [printk_remount_errors]
           else [] in
    (0, sbi_with_state mount_state ms' true sbi, sync_filesystem :: warn).

(** [sb_set_blocksize] (block layer): on success the new size is stored in
    the superblock and returned, on failure 0 is returned. *)
Definition sb_set_blocksize (s : super_block) (size : Z) : super_block * Z :=
  if set_blocksize_ok h size then (sb_with_blocksize size s, size) else (s, 0).

Definition sb_bread (s : super_block) (block : Z) : option Z :=
  bread h (s_blocksize s) block.

(** [minix_set_inode]. *)
Definition minix_set_inode (i : inode) (rdev : Z) : inode :=
  let m := i_mode i in
  let op :=
    if S_ISREG m then minix_file_inode_operations
    else if S_ISDIR m then minix_dir_inode_operations
    else if S_ISLNK m then minix_symlink_inode_operations
    else special_inode rdev in
  let special := negb (S_ISREG m || S_ISDIR m || S_ISLNK m) in
  {| i_ino := i_ino i; i_mode := m; i_uid := i_uid i; i_gid := i_gid i;
     i_nlink := i_nlink i; i_size := i_size i; i_mtime := i_mtime i;
     i_atime := i_atime i; i_ctime := i_ctime i; i_blocks := i_blocks i;
     i_rdev := if special && (S_ISCHR m || S_ISBLK m) then rdev else i_rdev i;
     i_new := i_new i; i_op := Some op; i_zones := i_zones i |}.

Definition unlock_new_inode (i : inode) : inode :=
  {| i_ino := i_ino i; i_mode := i_mode i; i_uid := i_uid i; i_gid := i_gid i;
     i_nlink := i_nlink i; i_size := i_size i; i_mtime := i_mtime i;
     i_atime := i_atime i; i_ctime := i_ctime i; i_blocks := i_blocks i;
     i_rdev := i_rdev i; i_new := false; i_op := i_op i;
     i_zones := i_zones i |}.

(** [V1_minix_iget]: read the 32-byte record into the inode. *)
Definition V1_minix_iget (s : super_block) (i : inode) : result inode :=
  match minix_V1_raw_inode h s (i_ino i) with
  | None => Err (- EIO)
  | Some bh =>
      let raw := b_data bh in
      let t := {| tv_sec := r1_time raw; tv_nsec := 0 |} in
      let i' :=
        {| i_ino := i_ino i; i_mode := r1_mode raw; i_uid := r1_uid raw;
           i_gid := r1_gid raw; i_nlink := r1_nlinks raw;
           i_size := r1_size raw; i_mtime := t; i_atime := t; i_ctime := t;
           i_blocks := 0; i_rdev := i_rdev i; i_new := i_new i;
           i_op := i_op i;
           i_zones := copy_zones 0 9 (r1_zone raw) (i_zones i) |} in
      Ok (unlock_new_inode
            (minix_set_inode i' (old_decode_dev h (default 0 (r1_zone raw !! 0%nat)))))
  end.

(** [V2_minix_iget]: read the 64-byte record into the inode. *)
Definition V2_minix_iget (s : super_block) (i : inode) : result inode :=
  match minix_V2_raw_inode h s (i_ino i) with
  | None => Err (- EIO)
  | Some bh =>
      let raw := b_data bh in
      let i' :=
        {| i_ino := i_ino i; i_mode := r2_mode raw; i_uid := r2_uid raw;
           i_gid := r2_gid raw; i_nlink := r2_nlinks raw;
           i_size := r2_size raw;
           i_mtime := {| tv_sec := r2_mtime raw; tv_nsec := 0 |};
           i_atime := {| tv_sec := r2_atime raw; tv_nsec := 0 |};
           i_ctime := {| tv_sec := r2_ctime raw; tv_nsec := 0 |};
           i_blocks := 0; i_rdev := i_rdev i; i_new := i_new i;
           i_op := i_op i;
           i_zones := copy_zones 0 10 (r2_zone raw) (i_zones i) |} in
      Ok (unlock_new_inode
            (minix_set_inode i' (old_decode_dev h (default 0 (r2_zone raw !! 0%nat)))))
  end.

(** [minix_iget]. An inode already in the cache is returned as it is; a new
    one is populated by the reader of the volume's version. *)
Definition minix_iget (v : version) (s : super_block) (ino : Z)
  : result inode :=
  match iget_locked h ino with
  | None => Err (- ENOMEM)
  | Some i =>
      if negb (i_new i) then Ok i
      else if version_eqb v MINIX_V1 then V1_minix_iget s i
           else V2_minix_iget s i
  end.

(** [V1_minix_update_inode]: store the inode into its 32-byte record and
    dirty the buffer that holds it. *)
Definition V1_minix_update_inode (s : super_block) (i : inode)
  : option (buffer_head minix_inode) :=
  match minix_V1_raw_inode h s (i_ino i) with
  | None => None
  | Some bh =>
      let raw := b_data bh in
      let raw' :=
        {| r1_mode := u16 (i_mode i);
           r1_uid := u16 (fs_high2lowuid h (i_uid i));
           r1_size := u32 (i_size i);
           r1_time := u32 (tv_sec (i_mtime i));
           r1_gid := u8 (fs_high2lowgid h (i_gid i));
           r1_nlinks := u8 (i_nlink i);
           r1_zone :=
             if S_ISCHR (i_mode i) || S_ISBLK (i_mode i)
             then <[0%nat := u16 (old_encode_dev h (i_rdev i))]> (r1_zone raw)
             else copy_zones 0 9 (i_zones i) (r1_zone raw) |} in
      Some (mark_buffer_dirty {| b_data := raw'; b_flags := b_flags bh |})
  end.

(** [V2_minix_update_inode]: the same for the 64-byte record. *)
Definition V2_minix_update_inode (s : super_block) (i : inode)
  : option (buffer_head minix2_inode) :=
  match minix_V2_raw_inode h s (i_ino i) with
  | None => None
  | Some bh =>
      let raw := b_data bh in
      let raw' :=
        {| r2_mode := u16 (i_mode i);
           r2_nlinks := u16 (i_nlink i);
           r2_uid := u16 (fs_high2lowuid h (i_uid i));
           r2_gid := u16 (fs_high2lowgid h (i_gid i));
           r2_size := u32 (i_size i);
           r2_atime := u32 (tv_sec (i_atime i));
           r2_mtime := u32 (tv_sec (i_mtime i));
           r2_ctime := u32 (tv_sec (i_ctime i));
           r2_zone :=
             if S_ISCHR (i_mode i) || S_ISBLK (i_mode i)
             then <[0%nat := u32 (old_encode_dev h (i_rdev i))]> (r2_zone raw)
             else copy_zones 0 10 (i_zones i) (r2_zone raw) |} in
      Some (mark_buffer_dirty {| b_data := raw'; b_flags := b_flags bh |})
  end.

Definition retag {A B} (f : A -> B) (bh : buffer_head A) : buffer_head B :=
  {| b_data := f (b_data bh); b_flags := b_flags bh |}.

(** [minix_write_inode]; [sync_all] is [wbc->sync_mode == WB_SYNC_ALL]. The
    result is the return value, the buffer as it is released, and the calls
    made. *)
Definition minix_write_inode (v : version) (s : super_block) (i : inode)
    (sync_all : bool) : Z * option (buffer_head raw_inode) * list event :=
  let bh :=
    if version_eqb v MINIX_V1
    then retag raw_V1 <$> V1_minix_update_inode s i
    else retag raw_V2 <$> V2_minix_update_inode s i in
  match bh with
  | None => (- EIO, None, [])
  | Some bh =>
      if sync_all && buffer_dirty bh
      then
        let bh' := {| b_data := b_data bh;
                      b_flags := sync_dirty_buffer h (b_flags bh) |} in
        if buffer_req bh' && negb (buffer_uptodate bh')
        then (- EIO, Some bh',
              [sync_buffer (i_ino i);
               printk_io_error_syncing (s_id s) (i_ino i);
               brelse_inode_buffer (i_ino i)])
        else (0, Some bh',
              [sync_buffer (i_ino i); brelse_inode_buffer (i_ino i)])
      else (0, Some bh, [brelse_inode_buffer (i_ino i)])
  end.

(** [minix_statfs]. *)
Definition minix_statfs (s : super_block) (sbi : minix_sb_info) : kstatfs :=
  let id := u64 (huge_encode_dev h (s_dev s)) in
  let bfree := minix_count_free_blocks h s in
  {| f_type := sb_magic s;
     f_bsize := s_blocksize s;
     f_blocks :=
       u64 (ulong (Z.shiftl (ulong (sbi_nzones sbi - sbi_firstdatazone sbi))
                            (sbi_log_zone_size sbi)));
     f_bfree := bfree;
     f_bavail := bfree;
     f_files := sbi_ninodes sbi;
     f_ffree := minix_count_free_inodes h s;
     f_namelen := sbi_namelen sbi;
     f_fsid0 := u32 id;
     f_fsid1 := u32 (Z.shiftr id 32) |}.

(** [init_minix_fs]: after [register_filesystem] control goes to [out]
    whatever [err] is. *)
Definition init_minix_fs (st : module_state) : Z * module_state :=
  let '(err, st1) := init_inodecache st in
  if negb (err =? 0) then (err, st1)                        (* goto out1 *)
  else
    let err := register_filesystem h in
    let st2 := {| minix_inode_cachep := minix_inode_cachep st1;
                  minix_fs_registered :=
                    minix_fs_registered st1 || (err =? 0) |} in
    (err, destroy_inodecache st2).                          (* goto out *)

(** [exit_minix_fs]. *)
Definition exit_minix_fs (st : module_state) : module_state :=
  destroy_inodecache {| minix_inode_cachep := minix_inode_cachep st;
                        minix_fs_registered := false |}.

(** *** [minix_fill_super] *)

(** The copy of the V1/V2 superblock fields into a fresh [minix_sb_info]. *)
Definition sbi_of_ms (ms : minix_super_block) (v : version)
    (nzones dirsize namelen : Z) : minix_sb_info :=
  {| sbi_ninodes := s_ninodes ms;
     sbi_nzones := nzones;
     sbi_imap_blocks := s_imap_blocks ms;
     sbi_zmap_blocks := s_zmap_blocks ms;
     sbi_firstdatazone := s_firstdatazone ms;
     sbi_log_zone_size := s_log_zone_size ms;
     sbi_max_size := s_max_size ms;
     sbi_dirsize := dirsize;
     sbi_namelen := namelen;
     sbi_imap := [];
     sbi_zmap := [];
     sbi_sbh_dirty := false;
     sbi_ms := ms;
     sbi_mount_state := s_state ms;
     sbi_version := v |}.

(** The V3 branch overwrites them from the V3 view. *)
Definition sbi_of_m3s (ms : minix_super_block) (m3s : minix3_super_block)
  : minix_sb_info :=
  {| sbi_ninodes := s3_ninodes m3s;
     sbi_nzones := s3_zones m3s;
     sbi_imap_blocks := s3_imap_blocks m3s;
     sbi_zmap_blocks := s3_zmap_blocks m3s;
     sbi_firstdatazone := s3_firstdatazone m3s;
     sbi_log_zone_size := s3_log_zone_size m3s;
     sbi_max_size := s3_max_size m3s;
     sbi_dirsize := 64;
     sbi_namelen := 60;
     sbi_imap := [];
     sbi_zmap := [];
     sbi_sbh_dirty := false;
     sbi_ms := ms;
     sbi_mount_state := MINIX_VALID_FS hdr;
     sbi_version := MINIX_V3 |}.

(** The dispatch on the magic number: the superblock as the branch taken
    leaves it, and the [minix_sb_info] unless control went to [out_no_fs]. *)
Definition parse_super (d : Z) (s : super_block)
  : super_block * option minix_sb_info :=
  let ms := minix_sb_of d in
  let magic := s_magic ms in
  if magic =? MINIX_SUPER_MAGIC then
    (sb_with_magic magic (MINIX_LINK_MAX hdr) s,
     Some (sbi_of_ms ms MINIX_V1 (s_nzones ms) 16 14))
  else if magic =? MINIX_SUPER_MAGIC2 then
    (sb_with_magic magic (MINIX_LINK_MAX hdr) s,
     Some (sbi_of_ms ms MINIX_V1 (s_nzones ms) 32 30))
  else if magic =? MINIX2_SUPER_MAGIC then
    (sb_with_magic magic (MINIX2_LINK_MAX hdr) s,
     Some (sbi_of_ms ms MINIX_V2 (s_zones ms) 16 14))
  else if magic =? MINIX2_SUPER_MAGIC2 then
    (sb_with_magic magic (MINIX2_LINK_MAX hdr) s,
     Some (sbi_of_ms ms MINIX_V2 (s_zones ms) 32 30))
  else if b_u16 d 24 =? MINIX3_SUPER_MAGIC then
    let m3s := minix3_sb_of hdr d in
    (* the value of sb_set_blocksize is not looked at *)
    let s' := fst (sb_set_blocksize s (s3_blocksize m3s)) in
    (sb_with_magic (s3_magic m3s) (MINIX2_LINK_MAX hdr) s',
     Some (sbi_of_m3s ms m3s))
  else
    (sb_with_magic magic (s_max_links s) s, None).

(** One of the two loops that read the bitmap blocks: [n] blocks from
    [block] on, or [None] as soon as a read fails. *)
Fixpoint read_map (s : super_block) (block : Z) (n : nat) : option (list Z) :=
  match n with
  | O => Some []
  | S k =>
      match sb_bread s block with
      | None => None
      | Some d => cons d <$> read_map s (block + 1) k
      end
  end.

(** [minix_set_bit(0, map[0]->b_data)]. *)
Definition set_bit0_of_first (map : list Z) : list Z :=
  match map with
  | [] => []
  | d :: rest => minix_set_bit 0 d :: rest
  end.

Definition fill_fail (l : exit_path) (ret : Z) (s : super_block) : fill_result :=
  failed l ret (sb_with_fs_info None s).

(** From the root inode to the return: lines 320-344. *)
Definition finish_mount (s : super_block) (sbi : minix_sb_info) : fill_result :=
  let s1 := sb_with_fs_info (Some sbi) s in
  match minix_iget (sbi_version sbi) s1 MINIX_ROOT_INO with
  | Err e => fill_fail out_no_root e s1
  | Ok root_inode =>
      if negb (d_make_root h root_inode) then fill_fail out_no_root (- ENOMEM) s1
      else
        let sbi' :=
          if negb (s_rdonly s1) then
            let ms := sbi_ms sbi in
            let ms' :=
              if negb (version_eqb (sbi_version sbi) MINIX_V3)
              then set_s_state
                     (u16 (Z.land (s_state ms) (Z.lnot (MINIX_VALID_FS hdr)))) ms
              else ms in
            sbi_with_state (sbi_mount_state sbi) ms' true sbi
          else sbi in
        mounted (sb_with_root (Some root_inode) (sb_with_fs_info (Some sbi') s1))
  end.

(** The bitmaps: lines 267-315. The bit counts go to [minix_blocks_needed]
    as the integers the source writes, [s_ninodes] and
    [s_nzones - s_firstdatazone + 1]; the types of the counters and of the
    helper's parameters are declared in minix.h. *)
Definition load_bitmaps (s : super_block) (sbi : minix_sb_info) : fill_result :=
  if (sbi_imap_blocks sbi =? 0) || (sbi_zmap_blocks sbi =? 0)
  then fill_fail out_illegal_sb (- EINVAL) s
  else if negb (kzalloc_map h) then fill_fail out_no_map (- ENOMEM) s
  else
    let ni := Z.to_nat (sbi_imap_blocks sbi) in
    let nz := Z.to_nat (sbi_zmap_blocks sbi) in
    match read_map s 2 ni with
    | None => fill_fail out_no_bitmap (- EINVAL) s
    | Some imap =>
        match read_map s (2 + Z.of_nat ni) nz with
        | None => fill_fail out_no_bitmap (- EINVAL) s
        | Some zmap =>
            let sbi1 :=
              sbi_with_maps (set_bit0_of_first imap) (set_bit0_of_first zmap)
                            sbi in
            if sbi_imap_blocks sbi1
               <? minix_blocks_needed (sbi_ninodes sbi1) (s_blocksize s)
            then fill_fail out_no_bitmap (- EINVAL) s
            else if sbi_zmap_blocks sbi1
                    <? minix_blocks_needed
                         (sbi_nzones sbi1 - sbi_firstdatazone sbi1 + 1)
                         (s_blocksize s)
            then fill_fail out_no_bitmap (- EINVAL) s
            else finish_mount s sbi1
        end
    end.

(** [minix_fill_super]. *)
Definition minix_fill_super (s : super_block) : fill_result :=
  if negb (kzalloc_sbi h) then failed ret_no_sbi (- ENOMEM) s
  else
    let '(s1, r) := sb_set_blocksize s BLOCK_SIZE in
    if r =? 0 then fill_fail out_bad_hblock (- EINVAL) s1
    else
      match sb_bread s1 1 with
      | None => fill_fail out_bad_sb (- EINVAL) s1
      | Some d =>
          match parse_super d s1 with
          | (s2, None) => fill_fail out_no_fs (- EINVAL) s2
          | (s2, Some sbi) => load_bitmaps s2 sbi
          end
      end.

End Driver.

(** ** The specification's own words *)

(** The ceiling of [a / b] for a positive [b]. *)
Definition ceil_div (a b : Z) : Z := - ((- a) / b).



(** ** Concrete volumes and hosts *)

(** A raw block from (byte offset, width in bytes, value) triples. *)
Definition block_of (fields : list (Z * Z)) : Z :=
  fold_right (fun '(off, v) d => put_le d off v) 0 fields.

(** Scenario 1 of the specification: a clean V1 volume, 16 inodes, 64 zones,
    one block per bitmap, first data zone 3. *)
Definition v1_superblock : Z :=
  block_of [(0, 16); (2, 64); (4, 1); (6, 1); (8, 3); (10, 0);
            (12, 0x10081C00); (16, 0x137F); (18, 1)].

(** A V3 volume whose [s_blocksize] field holds [bs]. *)
Definition v3_superblock (bs : Z) : Z :=
  block_of [(0, 16); (6, 1); (8, 1); (10, 3); (12, 0); (16, 0x7FFFFFFF);
            (20, 64); (24, 0x4D5A); (28, bs)].


(** A V1 superblock that claims 65535 inodes with a single bitmap block. *)
Definition starved_superblock : Z :=
  block_of [(0, 65535); (2, 64); (4, 1); (6, 1); (8, 3); (10, 0);
            (12, 0x10081C00); (16, 0x137F); (18, 1)].

Definition new_inode (ino : Z) : inode :=
  {| i_ino := ino; i_mode := 0; i_uid := 0; i_gid := 0; i_nlink := 0;
     i_size := 0;
     i_mtime := {| tv_sec := 0; tv_nsec := 0 |};
     i_atime := {| tv_sec := 0; tv_nsec := 0 |};
     i_ctime := {| tv_sec := 0; tv_nsec := 0 |};
     i_blocks := 0; i_rdev := 0; i_new := true; i_op := None;
     i_zones := repeat 0 16 |}.

Definition clean_flags : bh_state :=
  {| b_dirty := false; b_req := false; b_uptodate := true |}.

(** The root directory, in both record formats. *)
Definition root_raw_V1 : minix_inode :=
  {| r1_mode := 0x41ED; r1_uid := 0; r1_size := 32; r1_time := 1000;
     r1_gid := 0; r1_nlinks := 2; r1_zone := [3; 0; 0; 0; 0; 0; 0; 0; 0] |}.

Definition root_raw_V2 : minix2_inode :=
  {| r2_mode := 0x41ED; r2_nlinks := 2; r2_uid := 0; r2_gid := 0;
     r2_size := 128; r2_atime := 1001; r2_mtime := 1002; r2_ctime := 1003;
     r2_zone := [3; 0; 0; 0; 0; 0; 0; 0; 0; 0] |}.

(** A device that takes 1024-byte blocks only, holds [block1] in block 1 and
    zeroes elsewhere, and completes synchronous writes leaving the buffer
    uptodate or not as [write_ok] says. *)
Definition demo_host (block1 : Z) (write_ok : bool) : host :=
  {| kzalloc_sbi := true;
     kzalloc_map := true;
     kmem_cache_create := true;
     set_blocksize_ok := fun size => size =? 1024;
     bread := fun _ block => Some (if block =? 1 then block1 else 0);
     sync_dirty_buffer := fun _ =>
       {| b_dirty := false; b_req := true; b_uptodate := write_ok |};
     iget_locked := fun ino => Some (new_inode ino);
     d_make_root := fun _ => true;
     register_filesystem := 0;
     minix_V1_raw_inode := fun _ _ =>
       Some {| b_data := root_raw_V1; b_flags := clean_flags |};
     minix_V2_raw_inode := fun _ _ =>
       Some {| b_data := root_raw_V2; b_flags := clean_flags |};
     minix_count_free_blocks := fun _ => 50;
     minix_count_free_inodes := fun _ => 10;
     old_decode_dev := fun v =>
       Z.lor (Z.shiftl (Z.land (Z.shiftr v 8) 255) 20) (Z.land v 255);
     old_encode_dev := fun dev =>
       Z.lor (Z.shiftl (Z.shiftr dev 20) 8) (Z.land dev 0xFFFFF);
     huge_encode_dev := fun dev => dev;
     fs_high2lowuid := fun uid => uid;
     fs_high2lowgid := fun gid => gid |}.

(** A host whose inode table cannot be read. *)
Definition unreadable_host : host :=
  {| kzalloc_sbi := true;
     kzalloc_map := true;
     kmem_cache_create := true;
     set_blocksize_ok := fun size => size =? 1024;
     bread := fun _ _ => None;
     sync_dirty_buffer := fun f => f;
     iget_locked := fun ino => Some (new_inode ino);
     d_make_root := fun _ => true;
     register_filesystem := 0;
     minix_V1_raw_inode := fun _ _ => None;
     minix_V2_raw_inode := fun _ _ => None;
     minix_count_free_blocks := fun _ => 0;
     minix_count_free_inodes := fun _ => 0;
     old_decode_dev := fun v => v;
     old_encode_dev := fun dev => dev;
     huge_encode_dev := fun dev => dev;
     fs_high2lowuid := fun uid => uid;
     fs_high2lowgid := fun gid => gid |}.

(** The superblock object the VFS hands to [minix_fill_super]. *)
Definition fresh_sb : super_block :=
  {| s_blocksize := 0; sb_magic := 0; s_max_links := 0; s_rdonly := false;
     s_id := "loop0"; s_dev := 0x700000; s_fs_info := None; s_root := None |}.

(** A regular file of 5000 bytes whose last link is gone. *)
Definition unlinked_file : inode :=
  {| i_ino := 7; i_mode := 0x81A4; i_uid := 0; i_gid := 0; i_nlink := 0;
     i_size := 5000;
     i_mtime := {| tv_sec := 5; tv_nsec := 0 |};
     i_atime := {| tv_sec := 5; tv_nsec := 0 |};
     i_ctime := {| tv_sec := 5; tv_nsec := 0 |};
     i_blocks := 0; i_rdev := 0; i_new := false;
     i_op := Some minix_file_inode_operations;
     i_zones := [10; 11; 12; 13; 14; 0; 0; 0; 0; 0; 0; 0; 0; 0; 0; 0] |}.

(** The same file with one link left. *)
Definition linked_file : inode :=
  {| i_ino := 7; i_mode := 0x81A4; i_uid := 0; i_gid := 0; i_nlink := 1;
     i_size := 5000;
     i_mtime := {| tv_sec := 5; tv_nsec := 0 |};
     i_atime := {| tv_sec := 5; tv_nsec := 0 |};
     i_ctime := {| tv_sec := 5; tv_nsec := 0 |};
     i_blocks := 0; i_rdev := 0; i_new := false;
     i_op := Some minix_file_inode_operations;
     i_zones := [10; 11; 12; 13; 14; 0; 0; 0; 0; 0; 0; 0; 0; 0; 0; 0] |}.


(** The volume of scenario 1 as the parser and the bitmap loader leave it,
    and its superblock object, mounted read-only. *)
Definition v1_volume : minix_sb_info :=
  sbi_with_maps [1] [1]
    (sbi_of_ms (minix_sb_of v1_superblock) MINIX_V1 64 16 14).

Definition v1_sb_rdonly : super_block :=
  {| s_blocksize := 1024; sb_magic := 0x137F; s_max_links := 250;
     s_rdonly := true; s_id := "loop0"; s_dev := 0x700000;
     s_fs_info := Some v1_volume; s_root := None |}.

Definition unloaded : module_state :=
  {| minix_inode_cachep := false; minix_fs_registered := false |}.

(** ** Unmount and the write path *)

(** The buffers [minix_put_super] releases, in order. *)
Inductive released_buffer : Set :=
| rel_imap (k : nat)
| rel_zmap (k : nat)
| rel_sbh.

(** [minix_put_super]: the superblock object, the superblock buffer as it is
    released (view and dirty flag), and the buffers released. *)
Definition minix_put_super (s : super_block) (sbi : minix_sb_info)
  : super_block * minix_sb_info * list released_buffer :=
  let sbi1 :=
    if negb (s_rdonly s) then
      let ms' :=
        if negb (version_eqb (sbi_version sbi) MINIX_V3)
        then set_s_state (sbi_mount_state sbi) (sbi_ms sbi)
        else sbi_ms sbi in
      sbi_with_state (sbi_mount_state sbi) ms' true sbi
    else sbi in
  (sb_with_fs_info None s, sbi1,
   map rel_imap (seq 0 (Z.to_nat (sbi_imap_blocks sbi)))
   ++ map rel_zmap (seq 0 (Z.to_nat (sbi_zmap_blocks sbi)))
   ++ [rel_sbh]).

(** Calls of the write path: the page-cache trim and the zone walker. *)
Inductive write_call : Set :=
| truncate_pagecache (ino size : Z)
| walk (e : event).

(** [minix_write_failed]. *)
Definition minix_write_failed (v : version) (i : inode) (to : Z)
  : list write_call :=
  if i_size i <? to
  then truncate_pagecache (i_ino i) (i_size i) :: map walk (minix_truncate v i)
  else [].

(** [minix_write_begin]; [block_write_begin] is the value the generic helper
    returned for this range. *)
Definition minix_write_begin (block_write_begin : Z) (v : version) (i : inode)
    (pos len : Z) : Z * list write_call :=
  let ret := block_write_begin in
  if negb (ret =? 0) then (ret, minix_write_failed v i (pos + len))
  else (ret, []).

(** How often a call occurs in a trace. *)
Definition count_calls (e : event) (tr : list event) : nat :=
  length (List.filter (event_eqb e) tr).

(** A host whose inode table holds the given records, whatever the inode
    number; the rest as [demo_host]. *)
Definition reread_host (r1 : minix_inode) (r2 : minix2_inode) : host :=
  {| kzalloc_sbi := true;
     kzalloc_map := true;
     kmem_cache_create := true;
     set_blocksize_ok := fun size => size =? 1024;
     bread := fun _ _ => Some 0;
     sync_dirty_buffer := fun f => f;
     iget_locked := fun ino => Some (new_inode ino);
     d_make_root := fun _ => true;
     register_filesystem := 0;
     minix_V1_raw_inode := fun _ _ =>
       Some {| b_data := r1; b_flags := clean_flags |};
     minix_V2_raw_inode := fun _ _ =>
       Some {| b_data := r2; b_flags := clean_flags |};
     minix_count_free_blocks := fun _ => 0;
     minix_count_free_inodes := fun _ => 0;
     old_decode_dev := fun v =>
       Z.lor (Z.shiftl (Z.land (Z.shiftr v 8) 255) 20) (Z.land v 255);
     old_encode_dev := fun dev =>
       Z.lor (Z.shiftl (Z.land (Z.shiftr dev 20) 255) 8) (Z.land dev 255);
     huge_encode_dev := fun dev => dev;
     fs_high2lowuid := fun uid => uid;
     fs_high2lowgid := fun gid => gid |}.

(** A host that has the inode [i] in its cache. *)
Definition cached_host (i : inode) : host :=
  {| kzalloc_sbi := true;
     kzalloc_map := true;
     kmem_cache_create := true;
     set_blocksize_ok := fun size => size =? 1024;
     bread := fun _ _ => None;
     sync_dirty_buffer := fun f => f;
     iget_locked := fun _ => Some i;
     d_make_root := fun _ => true;
     register_filesystem := 0;
     minix_V1_raw_inode := fun _ _ => None;
     minix_V2_raw_inode := fun _ _ => None;
     minix_count_free_blocks := fun _ => 0;
     minix_count_free_inodes := fun _ => 0;
     old_decode_dev := fun v => v;
     old_encode_dev := fun dev => dev;
     huge_encode_dev := fun dev => dev;
     fs_high2lowuid := fun uid => uid;
     fs_high2lowgid := fun gid => gid |}.

(** A host that cannot create the inode cache. *)
Definition slabless_host : host :=
  {| kzalloc_sbi := false;
     kzalloc_map := false;
     kmem_cache_create := false;
     set_blocksize_ok := fun _ => false;
     bread := fun _ _ => None;
     sync_dirty_buffer := fun f => f;
     iget_locked := fun _ => None;
     d_make_root := fun _ => false;
     register_filesystem := 0;
     minix_V1_raw_inode := fun _ _ => None;
     minix_V2_raw_inode := fun _ _ => None;
     minix_count_free_blocks := fun _ => 0;
     minix_count_free_inodes := fun _ => 0;
     old_decode_dev := fun v => v;
     old_encode_dev := fun dev => dev;
     huge_encode_dev := fun dev => dev;
     fs_high2lowuid := fun uid => uid;
     fs_high2lowgid := fun gid => gid |}.

(** A terminal device node, major 4 minor 1, with no link left. *)
Definition unlinked_tty : inode :=
  {| i_ino := 9; i_mode := 0x21A4; i_uid := 0; i_gid := 5; i_nlink := 0;
     i_size := 0;
     i_mtime := {| tv_sec := 6; tv_nsec := 0 |};
     i_atime := {| tv_sec := 7; tv_nsec := 0 |};
     i_ctime := {| tv_sec := 8; tv_nsec := 0 |};
     i_blocks := 0; i_rdev := 0x400001; i_new := false;
     i_op := Some (special_inode 0x400001);
     i_zones := [0x401; 0; 0; 0; 0; 0; 0; 0; 0; 0; 0; 0; 0; 0; 0; 0] |}.

(** * sysfs: mounting and initialisation (fs/sysfs/mount.c) *)

Module Sysfs.

Definition EPERM : Z := 1.

(** kernfs, the namespace layer and the VFS as this file uses them; the
    flag bit [SB_KERNMOUNT] is declared in linux/fs.h. *)
Record host : Type := {
  SB_KERNMOUNT : Z;
  kobj_ns_current_may_mount : bool;
  kobj_ns_grab_current : Z;                        (* the tag grabbed *)
  (* root, flags, ns -> the superblock of the root dentry or an error, and
     whether a new superblock was created *)
  kernfs_mount_ns : option (result Z) -> Z -> Z -> result Z * bool;
  kernfs_super_ns : Z -> Z;
  kernfs_create_root : nat -> result Z;            (* the k-th call *)
  root_kn : Z -> Z;                                (* root->kn *)
  register_fs : string -> Z
}.

Inductive call : Set :=
| ns_grab (ns : Z)
| ns_drop (ns : Z)
| set_userns_visible (sb : Z)
| kernfs_kill_sb (sb : Z).

Definition is_grab (c : call) : bool :=
  match c with ns_grab _ => true | _ => false end.
Definition is_drop (c : call) : bool :=
  match c with ns_drop _ => true | _ => false end.

(** Namespace references a trace leaves held: grabs minus drops. *)
Definition ns_refs (tr : list call) : Z :=
  Z.of_nat (length (List.filter is_grab tr))
  - Z.of_nat (length (List.filter is_drop tr)).

(** The file's globals and what it leaves with kernfs and the VFS. *)
Record state : Set := {
  sysfs_root : option (result Z);
  lshfs_root : option (result Z);
  sysfs_root_kn : option Z;
  lshfs_root_kn : option Z;
  registered : list string;       (* in the order registered *)
  created : list Z;               (* roots kernfs_create_root returned *)
  destroyed : list Z              (* roots given to kernfs_destroy_root *)
}.

Definition boot : state :=
  {| sysfs_root := None; lshfs_root := None; sysfs_root_kn := None;
     lshfs_root_kn := None; registered := []; created := []; destroyed := [] |}.

Section Mount.

Context (kh : host).

(** The body shared, word for word, by [sysfs_mount] and [lshfs_mount];
    [root] is the hierarchy each of them passes. *)
Definition mount_on (root : option (result Z)) (flags : Z)
  : result Z * list call :=
  if (Z.land flags (SB_KERNMOUNT kh) =? 0)
     && negb (kobj_ns_current_may_mount kh)
  then (Err (- EPERM), [])
  else
    let ns := kobj_ns_grab_current kh in
    let '(r, new_sb) := kernfs_mount_ns kh root flags ns in
    (r, ns_grab ns ::
        (if negb new_sb then [ns_drop ns]
         else match r with
              | Ok sb => [set_userns_visible sb]
              | Err _ => []
              end)).

(** [sysfs_mount] and [lshfs_mount]. *)
Definition sysfs_mount (st : state) (flags : Z) : result Z * list call :=
  mount_on (sysfs_root st) flags.

Definition lshfs_mount (st : state) (flags : Z) : result Z * list call :=
  mount_on (lshfs_root st) flags.

(** [sysfs_kill_sb] and [lshfs_kill_sb] have the same body. *)
Definition sysfs_kill_sb (sb : Z) : list call :=
  let ns := kernfs_super_ns kh sb in
  [kernfs_kill_sb sb; ns_drop ns].

Definition lshfs_kill_sb (sb : Z) : list call :=
  let ns := kernfs_super_ns kh sb in
  [kernfs_kill_sb sb; ns_drop ns].

(** [sysfs_init]. *)
Definition sysfs_init (st : state) : Z * state :=
  let r1 := kernfs_create_root kh 0 in
  match r1 with
  | Err e =>
      (e, {| sysfs_root := Some r1; lshfs_root := lshfs_root st;
             sysfs_root_kn := sysfs_root_kn st;
             lshfs_root_kn := lshfs_root_kn st;
             registered := registered st; created := created st;
             destroyed := destroyed st |})
  | Ok p1 =>
      let r2 := kernfs_create_root kh 1 in
      match r2 with
      | Err e =>
          (e, {| sysfs_root := Some r1; lshfs_root := Some r2;
                 sysfs_root_kn := sysfs_root_kn st;
                 lshfs_root_kn := lshfs_root_kn st;
                 registered := registered st;
                 created := created st ++ [p1];
                 destroyed := destroyed st |})
      | Ok p2 =>
          let mk reg des :=
            {| sysfs_root := Some r1; lshfs_root := Some r2;
               sysfs_root_kn := Some (root_kn kh p1);
               lshfs_root_kn := Some (root_kn kh p2);
               registered := registered st ++ reg;
               created := created st ++ [p1; p2];
               destroyed := destroyed st ++ des |} in
          let err := register_fs kh "sysfs" in
          if negb (err =? 0) then (err, mk [] [p1])
          else
            let err := register_fs kh "lshfs" in
            if negb (err =? 0) then (err, mk ["sysfs"%string] [p2])
            else (0, mk ["sysfs"%string; "lshfs"%string] [])
      end
  end.

End Mount.

(** A host on which everything succeeds but the registration of the
    filesystem named [failing]. *)
Definition host_failing (failing : string) : host :=
  {| SB_KERNMOUNT := 2 ^ 22;
     kobj_ns_current_may_mount := false;
     kobj_ns_grab_current := 77;
     kernfs_mount_ns := fun _ _ _ => (Ok 5, true);
     kernfs_super_ns := fun _ => 77;
     kernfs_create_root := fun k => Ok (100 + Z.of_nat k);
     root_kn := fun p => p + 1;
     register_fs := fun name => if String.eqb name failing then -16 else 0 |}.

End Sysfs.

(** The record a V1 or V2 write-back of [i] leaves on the device of [h]. *)
Definition flushed_V1 (h : host) (i : inode) : minix_inode :=
  match V1_minix_update_inode h fresh_sb i with
  | Some bh => b_data bh
  | None => root_raw_V1
  end.

Definition flushed_V2 (h : host) (i : inode) : minix2_inode :=
  match V2_minix_update_inode h fresh_sb i with
  | Some bh => b_data bh
  | None => root_raw_V2
  end.

(** ** Further volumes *)




(** ** The raw-inode reader of a volume *)

(** Does the reader of the volume's version return the buffer of inode
    [ino]? *)
Definition raw_inode_readable (h : host) (v : version) (s : super_block)
    (ino : Z) : bool :=
  if version_eqb v MINIX_V1
  then match minix_V1_raw_inode h s ino with Some _ => true | None => false end
  else match minix_V2_raw_inode h s ino with Some _ => true | None => false end.

(** ** The end of an inode *)

(** [minix_i_callback]: the memory of the inode goes back to
    [minix_inode_cachep]. *)
Inductive slab_call : Set :=
| kmem_cache_free (ino : Z).

Definition minix_i_callback (i : inode) : slab_call := kmem_cache_free (i_ino i).

(** An eviction as the inode cache sees it: the calls made inside
    [minix_write_inode] and the value it returns, the calls made inside
    [minix_evict_inode], and the callback handed to RCU, after which the
    entry is gone. *)
Inductive cache_call : Set :=
| during_write_inode (e : event)
| write_inode_returned (ret : Z)
| during_evict_inode (e : event)
| call_rcu (cb : slab_call).

(** [minix_destroy_inode]. *)
Definition minix_destroy_inode (i : inode) : list cache_call :=
  [call_rcu (minix_i_callback i)].

(** Modelled from the spec: the inode cache of the VFS, which calls the
    members of [minix_sops], is not part of this file. Section 3 of the
    specification gives its eviction: an inode with a link left is written
    back if dirty, the driver's eviction runs, and the entry is dropped.
    Writing back is [minix_sops.write_inode], the driver's eviction is
    [minix_sops.evict_inode] and the drop is [minix_sops.destroy_inode];
    [dirty] is the dirty flag of the inode and [sync_all] the mode of the
    write-back. *)
Definition inode_cache_evict (h : host) (v : version) (s : super_block)
    (i : inode) (dirty sync_all : bool) : inode * list cache_call :=
  let written :=
    if negb (i_nlink i =? 0) && dirty
    then let '(ret, _, calls) := minix_write_inode h v s i sync_all in
         map during_write_inode calls ++ [write_inode_returned ret]
    else [] in
  let '(i', calls) := minix_evict_inode v i in
  (i', written ++ map during_evict_inode calls ++ minix_destroy_inode i').

(** * Properties *)

(** ** Integers, blocks, lists *)

Lemma b_u16_range d off : 0 <= b_u16 d off < 2 ^ 16.
Proof.
  unfold b_u16. rewrite Z.land_ones by lia. apply Z.mod_pos_bound. lia.
Qed.

Lemma b_u32_range d off : 0 <= b_u32 d off < 2 ^ 32.
Proof.
  unfold b_u32. rewrite Z.land_ones by lia. apply Z.mod_pos_bound. lia.
Qed.

Lemma ulong_small x : 0 <= x < 2 ^ 64 -> ulong x = x.
Proof. intros Hx. unfold ulong, wrap, BITS_PER_LONG. apply Z.mod_small, Hx. Qed.

Lemma ulong_ge x : - 2 ^ 64 <= x < 2 ^ 64 -> x <= ulong x.
Proof.
  intros Hx. unfold ulong, wrap, BITS_PER_LONG.
  destruct (Z_lt_le_dec x 0) as [Hneg | Hpos].
  - pose proof (Z.mod_pos_bound x (2 ^ 64) ltac:(lia)). lia.
  - rewrite Z.mod_small; lia.
Qed.

(** [ceil_div a b] is the least [k] with [a <= k * b]. *)
Lemma ceil_div_spec a b k : 0 < b -> k < ceil_div a b <-> k * b < a.
Proof.
  intros Hb. unfold ceil_div.
  pose proof (Z.div_mod (- a) b ltac:(lia)) as Hdm.
  pose proof (Z.mod_pos_bound (- a) b Hb) as Hm.
  split; intros H; nia.
Qed.


Lemma ceil_div_mono a a' b : 0 < b -> a <= a' -> ceil_div a b <= ceil_div a' b.
Proof.
  intros Hb Ha. unfold ceil_div.
  pose proof (Z.div_le_mono (- a') (- a) b Hb ltac:(lia)). lia.
Qed.

(** ** Mount: the superblock parser *)

(** Case analysis on the next comparison of the magic dispatch. *)
Ltac split_magic :=
  match goal with
  | |- context [if ?c =? ?k then _ else _] => destruct (c =? k) eqn:?
  end.








(** ** Mount: the bitmap counts *)

(** Every counter the parser stores was read from a 16- or 32-bit field. *)
Lemma parse_super_ranges hdr h d s s2 sbi :
  parse_super hdr h d s = (s2, Some sbi) ->
  0 <= sbi_ninodes sbi < 2 ^ 32 /\
  0 <= sbi_nzones sbi < 2 ^ 32 /\
  0 <= sbi_firstdatazone sbi < 2 ^ 16 /\
  0 <= sbi_imap_blocks sbi < 2 ^ 16 /\
  0 <= sbi_zmap_blocks sbi < 2 ^ 16.
Proof.
  unfold parse_super.
  pose proof (b_u16_range d) as H16. pose proof (b_u32_range d) as H32.
  repeat split_magic; intros [= <- <-]; cbn;
    repeat match goal with
    | |- context [b_u16 d ?o] => lazymatch goal with
        | _ : 0 <= b_u16 d o < _ |- _ => fail
        | _ => pose proof (H16 o) end
    | |- context [b_u32 d ?o] => lazymatch goal with
        | _ : 0 <= b_u32 d o < _ |- _ => fail
        | _ => pose proof (H32 o) end
    end; lia.
Qed.


(** ** Mount: the block size *)

(** The check at entry: a device that refuses 1024-byte blocks fails the
    mount through [out_bad_hblock], and no volume is left behind. *)
Lemma blocksize_refused_at_entry hdr h s :
  kzalloc_sbi h = true ->
  set_blocksize_ok h BLOCK_SIZE = false ->
  minix_fill_super hdr h s
  = failed out_bad_hblock (- EINVAL) (sb_with_fs_info None s).
Proof.
  intros Hk Hb. unfold minix_fill_super, sb_set_blocksize.
  rewrite Hk, Hb. reflexivity.
Qed.

(** Past that check no path leads to [out_bad_hblock]: the value of the
    second [sb_set_blocksize], on the V3 branch, is never tested. *)
Lemma no_bad_hblock_after_entry hdr h s l ret s' :
  set_blocksize_ok h BLOCK_SIZE = true ->
  minix_fill_super hdr h s = failed l ret s' ->
  l <> out_bad_hblock.
Proof.
  intros Hb. unfold minix_fill_super, sb_set_blocksize at 1.
  rewrite Hb. cbn.
  unfold load_bitmaps, finish_mount, fill_fail.
  repeat case_match; intros [= <- <- <-]; discriminate.
Qed.

(** C3. A V3 volume whose [s_blocksize] field holds 3000, on a device that
    takes 1024-byte blocks only: [sb_set_blocksize] fails on the V3 branch
    (it returns 0), yet the mount succeeds and the volume keeps the block
    size 1024. *)
Theorem v3_blocksize_refusal_ignored :
  let h := demo_host (v3_superblock 3000) true in
  let m3s := minix3_sb_of linux_minix_h (v3_superblock 3000) in
  s3_blocksize m3s = 3000 /\
  snd (sb_set_blocksize h (sb_with_blocksize BLOCK_SIZE fresh_sb)
                        (s3_blocksize m3s)) = 0 /\
  exists s' sbi,
    minix_fill_super linux_minix_h h fresh_sb = mounted s' /\
    s_fs_info s' = Some sbi /\
    sbi_version sbi = MINIX_V3 /\
    s_blocksize s' = 1024.
Proof.
  cbv zeta. split; [reflexivity|]. split; [reflexivity|].
  eexists _, _. split; [vm_compute; reflexivity|].
  repeat split.
Qed.

(** ** Inodes: population *)

Lemma copy_zones_length n : forall from src dst,
  length (copy_zones from n src dst) = length dst.
Proof.
  induction n as [|n IH]; intros from src dst; cbn; [reflexivity|].
  rewrite IH. apply length_insert.
Qed.

Lemma copy_zones_lookup n : forall (from : nat) (src dst : list Z) (k : nat),
  (from + n <= length dst)%nat ->
  copy_zones from n src dst !! k =
    if decide (from <= k < from + n)%nat
    then Some (default 0 (src !! k))
    else dst !! k.
Proof.
  induction n as [|n IH]; intros from src dst k Hlen; cbn.
  - case_decide; [lia | reflexivity].
  - rewrite IH by (rewrite length_insert; lia).
    destruct (decide (k = from)) as [->|Hne].
    + rewrite list_lookup_insert_eq by lia.
      repeat case_decide; try lia; reflexivity.
    + rewrite list_lookup_insert_ne by congruence.
      repeat case_decide; try lia; reflexivity.
Qed.

(** The loop overwrites the first [n] words with those of the source and
    leaves the rest of the array alone. *)
Lemma copy_zones_take_drop (n : nat) (src dst : list Z) :
  length src = n -> (n <= length dst)%nat ->
  take n (copy_zones 0 n src dst) = src /\
  drop n (copy_zones 0 n src dst) = drop n dst.
Proof.
  intros Hs Hd. split; apply list_eq; intros k.
  - destruct (decide (k < n)%nat) as [Hk|Hk].
    + rewrite lookup_take_lt by lia. rewrite copy_zones_lookup by lia.
      case_decide; [|lia].
      destruct (lookup_lt_is_Some_2 src k ltac:(lia)) as [x ->]. reflexivity.
    + rewrite lookup_take_ge by lia. symmetry. apply lookup_ge_None. lia.
  - rewrite !lookup_drop. rewrite copy_zones_lookup by lia.
    case_decide; [lia | reflexivity].
Qed.

(** C4. Population dispatches on the version. The V1 reader copies the nine
    zone words of the raw record, its mode, uid, gid, size and link count,
    and sets mtime, atime and ctime to the one on-disk time with zero
    nanoseconds. The V2/V3 reader copies ten zone words and the three
    on-disk times, each with zero nanoseconds. A raw record that cannot be
    read makes either reader fail with [-EIO]. *)
Theorem inode_population (h : host) (s : super_block) (i : inode) :
  (forall bh, minix_V1_raw_inode h s (i_ino i) = Some bh ->
     let raw := b_data bh in
     length (r1_zone raw) = 9%nat -> (9 <= length (i_zones i))%nat ->
     exists i', V1_minix_iget h s i = Ok i' /\
       take 9 (i_zones i') = r1_zone raw /\
       drop 9 (i_zones i') = drop 9 (i_zones i) /\
       i_mode i' = r1_mode raw /\ i_uid i' = r1_uid raw /\
       i_gid i' = r1_gid raw /\ i_size i' = r1_size raw /\
       i_nlink i' = r1_nlinks raw /\
       i_mtime i' = {| tv_sec := r1_time raw; tv_nsec := 0 |} /\
       i_atime i' = {| tv_sec := r1_time raw; tv_nsec := 0 |} /\
       i_ctime i' = {| tv_sec := r1_time raw; tv_nsec := 0 |}) /\
  (forall bh, minix_V2_raw_inode h s (i_ino i) = Some bh ->
     let raw := b_data bh in
     length (r2_zone raw) = 10%nat -> (10 <= length (i_zones i))%nat ->
     exists i', V2_minix_iget h s i = Ok i' /\
       take 10 (i_zones i') = r2_zone raw /\
       drop 10 (i_zones i') = drop 10 (i_zones i) /\
       i_mode i' = r2_mode raw /\ i_uid i' = r2_uid raw /\
       i_gid i' = r2_gid raw /\ i_size i' = r2_size raw /\
       i_nlink i' = r2_nlinks raw /\
       i_mtime i' = {| tv_sec := r2_mtime raw; tv_nsec := 0 |} /\
       i_atime i' = {| tv_sec := r2_atime raw; tv_nsec := 0 |} /\
       i_ctime i' = {| tv_sec := r2_ctime raw; tv_nsec := 0 |}) /\
  (minix_V1_raw_inode h s (i_ino i) = None ->
     V1_minix_iget h s i = Err (- EIO)) /\
  (minix_V2_raw_inode h s (i_ino i) = None ->
     V2_minix_iget h s i = Err (- EIO)) /\
  (forall v, iget_locked h (i_ino i) = Some i -> i_new i = true ->
     minix_iget h v s (i_ino i) =
       match v with
       | MINIX_V1 => V1_minix_iget h s i
       | MINIX_V2 | MINIX_V3 => V2_minix_iget h s i
       end).
Proof.
  repeat split.
  - intros bh Hraw raw Hlen Hz. unfold V1_minix_iget. rewrite Hraw.
    eexists. split; [reflexivity|]. cbn. fold raw.
    destruct (copy_zones_take_drop 9 (r1_zone raw) (i_zones i) Hlen Hz)
      as [Ht Hd].
    repeat split; assumption.
  - intros bh Hraw raw Hlen Hz. unfold V2_minix_iget. rewrite Hraw.
    eexists. split; [reflexivity|]. cbn. fold raw.
    destruct (copy_zones_take_drop 10 (r2_zone raw) (i_zones i) Hlen Hz)
      as [Ht Hd].
    repeat split; assumption.
  - intros Hraw. unfold V1_minix_iget. rewrite Hraw. reflexivity.
  - intros Hraw. unfold V2_minix_iget. rewrite Hraw. reflexivity.
  - intros v Hget Hnew. unfold minix_iget. rewrite Hget, Hnew.
    destruct v; reflexivity.
Qed.

(** ** Inodes: write-back *)

Lemma V1_update_fields h s i bh :
  V1_minix_update_inode h s i = Some bh ->
  buffer_dirty bh = true /\
  r1_mode (b_data bh) = u16 (i_mode i) /\
  r1_size (b_data bh) = u32 (i_size i) /\
  r1_nlinks (b_data bh) = u8 (i_nlink i) /\
  r1_time (b_data bh) = u32 (tv_sec (i_mtime i)).
Proof.
  unfold V1_minix_update_inode.
  destruct (minix_V1_raw_inode h s (i_ino i)); intros [= <-].
  repeat split.
Qed.

Lemma V2_update_fields h s i bh :
  V2_minix_update_inode h s i = Some bh ->
  buffer_dirty bh = true /\
  r2_mode (b_data bh) = u16 (i_mode i) /\
  r2_size (b_data bh) = u32 (i_size i) /\
  r2_nlinks (b_data bh) = u16 (i_nlink i) /\
  r2_mtime (b_data bh) = u32 (tv_sec (i_mtime i)) /\
  r2_atime (b_data bh) = u32 (tv_sec (i_atime i)) /\
  r2_ctime (b_data bh) = u32 (tv_sec (i_ctime i)).
Proof.
  unfold V2_minix_update_inode.
  destruct (minix_V2_raw_inode h s (i_ino i)); intros [= <-].
  repeat split.
Qed.


(** The buffer an update returns is the one the reader returned, dirtied,
    with the inode stored in its record. *)
Lemma V1_update_of_reader h s i old :
  minix_V1_raw_inode h s (i_ino i) = Some old ->
  exists bh,
    V1_minix_update_inode h s i = Some bh /\
    buffer_dirty bh = true /\
    b_req (b_flags bh) = b_req (b_flags old) /\
    b_uptodate (b_flags bh) = b_uptodate (b_flags old) /\
    r1_mode (b_data bh) = u16 (i_mode i) /\
    r1_uid (b_data bh) = u16 (fs_high2lowuid h (i_uid i)) /\
    r1_gid (b_data bh) = u8 (fs_high2lowgid h (i_gid i)) /\
    r1_nlinks (b_data bh) = u8 (i_nlink i) /\
    r1_size (b_data bh) = u32 (i_size i) /\
    r1_time (b_data bh) = u32 (tv_sec (i_mtime i)) /\
    r1_zone (b_data bh) =
      if S_ISCHR (i_mode i) || S_ISBLK (i_mode i)
      then <[0%nat := u16 (old_encode_dev h (i_rdev i))]> (r1_zone (b_data old))
      else copy_zones 0 9 (i_zones i) (r1_zone (b_data old)).
Proof.
  intros Hold. unfold V1_minix_update_inode. rewrite Hold.
  eexists. split; [reflexivity|]. cbn. repeat split.
Qed.

Lemma V2_update_of_reader h s i old :
  minix_V2_raw_inode h s (i_ino i) = Some old ->
  exists bh,
    V2_minix_update_inode h s i = Some bh /\
    buffer_dirty bh = true /\
    b_req (b_flags bh) = b_req (b_flags old) /\
    b_uptodate (b_flags bh) = b_uptodate (b_flags old) /\
    r2_mode (b_data bh) = u16 (i_mode i) /\
    r2_uid (b_data bh) = u16 (fs_high2lowuid h (i_uid i)) /\
    r2_gid (b_data bh) = u16 (fs_high2lowgid h (i_gid i)) /\
    r2_nlinks (b_data bh) = u16 (i_nlink i) /\
    r2_size (b_data bh) = u32 (i_size i) /\
    r2_atime (b_data bh) = u32 (tv_sec (i_atime i)) /\
    r2_mtime (b_data bh) = u32 (tv_sec (i_mtime i)) /\
    r2_ctime (b_data bh) = u32 (tv_sec (i_ctime i)) /\
    r2_zone (b_data bh) =
      if S_ISCHR (i_mode i) || S_ISBLK (i_mode i)
      then <[0%nat := u32 (old_encode_dev h (i_rdev i))]> (r2_zone (b_data old))
      else copy_zones 0 10 (i_zones i) (r2_zone (b_data old)).
Proof.
  intros Hold. unfold V2_minix_update_inode. rewrite Hold.
  eexists. split; [reflexivity|]. cbn. repeat split.
Qed.

(** The buffer [minix_write_inode] works on exists exactly when the reader
    of the volume's version returns one. *)
Lemma updated_of_reader h v s i :
  let updated :=
    if version_eqb v MINIX_V1
    then retag raw_V1 <$> V1_minix_update_inode h s i
    else retag raw_V2 <$> V2_minix_update_inode h s i in
  if raw_inode_readable h v s (i_ino i)
  then exists bh, updated = Some bh /\ buffer_dirty bh = true
  else updated = None.
Proof.
  cbv zeta. unfold raw_inode_readable, V1_minix_update_inode,
    V2_minix_update_inode.
  destruct (version_eqb v MINIX_V1).
  - destruct (minix_V1_raw_inode h s (i_ino i)); [|reflexivity].
    eexists. split; reflexivity.
  - destruct (minix_V2_raw_inode h s (i_ino i)); [|reflexivity].
    eexists. split; reflexivity.
Qed.

(** C5. Write-back produces a dirtied buffer holding the raw record whenever
    the raw-inode reader of the volume's version returns the buffer of the
    inode: the buffer is that one, marked dirty, and its record holds the
    mode, owner, group, link count, size, times and zone words of the inode
    (for a device node its device number in zone word 0), each reduced to
    the width of its field. With the sync flag set the dirty buffer is
    written at once and checked: if it then carries a request and is not
    uptodate, the result is [-EIO] and a message names the volume and the
    inode number; otherwise the result is 0. When the reader returns nothing
    the update returns nothing, the result is [-EIO] and nothing is written
    or released. *)
Theorem write_back (h : host) (v : version) (s : super_block) (i : inode)
    (sync_all : bool) :
  let ino := i_ino i in
  let updated :=
    if version_eqb v MINIX_V1
    then retag raw_V1 <$> V1_minix_update_inode h s i
    else retag raw_V2 <$> V2_minix_update_inode h s i in
  let '(ret, released, calls) := minix_write_inode h v s i sync_all in
  (forall old, minix_V1_raw_inode h s ino = Some old ->
     exists bh,
       V1_minix_update_inode h s i = Some bh /\
       buffer_dirty bh = true /\
       b_req (b_flags bh) = b_req (b_flags old) /\
       b_uptodate (b_flags bh) = b_uptodate (b_flags old) /\
       r1_mode (b_data bh) = u16 (i_mode i) /\
       r1_uid (b_data bh) = u16 (fs_high2lowuid h (i_uid i)) /\
       r1_gid (b_data bh) = u8 (fs_high2lowgid h (i_gid i)) /\
       r1_nlinks (b_data bh) = u8 (i_nlink i) /\
       r1_size (b_data bh) = u32 (i_size i) /\
       r1_time (b_data bh) = u32 (tv_sec (i_mtime i)) /\
       r1_zone (b_data bh) =
         if S_ISCHR (i_mode i) || S_ISBLK (i_mode i)
         then <[0%nat := u16 (old_encode_dev h (i_rdev i))]>
                (r1_zone (b_data old))
         else copy_zones 0 9 (i_zones i) (r1_zone (b_data old))) /\
  (forall old, minix_V2_raw_inode h s ino = Some old ->
     exists bh,
       V2_minix_update_inode h s i = Some bh /\
       buffer_dirty bh = true /\
       b_req (b_flags bh) = b_req (b_flags old) /\
       b_uptodate (b_flags bh) = b_uptodate (b_flags old) /\
       r2_mode (b_data bh) = u16 (i_mode i) /\
       r2_uid (b_data bh) = u16 (fs_high2lowuid h (i_uid i)) /\
       r2_gid (b_data bh) = u16 (fs_high2lowgid h (i_gid i)) /\
       r2_nlinks (b_data bh) = u16 (i_nlink i) /\
       r2_size (b_data bh) = u32 (i_size i) /\
       r2_atime (b_data bh) = u32 (tv_sec (i_atime i)) /\
       r2_mtime (b_data bh) = u32 (tv_sec (i_mtime i)) /\
       r2_ctime (b_data bh) = u32 (tv_sec (i_ctime i)) /\
       r2_zone (b_data bh) =
         if S_ISCHR (i_mode i) || S_ISBLK (i_mode i)
         then <[0%nat := u32 (old_encode_dev h (i_rdev i))]>
                (r2_zone (b_data old))
         else copy_zones 0 10 (i_zones i) (r2_zone (b_data old))) /\
  (minix_V1_raw_inode h s ino = None -> V1_minix_update_inode h s i = None) /\
  (minix_V2_raw_inode h s ino = None -> V2_minix_update_inode h s i = None) /\
  (raw_inode_readable h v s ino = true ->
     exists bh, updated = Some bh /\ buffer_dirty bh = true /\
                b_data <$> released = Some (b_data bh) /\
                last calls = Some (brelse_inode_buffer ino)) /\
  (raw_inode_readable h v s ino = false ->
     updated = None /\ ret = - EIO /\ released = None /\ calls = []) /\
  (updated = None ->
     ret = - EIO /\ released = None /\ calls = []) /\
  (forall bh, updated = Some bh ->
     buffer_dirty bh = true /\
     b_data <$> released = Some (b_data bh) /\
     if sync_all
     then
       let after := sync_dirty_buffer h (b_flags bh) in
       b_flags <$> released = Some after /\
       In (sync_buffer ino) calls /\
       if b_req after && negb (b_uptodate after)
       then ret = - EIO /\
            In (printk_io_error_syncing (s_id s) ino) calls
       else ret = 0
     else
       ret = 0 /\ released = Some bh /\
       ~ In (sync_buffer ino) calls).
Proof.
  intros ino updated.
  pose proof (updated_of_reader h v s i) as Hreader. cbv zeta in Hreader.
  fold ino updated in Hreader.
  pose proof (V1_update_of_reader h s i) as Hr1.
  pose proof (V2_update_of_reader h s i) as Hr2.
  fold ino in Hr1, Hr2.
  assert (Hn1 : minix_V1_raw_inode h s ino = None ->
                V1_minix_update_inode h s i = None).
  { intros Hnone. unfold V1_minix_update_inode. fold ino.
    rewrite Hnone. reflexivity. }
  assert (Hn2 : minix_V2_raw_inode h s ino = None ->
                V2_minix_update_inode h s i = None).
  { intros Hnone. unfold V2_minix_update_inode. fold ino.
    rewrite Hnone. reflexivity. }
  unfold minix_write_inode. fold ino updated.
  destruct updated as [bh|] eqn:Hu.
  - assert (Hdirty : buffer_dirty bh = true).
    { destruct (raw_inode_readable h v s ino); [|discriminate].
      destruct Hreader as (bh' & [= <-] & Hd). exact Hd. }
    assert (Hable : raw_inode_readable h v s ino = true).
    { destruct (raw_inode_readable h v s ino); [reflexivity|discriminate]. }
    rewrite Hdirty, andb_true_r.
    destruct sync_all.
    + unfold buffer_req, buffer_uptodate. cbn [b_flags].
      destruct (b_req (sync_dirty_buffer h (b_flags bh))
                && negb (b_uptodate (sync_dirty_buffer h (b_flags bh))))
        eqn:Hio.
      * split; [exact Hr1|]. split; [exact Hr2|].
        split; [exact Hn1|]. split; [exact Hn2|].
        split; [intros _; exists bh; repeat split; assumption|].
        split; [rewrite Hable; discriminate|].
        split; [discriminate|]. intros bh' [= <-].
        split; [assumption|]. split; [reflexivity|]. cbv zeta.
        split; [reflexivity|]. split; [left; reflexivity|].
        rewrite Hio. split; [reflexivity|]. right; left; reflexivity.
      * split; [exact Hr1|]. split; [exact Hr2|].
        split; [exact Hn1|]. split; [exact Hn2|].
        split; [intros _; exists bh; repeat split; assumption|].
        split; [rewrite Hable; discriminate|].
        split; [discriminate|]. intros bh' [= <-].
        split; [assumption|]. split; [reflexivity|]. cbv zeta.
        split; [reflexivity|]. split; [left; reflexivity|].
        rewrite Hio. reflexivity.
    + split; [exact Hr1|]. split; [exact Hr2|].
      split; [exact Hn1|]. split; [exact Hn2|].
      split; [intros _; exists bh; repeat split; assumption|].
      split; [rewrite Hable; discriminate|].
      split; [discriminate|]. intros bh' [= <-].
      split; [assumption|]. split; [reflexivity|].
      split; [reflexivity|]. split; [reflexivity|].
      intros [H|[]]; discriminate.
  - assert (Hable : raw_inode_readable h v s ino = false).
    { destruct (raw_inode_readable h v s ino); [|reflexivity].
      destruct Hreader as (bh' & Hbh & _). discriminate. }
    split; [exact Hr1|]. split; [exact Hr2|].
    split; [exact Hn1|]. split; [exact Hn2|].
    split; [rewrite Hable; discriminate|].
    split; [intros _; repeat split|].
    split; [repeat split|]. discriminate.
Qed.

(** ** Remount *)

Lemma valid_bit_cleared st valid :
  Z.land (u16 (Z.land st (Z.lnot valid))) valid = 0.
Proof.
  unfold u16, wrap. rewrite <- Z.land_ones by lia.
  apply Z.bits_inj'. intros n Hn.
  rewrite !Z.land_spec, Z.lnot_spec, Z.bits_0 by lia.
  destruct (Z.testbit valid n), (Z.testbit st n); cbn;
    rewrite ?andb_false_r; reflexivity.
Qed.

Lemma other_bits_kept st valid n :
  0 <= n < 16 ->
  Z.testbit (u16 (Z.land st (Z.lnot valid))) n
  = Z.testbit st n && negb (Z.testbit valid n).
Proof.
  intros Hn. unfold u16, wrap. rewrite <- Z.land_ones by lia.
  rewrite !Z.land_spec, Z.lnot_spec, Z.ones_spec_low by lia.
  apply andb_true_r.
Qed.

(** C6. Remount always syncs the filesystem first and returns 0. To the mode
    the volume already has, it changes nothing. From read-write to
    read-only: if the on-disk state has VALID or the in-memory mount state
    lacks it, nothing is written; otherwise, for V1 and V2, the in-memory
    mount state is stored into the on-disk state field and the superblock
    buffer is dirtied. From read-only to read-write: for V1 and V2 the
    on-disk state is copied to memory, then VALID is cleared on disk (the
    other bits stay) and the buffer is dirtied; for V3 the in-memory state
    becomes VALID. *)
Theorem remount_transitions (hdr : minix_h) (s : super_block)
    (sbi : minix_sb_info) (flags_rdonly : bool) :
  let valid := MINIX_VALID_FS hdr in
  let ms := sbi_ms sbi in
  let '(ret, sbi', calls) := minix_remount hdr s sbi flags_rdonly in
  ret = 0 /\
  head calls = Some sync_filesystem /\
  (flags_rdonly = s_rdonly s -> sbi' = sbi) /\
  (s_rdonly s = false -> flags_rdonly = true ->
     (Z.land (s_state ms) valid <> 0 \/ Z.land (sbi_mount_state sbi) valid = 0 ->
        sbi' = sbi) /\
     (Z.land (s_state ms) valid = 0 -> Z.land (sbi_mount_state sbi) valid <> 0 ->
        sbi_version sbi <> MINIX_V3 ->
        s_state (sbi_ms sbi') = sbi_mount_state sbi /\
        sbi_sbh_dirty sbi' = true /\
        sbi_mount_state sbi' = sbi_mount_state sbi)) /\
  (s_rdonly s = true -> flags_rdonly = false ->
     (sbi_version sbi <> MINIX_V3 ->
        sbi_mount_state sbi' = s_state ms /\
        Z.land (s_state (sbi_ms sbi')) valid = 0 /\
        (forall n, 0 <= n < 16 ->
           Z.testbit (s_state (sbi_ms sbi')) n
           = Z.testbit (s_state ms) n && negb (Z.testbit valid n)) /\
        sbi_sbh_dirty sbi' = true) /\
     (sbi_version sbi = MINIX_V3 ->
        sbi_mount_state sbi' = valid /\ sbi_ms sbi' = ms)).
Proof.
  intros valid ms. unfold minix_remount. fold valid ms.
  destruct flags_rdonly, (s_rdonly s); cbn [Bool.eqb].
  - (* ro -> ro *)
    repeat split; try discriminate.
  - (* rw -> ro *)
    destruct (Z.eqb_spec (Z.land (s_state ms) valid) 0) as [Hd|Hd];
      destruct (Z.eqb_spec (Z.land (sbi_mount_state sbi) valid) 0) as [Hm|Hm];
      cbn [negb orb].
    + repeat split; try discriminate; try reflexivity; lia.
    + repeat split; try discriminate; try reflexivity.
      * intros [? | ?]; congruence.
      * destruct (sbi_version sbi); cbn; congruence.
    + repeat split; try discriminate; try reflexivity; lia.
    + repeat split; try discriminate; try reflexivity; lia.
  - (* ro -> rw *)
    destruct (sbi_version sbi) eqn:Hv; cbn [version_eqb negb];
      repeat split; try discriminate; try congruence.
    all: try apply valid_bit_cleared.
    all: try (intros; apply other_bits_kept; assumption).
  - (* rw -> rw *)
    repeat split; try discriminate.
Qed.

(** ** Eviction *)

Lemma precedes_app_r a b l1 l2 :
  precedes a b l2 = true -> precedes a b (l1 ++ l2) = true.
Proof.
  intros H. induction l1 as [|x l1 IH]; cbn; [exact H|].
  rewrite IH. apply orb_true_r.
Qed.

(** The calls of [minix_evict_inode], in order. The page cache of the inode
    is truncated first. With a link count of zero the size is then set to
    zero and [minix_truncate] runs on the inode (the zone walker of the
    volume's version, for regular files, directories and symlinks), the
    buffers of the file are invalidated, the inode is cleared, and the inode
    is freed in the inode bitmap. With a positive link count neither the
    truncation nor the bitmap free runs: the inode is left as it is, its
    buffers are invalidated and it is cleared. *)
Lemma evict_inode_calls (v : version) (i : inode) :
  let ino := i_ino i in
  let '(i', calls) := minix_evict_inode v i in
  (i_nlink i = 0 ->
     i_size i' = 0 /\
     calls = truncate_inode_pages_final ino
             :: minix_truncate v (inode_with_size 0 i)
             ++ [invalidate_inode_buffers ino; clear_inode ino;
                 minix_free_inode ino] /\
     (S_ISREG (i_mode i) || S_ISDIR (i_mode i) || S_ISLNK (i_mode i) = true ->
        minix_truncate v (inode_with_size 0 i) =
          [match v with
           | MINIX_V1 => V1_minix_truncate ino 0
           | MINIX_V2 | MINIX_V3 => V2_minix_truncate ino 0
           end]) /\
     precedes (clear_inode ino) (minix_free_inode ino) calls = true) /\
  (i_nlink i <> 0 ->
     i' = i /\
     calls = [truncate_inode_pages_final ino; invalidate_inode_buffers ino;
              clear_inode ino]) /\
  In (invalidate_inode_buffers ino) calls.
Proof.
  intros ino. unfold minix_evict_inode. fold ino.
  destruct (Z.eqb_spec (i_nlink i) 0) as [Hz|Hnz].
  - cbn [inode_with_size i_nlink i_ino]. rewrite Hz. cbn [Z.eqb].
    split; [|split; [intros; congruence|]].
    + intros _. split; [reflexivity|]. split.
      { cbn. rewrite <- !app_assoc. reflexivity. }
      split.
      { intros Hm. unfold minix_truncate. cbn [inode_with_size i_mode i_ino i_size].
        rewrite Hm. destruct v; reflexivity. }
      rewrite <- app_assoc. apply precedes_app_r.
      cbn. fold ino. rewrite !Z.eqb_refl. reflexivity.
    + rewrite !in_app_iff. left; right. left. reflexivity.
  - apply Z.eqb_neq in Hnz. rewrite Hnz.
    split; [intros Hz; apply Z.eqb_neq in Hnz; congruence|].
    split; [intros _; split; reflexivity|].
    right; left; reflexivity.
Qed.

(** C7. An eviction, from the inode cache's side. With a link count of zero
    nothing is written back; the size of the inode is set to zero, then
    [minix_truncate] runs on it (the zone walker of the volume's version is
    called with size 0 for regular files, directories and symlinks), then,
    the buffers of the file invalidated and the inode cleared, the inode is
    freed in the inode bitmap; that is the last call of [minix_evict_inode],
    and only after it the entry is dropped by [minix_destroy_inode]. With a
    positive link count neither a zone walker nor [minix_free_inode] is
    called and the inode keeps its fields: it is written back exactly when
    it is dirty, its buffers are invalidated, and it is dropped. In both
    cases [invalidate_inode_buffers] is called, and the drop comes last. *)
Theorem eviction_lifecycle (h : host) (v : version) (s : super_block)
    (i : inode) (dirty sync_all : bool) :
  let ino := i_ino i in
  let drop := call_rcu (kmem_cache_free ino) in
  let walker :=
    match v with
    | MINIX_V1 => V1_minix_truncate ino 0
    | MINIX_V2 | MINIX_V3 => V2_minix_truncate ino 0
    end in
  let '(i', calls) := inode_cache_evict h v s i dirty sync_all in
  (i_nlink i = 0 ->
     i_size i' = 0 /\
     calls = map during_evict_inode
               (truncate_inode_pages_final ino
                :: minix_truncate v (inode_with_size 0 i)
                ++ [invalidate_inode_buffers ino; clear_inode ino;
                    minix_free_inode ino])
             ++ [drop] /\
     (S_ISREG (i_mode i) || S_ISDIR (i_mode i) || S_ISLNK (i_mode i) = true ->
        minix_truncate v (inode_with_size 0 i) = [walker] /\
        calls = map during_evict_inode
                  [truncate_inode_pages_final ino; walker;
                   invalidate_inode_buffers ino; clear_inode ino;
                   minix_free_inode ino]
                ++ [drop]) /\
     (exists before,
        calls = before ++ [during_evict_inode (minix_free_inode ino); drop]) /\
     (forall e, ~ In (during_write_inode e) calls) /\
     (forall ret, ~ In (write_inode_returned ret) calls)) /\
  (i_nlink i <> 0 ->
     i' = i /\
     calls = (if dirty
              then
                let '(ret, _, written) := minix_write_inode h v s i sync_all in
                map during_write_inode written ++ [write_inode_returned ret]
              else [])
             ++ map during_evict_inode
                  [truncate_inode_pages_final ino;
                   invalidate_inode_buffers ino; clear_inode ino]
             ++ [drop] /\
     (forall n sz, ~ In (during_evict_inode (V1_minix_truncate n sz)) calls /\
                   ~ In (during_evict_inode (V2_minix_truncate n sz)) calls) /\
     (forall n, ~ In (during_evict_inode (minix_free_inode n)) calls) /\
     ((exists ret, In (write_inode_returned ret) calls) <-> dirty = true)) /\
  In (during_evict_inode (invalidate_inode_buffers ino)) calls /\
  last calls = Some drop.
Proof.
  intros ino drop walker. unfold inode_cache_evict.
  pose proof (evict_inode_calls v i) as He. cbv zeta in He. fold ino in He.
  destruct (minix_evict_inode v i) as [i' tr] eqn:Hev.
  destruct He as (Hzero & Hpos & Hinv).
  assert (Hino : i_ino i' = ino).
  { revert Hev. unfold minix_evict_inode.
    destruct (i_nlink i =? 0); cbn [inode_with_size i_nlink i_ino];
      destruct (_ =? 0); intros [= <- _]; reflexivity. }
  unfold minix_destroy_inode, minix_i_callback. rewrite Hino. fold drop.
  split; [|split; [|split]].
  - intros Hz. destruct (Hzero Hz) as (Hsize & Htr & Hwalk & _).
    rewrite Hz. cbn [Z.eqb negb andb app].
    split; [exact Hsize|]. split; [rewrite Htr; reflexivity|].
    split; [|split; [|split]].
    + intros Hm. specialize (Hwalk Hm).
      assert (Hw : minix_truncate v (inode_with_size 0 i) = [walker]).
      { rewrite Hwalk. subst walker. destruct v; reflexivity. }
      split; [exact Hw|]. rewrite Htr, Hw. reflexivity.
    + exists (map during_evict_inode
                (truncate_inode_pages_final ino
                 :: minix_truncate v (inode_with_size 0 i)
                 ++ [invalidate_inode_buffers ino; clear_inode ino])).
      rewrite Htr. cbn [map app]. rewrite !map_app. cbn [map].
      rewrite <- !app_assoc. reflexivity.
    + intros e Hin. apply in_app_iff in Hin as [Hin | [Hin | []]];
        [|discriminate].
      apply in_map_iff in Hin as (x & Hx & _). discriminate.
    + intros ret Hin. apply in_app_iff in Hin as [Hin | [Hin | []]];
        [|discriminate].
      apply in_map_iff in Hin as (x & Hx & _). discriminate.
  - intros Hnz. destruct (Hpos Hnz) as (-> & ->).
    apply Z.eqb_neq in Hnz. rewrite Hnz. cbn [negb andb].
    split; [reflexivity|]. split; [reflexivity|].
    assert (Hwb : forall c,
              In c (if dirty
                    then
                      let '(ret, _, written) :=
                        minix_write_inode h v s i sync_all in
                      map during_write_inode written
                      ++ [write_inode_returned ret]
                    else []) ->
              (exists e, c = during_write_inode e)
              \/ (exists ret, c = write_inode_returned ret)).
    { intros c. destruct dirty; [|intros []].
      destruct (minix_write_inode h v s i sync_all) as [[ret rel] written].
      intros Hin. apply in_app_iff in Hin as [Hin | [<- | []]].
      - apply in_map_iff in Hin as (e & <- & _). left. eexists. reflexivity.
      - right. eexists. reflexivity. }
    split; [|split].
    + intros n sz. split; intros Hin;
        (apply in_app_iff in Hin as [Hin | Hin];
         [apply Hwb in Hin as [[e He] | [ret He]]; discriminate
         |cbn in Hin; destruct Hin as [Hin | [Hin | [Hin | [Hin | []]]]];
            discriminate]).
    + intros n Hin.
      apply in_app_iff in Hin as [Hin | Hin];
        [apply Hwb in Hin as [[e He] | [ret He]]; discriminate
        |cbn in Hin; destruct Hin as [Hin | [Hin | [Hin | [Hin | []]]]];
           discriminate].
    + split.
      * intros [ret Hin]. destruct dirty; [reflexivity|].
        cbn in Hin. destruct Hin as [Hin | [Hin | [Hin | [Hin | []]]]];
          discriminate.
      * intros ->.
        destruct (minix_write_inode h v s i sync_all) as [[ret rel] written].
        exists ret. apply in_app_iff. left. apply in_app_iff. right.
        left. reflexivity.
  - apply in_app_iff. right. apply in_app_iff. left.
    apply in_map. exact Hinv.
  - rewrite app_assoc. apply last_snoc.
Qed.

(** ** Mount: the reserved bits *)

Lemma read_map_length h s n : forall block l,
  read_map h s block n = Some l -> length l = n.
Proof.
  induction n as [|n IH]; intros block l; cbn.
  - intros [= <-]. reflexivity.
  - destruct (sb_bread h s block); [|discriminate].
    destruct (read_map h s (block + 1) n) as [l'|] eqn:Hr; [|discriminate].
    intros [= <-]. cbn. f_equal. eapply IH, Hr.
Qed.

Lemma set_bit0_of_first_head map :
  map <> [] ->
  exists d rest, set_bit0_of_first map = d :: rest /\ minix_test_bit 0 d = true.
Proof.
  destruct map as [|d rest]; [congruence|]. intros _.
  exists (minix_set_bit 0 d), rest. split; [reflexivity|].
  unfold minix_test_bit, minix_set_bit. apply Z.setbit_eq. lia.
Qed.

Lemma finish_mount_mounted hdr h s sbi s' :
  finish_mount hdr h s sbi = mounted s' ->
  exists sbi', s_fs_info s' = Some sbi' /\
               sbi_imap sbi' = sbi_imap sbi /\ sbi_zmap sbi' = sbi_zmap sbi.
Proof.
  unfold finish_mount, fill_fail.
  destruct (minix_iget _ _ _ _); [|discriminate].
  destruct (d_make_root h a); cbn [negb]; [|discriminate].
  intros [= <-]. cbn. eexists. split; [reflexivity|].
  destruct (s_rdonly s); cbn; split; reflexivity.
Qed.

Lemma load_bitmaps_mounted hdr h s sbi s' :
  0 <= sbi_imap_blocks sbi -> 0 <= sbi_zmap_blocks sbi ->
  load_bitmaps hdr h s sbi = mounted s' ->
  exists imap zmap,
    imap <> [] /\ zmap <> [] /\
    finish_mount hdr h s
      (sbi_with_maps (set_bit0_of_first imap) (set_bit0_of_first zmap) sbi)
    = mounted s'.
Proof.
  intros Hi0 Hz0. unfold load_bitmaps, fill_fail.
  destruct (Z.eqb_spec (sbi_imap_blocks sbi) 0) as [|Hi]; [discriminate|].
  destruct (Z.eqb_spec (sbi_zmap_blocks sbi) 0) as [|Hz]; [discriminate|].
  cbn [orb]. destruct (kzalloc_map h); cbn [negb]; [|discriminate].
  destruct (read_map h s 2 _) as [imap|] eqn:Hri; [|discriminate].
  destruct (read_map h s (2 + _) _) as [zmap|] eqn:Hrz; [|discriminate].
  apply read_map_length in Hri, Hrz.
  repeat case_match; try discriminate. intros Hm.
  exists imap, zmap. split; [|split; [|exact Hm]].
  - intros ->. cbn in Hri. lia.
  - intros ->. cbn in Hrz. lia.
Qed.

Lemma fill_super_mounted hdr h s s' :
  minix_fill_super hdr h s = mounted s' ->
  exists d s1 s2 sbi,
    parse_super hdr h d s1 = (s2, Some sbi) /\
    load_bitmaps hdr h s2 sbi = mounted s'.
Proof.
  unfold minix_fill_super, fill_fail.
  repeat case_match; try discriminate. intros Hm. subst. eauto 10.
Qed.

(** C8. On every volume that mounts, bit 0 of the first inode-bitmap block
    and bit 0 of the first zone-bitmap block are set in memory, whatever the
    device held: both are set right after the bitmap blocks are read.
    Remount leaves the bitmaps as they are. *)
Theorem bit0_reserved_at_mount (hdr : minix_h) (h : host) (s s' : super_block) :
  minix_fill_super hdr h s = mounted s' ->
  exists sbi im irest zm zrest,
    s_fs_info s' = Some sbi /\
    sbi_imap sbi = im :: irest /\ minix_test_bit 0 im = true /\
    sbi_zmap sbi = zm :: zrest /\ minix_test_bit 0 zm = true /\
    forall flags_rdonly,
      let sbi' := snd (fst (minix_remount hdr s' sbi flags_rdonly)) in
      sbi_imap sbi' = sbi_imap sbi /\ sbi_zmap sbi' = sbi_zmap sbi.
Proof.
  intros Hm.
  destruct (fill_super_mounted _ _ _ _ Hm) as (d & s1 & s2 & sbi0 & Hp & Hl).
  destruct (parse_super_ranges _ _ _ _ _ _ Hp) as (_ & _ & _ & Hi & Hz).
  destruct (load_bitmaps_mounted _ _ _ _ _ (proj1 Hi) (proj1 Hz) Hl)
    as (imap & zmap & Hin & Hzn & Hf).
  destruct (finish_mount_mounted _ _ _ _ _ Hf) as (sbi & Hinfo & Hsi & Hsz).
  cbn in Hsi, Hsz.
  destruct (set_bit0_of_first_head imap Hin) as (im & irest & Him & Hib).
  destruct (set_bit0_of_first_head zmap Hzn) as (zm & zrest & Hzm & Hzb).
  exists sbi, im, irest, zm, zrest.
  repeat split; try assumption; try congruence.
  all: unfold minix_remount; repeat case_match; simplify_eq; reflexivity.
Qed.

(** ** Statfs *)

(** C9. [minix_statfs] reports the magic of the volume, its block size, the
    data blocks [(nzones - firstdatazone) << log_zone_size] (computed in
    unsigned long), the free zones of the zone bitmap as both free and
    available blocks, [s_ninodes] as the inode total, the free inodes of the
    inode bitmap, the name length of the volume, and the two 32-bit halves
    of the encoded device number as filesystem id. *)
Theorem statfs_report (h : host) (s : super_block) (sbi : minix_sb_info) :
  let buf := minix_statfs h s sbi in
  let id := u64 (huge_encode_dev h (s_dev s)) in
  f_type buf = sb_magic s /\
  f_bsize buf = s_blocksize s /\
  f_blocks buf
  = ulong (Z.shiftl (ulong (sbi_nzones sbi - sbi_firstdatazone sbi))
                    (sbi_log_zone_size sbi)) /\
  (sbi_firstdatazone sbi <= sbi_nzones sbi ->
   0 <= sbi_log_zone_size sbi ->
   (sbi_nzones sbi - sbi_firstdatazone sbi) * 2 ^ sbi_log_zone_size sbi < 2 ^ 64 ->
   f_blocks buf
   = Z.shiftl (sbi_nzones sbi - sbi_firstdatazone sbi) (sbi_log_zone_size sbi)) /\
  f_bfree buf = minix_count_free_blocks h s /\
  f_bavail buf = f_bfree buf /\
  f_files buf = sbi_ninodes sbi /\
  f_ffree buf = minix_count_free_inodes h s /\
  f_namelen buf = sbi_namelen sbi /\
  f_fsid0 buf = u32 id /\
  f_fsid1 buf = u32 (Z.shiftr id 32).
Proof.
  cbv zeta. unfold minix_statfs. cbn.
  assert (Hu : forall x, u64 (ulong x) = ulong x).
  { intros x. unfold u64, ulong, wrap, BITS_PER_LONG. apply Z.mod_mod. lia. }
  repeat split; try apply Hu.
  intros Hle Hlz Hfit. rewrite Hu.
  assert (Hp : 0 < 2 ^ sbi_log_zone_size sbi) by (apply Z.pow_pos_nonneg; lia).
  rewrite (ulong_small (sbi_nzones sbi - sbi_firstdatazone sbi)) by nia.
  apply ulong_small. rewrite Z.shiftl_mul_pow2 by lia. nia.
Qed.

(** ** Module initialisation *)

(** C10. Once the inode cache exists, [init_minix_fs] calls
    [register_filesystem] and then unwinds whatever the result: it returns
    that result with the inode cache destroyed. So after a successful
    registration it returns 0, the cache is gone and the filesystem stays
    registered; there is no path that registers and keeps the cache. *)
Theorem init_unwinds_after_register (h : host) (st : module_state) :
  kmem_cache_create h = true ->
  let '(ret, st') := init_minix_fs h st in
  ret = register_filesystem h /\
  minix_inode_cachep st' = false /\
  (register_filesystem h = 0 ->
     ret = 0 /\ minix_fs_registered st' = true /\ minix_inode_cachep st' = false).
Proof.
  intros Hc. unfold init_minix_fs, init_inodecache. rewrite Hc. cbn.
  split; [reflexivity|]. split; [reflexivity|].
  intros Hreg. rewrite Hreg. cbn. repeat split. apply orb_true_r.
Qed.

(** * The properties at concrete volumes *)




(** The root directory read through either reader. *)
Lemma inode_population_witness :
  let h := demo_host v1_superblock true in
  (exists i', V1_minix_iget h fresh_sb (new_inode 1) = Ok i' /\
     take 9 (i_zones i') = [3; 0; 0; 0; 0; 0; 0; 0; 0] /\
     i_mtime i' = {| tv_sec := 1000; tv_nsec := 0 |} /\
     i_ctime i' = {| tv_sec := 1000; tv_nsec := 0 |}) /\
  (exists i', V2_minix_iget h fresh_sb (new_inode 1) = Ok i' /\
     take 10 (i_zones i') = [3; 0; 0; 0; 0; 0; 0; 0; 0; 0] /\
     i_mtime i' = {| tv_sec := 1002; tv_nsec := 0 |} /\
     i_ctime i' = {| tv_sec := 1003; tv_nsec := 0 |}) /\
  V1_minix_iget unreadable_host fresh_sb (new_inode 1) = Err (- EIO) /\
  minix_iget h MINIX_V3 fresh_sb 1 = V2_minix_iget h fresh_sb (new_inode 1).
Proof.
  cbv zeta.
  pose proof (inode_population (demo_host v1_superblock true) fresh_sb
                               (new_inode 1)) as (H1 & H2 & _ & _ & H5).
  pose proof (inode_population unreadable_host fresh_sb (new_inode 1))
    as (_ & _ & H3 & _).
  split; [|split; [|split]].
  - destruct (H1 _ eq_refl eq_refl) as (i' & Hi & Ht & _ & _ & _ & _ & _ & _ & Hm & _ & Hc).
    { cbn. lia. }
    exists i'. repeat split; assumption.
  - destruct (H2 _ eq_refl eq_refl) as (i' & Hi & Ht & _ & _ & _ & _ & _ & _ & Hm & _ & Hc).
    { cbn. lia. }
    exists i'. repeat split; assumption.
  - apply H3. reflexivity.
  - apply (H5 MINIX_V3); reflexivity.
Defined.

(** The file of scenario 5 flushed four ways: its V1 record; a synchronous V1
    flush on a device that completes the write with the buffer not uptodate;
    a V2 flush without sync; and a flush on a volume whose inode table
    cannot be read. *)
Lemma write_back_witness :
  let h := demo_host v1_superblock false in
  (minix_V1_raw_inode h fresh_sb 7
   = Some {| b_data := root_raw_V1; b_flags := clean_flags |} /\
   exists bh,
     V1_minix_update_inode h fresh_sb unlinked_file = Some bh /\
     buffer_dirty bh = true /\
     r1_mode (b_data bh) = 0x81A4 /\ r1_uid (b_data bh) = 0 /\
     r1_gid (b_data bh) = 0 /\ r1_nlinks (b_data bh) = 0 /\
     r1_size (b_data bh) = 5000 /\ r1_time (b_data bh) = 5 /\
     r1_zone (b_data bh) = [10; 11; 12; 13; 14; 0; 0; 0; 0]) /\
  (raw_inode_readable h MINIX_V1 fresh_sb 7 = true /\
   let '(ret, released, calls) :=
     minix_write_inode h MINIX_V1 fresh_sb unlinked_file true in
   ret = - EIO /\
   (exists bh, released = Some bh) /\
   In (printk_io_error_syncing "loop0" 7) calls /\
   last calls = Some (brelse_inode_buffer 7)) /\
  (minix_V2_raw_inode h fresh_sb 7
   = Some {| b_data := root_raw_V2; b_flags := clean_flags |} /\
   raw_inode_readable h MINIX_V2 fresh_sb 7 = true /\
   let '(ret, released, calls) :=
     minix_write_inode h MINIX_V2 fresh_sb unlinked_file false in
   exists bh,
     V2_minix_update_inode h fresh_sb unlinked_file = Some bh /\
     buffer_dirty bh = true /\
     r2_zone (b_data bh) = [10; 11; 12; 13; 14; 0; 0; 0; 0; 0] /\
     r2_atime (b_data bh) = 5 /\
     ret = 0 /\ released = Some (retag raw_V2 bh) /\
     ~ In (sync_buffer 7) calls) /\
  (raw_inode_readable unreadable_host MINIX_V1 fresh_sb 7 = false /\
   minix_write_inode unreadable_host MINIX_V1 fresh_sb unlinked_file true
   = (- EIO, None, [])).
Proof.
  cbv zeta.
  pose proof (write_back (demo_host v1_superblock false) MINIX_V1 fresh_sb
                         unlinked_file true) as H1.
  pose proof (write_back (demo_host v1_superblock false) MINIX_V2 fresh_sb
                         unlinked_file false) as H2.
  pose proof (write_back unreadable_host MINIX_V1 fresh_sb unlinked_file true)
    as H3.
  cbv zeta in H1, H2, H3.
  destruct (minix_write_inode (demo_host v1_superblock false) MINIX_V1
              fresh_sb unlinked_file true) as [[ret1 released1] calls1].
  destruct (minix_write_inode (demo_host v1_superblock false) MINIX_V2
              fresh_sb unlinked_file false) as [[ret2 released2] calls2].
  destruct (minix_write_inode unreadable_host MINIX_V1 fresh_sb unlinked_file
              true) as [[ret3 released3] calls3].
  destruct H1 as (Hrec1 & _ & _ & _ & Hable1 & _ & _ & Hsome1).
  destruct H2 as (_ & Hrec2 & _ & _ & Hable2 & _ & _ & Hsome2).
  destruct H3 as (_ & _ & _ & _ & _ & Hnone3 & _ & _).
  split; [|split; [|split]].
  - split; [reflexivity|].
    destruct (Hrec1 _ eq_refl)
      as (bh & Hup & Hd & _ & _ & Hmode & Huid & Hgid & Hnl & Hsz & Ht & Hz).
    exists bh. rewrite Hmode, Huid, Hgid, Hnl, Hsz, Ht, Hz.
    split; [exact Hup|]. split; [exact Hd|]. repeat split.
  - split; [reflexivity|].
    destruct (Hable1 eq_refl) as (bh & Hu & _ & Hrel & Hlast).
    destruct (Hsome1 bh Hu) as (_ & _ & _ & _ & Hio).
    vm_compute in Hu. injection Hu as <-. cbn in Hio.
    destruct Hio as [-> Hin].
    split; [reflexivity|]. split; [|split; [exact Hin | exact Hlast]].
    destruct released1 as [b|]; [exists b; reflexivity | discriminate].
  - split; [reflexivity|]. split; [reflexivity|].
    destruct (Hrec2 _ eq_refl)
      as (bh & Hup & Hd & _ & _ & _ & _ & _ & _ & _ & Hat & _ & _ & Hz).
    destruct (Hable2 eq_refl) as (bh' & Hu & _).
    destruct (Hsome2 bh' Hu) as (_ & _ & Hret & Hrel & Hnosync).
    cbn [version_eqb] in Hu. rewrite Hup in Hu. injection Hu as <-.
    exists bh. rewrite Hat, Hz.
    split; [exact Hup|]. split; [exact Hd|]. split; [reflexivity|].
    split; [reflexivity|]. split; [exact Hret|].
    split; [exact Hrel | exact Hnosync].
  - split; [reflexivity|].
    destruct (Hnone3 eq_refl) as (_ & -> & -> & ->). reflexivity.
Defined.

(** Scenario 6: a V1 volume mounted read-only whose on-disk state is VALID
    goes read-write. *)
Lemma remount_transitions_witness :
  s_rdonly v1_sb_rdonly = true /\
  sbi_version v1_volume <> MINIX_V3 /\
  s_state (sbi_ms v1_volume) = 1 /\
  let sbi' := snd (fst (minix_remount linux_minix_h v1_sb_rdonly v1_volume false)) in
  sbi_mount_state sbi' = 1 /\
  Z.land (s_state (sbi_ms sbi')) 1 = 0 /\
  sbi_sbh_dirty sbi' = true.
Proof.
  split; [reflexivity|]. split; [discriminate|]. split; [reflexivity|].
  pose proof (remount_transitions linux_minix_h v1_sb_rdonly v1_volume false)
    as H.
  cbv zeta in H.
  destruct (minix_remount linux_minix_h v1_sb_rdonly v1_volume false)
    as [[ret sbi'] calls].
  destruct H as (_ & _ & _ & _ & H).
  destruct (H eq_refl eq_refl) as [H12 _].
  destruct H12 as (Hm & Hv & _ & Hd); [discriminate|].
  cbn. repeat split; assumption.
Defined.

(** Scenario 5: the file of 5000 bytes evicted with its last link gone, and
    evicted dirty with a link left, on a V1 volume. *)
Lemma eviction_lifecycle_witness :
  let h := demo_host v1_superblock true in
  i_nlink unlinked_file = 0 /\ i_nlink linked_file <> 0 /\
  S_ISREG (i_mode unlinked_file) = true /\
  (let '(i', calls) :=
     inode_cache_evict h MINIX_V1 fresh_sb unlinked_file true true in
   i_size i' = 0 /\
   calls = [during_evict_inode (truncate_inode_pages_final 7);
            during_evict_inode (V1_minix_truncate 7 0);
            during_evict_inode (invalidate_inode_buffers 7);
            during_evict_inode (clear_inode 7);
            during_evict_inode (minix_free_inode 7);
            call_rcu (kmem_cache_free 7)]) /\
  (let '(i', calls) :=
     inode_cache_evict h MINIX_V1 fresh_sb linked_file true true in
   i' = linked_file /\
   calls = [during_write_inode (sync_buffer 7);
            during_write_inode (brelse_inode_buffer 7);
            write_inode_returned 0;
            during_evict_inode (truncate_inode_pages_final 7);
            during_evict_inode (invalidate_inode_buffers 7);
            during_evict_inode (clear_inode 7);
            call_rcu (kmem_cache_free 7)]) /\
  (let '(i', calls) :=
     inode_cache_evict h MINIX_V1 fresh_sb linked_file false true in
   i' = linked_file /\
   calls = [during_evict_inode (truncate_inode_pages_final 7);
            during_evict_inode (invalidate_inode_buffers 7);
            during_evict_inode (clear_inode 7);
            call_rcu (kmem_cache_free 7)]).
Proof.
  cbv zeta.
  split; [reflexivity|]. split; [discriminate|]. split; [reflexivity|].
  pose proof (eviction_lifecycle (demo_host v1_superblock true) MINIX_V1
                fresh_sb unlinked_file true true) as H0.
  pose proof (eviction_lifecycle (demo_host v1_superblock true) MINIX_V1
                fresh_sb linked_file true true) as H1.
  pose proof (eviction_lifecycle (demo_host v1_superblock true) MINIX_V1
                fresh_sb linked_file false true) as H2.
  cbv zeta in H0, H1, H2.
  destruct (inode_cache_evict (demo_host v1_superblock true) MINIX_V1 fresh_sb
              unlinked_file true true) as [i0 c0].
  destruct (inode_cache_evict (demo_host v1_superblock true) MINIX_V1 fresh_sb
              linked_file true true) as [i1 c1].
  destruct (inode_cache_evict (demo_host v1_superblock true) MINIX_V1 fresh_sb
              linked_file false true) as [i2 c2].
  destruct H0 as (H0 & _). destruct H1 as (_ & H1 & _).
  destruct H2 as (_ & H2 & _).
  destruct (H0 eq_refl) as (Hsize & _ & Hreg & _).
  destruct (Hreg eq_refl) as (_ & Hcalls).
  destruct H1 as (Hi1 & Hc1 & _); [discriminate|].
  destruct H2 as (Hi2 & Hc2 & _); [discriminate|].
  split; [split; [exact Hsize | exact Hcalls]|].
  split; [split; [exact Hi1 | exact Hc1]|].
  split; [exact Hi2 | exact Hc2].
Defined.

(** Scenario 1: the clean V1 volume mounts with both reserved bits set. *)
Lemma bit0_reserved_at_mount_witness :
  let h := demo_host v1_superblock true in
  exists s', minix_fill_super linux_minix_h h fresh_sb = mounted s' /\
  exists sbi im irest zm zrest,
    s_fs_info s' = Some sbi /\
    sbi_imap sbi = im :: irest /\ minix_test_bit 0 im = true /\
    sbi_zmap sbi = zm :: zrest /\ minix_test_bit 0 zm = true.
Proof.
  cbv zeta. eexists. split; [vm_compute; reflexivity|].
  destruct (bit0_reserved_at_mount linux_minix_h (demo_host v1_superblock true)
              fresh_sb _ ltac:(vm_compute; reflexivity))
    as (sbi & im & irest & zm & zrest & H1 & H2 & H3 & H4 & H5 & _).
  exists sbi, im, irest, zm, zrest. repeat split; assumption.
Defined.

(** Scenario 1: statfs on the clean V1 volume reports 16 inodes, 61 data
    blocks and names of 14 bytes. *)
Lemma statfs_report_witness :
  let h := demo_host v1_superblock true in
  let buf := minix_statfs h v1_sb_rdonly v1_volume in
  (sbi_firstdatazone v1_volume <= sbi_nzones v1_volume /\
   0 <= sbi_log_zone_size v1_volume) /\
  f_blocks buf = 61 /\ f_files buf = 16 /\ f_namelen buf = 14 /\
  f_type buf = 0x137F /\ f_bsize buf = 1024 /\ f_bavail buf = f_bfree buf.
Proof.
  cbv zeta. split; [split; discriminate|].
  destruct (statfs_report (demo_host v1_superblock true) v1_sb_rdonly v1_volume)
    as (Ht & Hb & _ & Hblocks & _ & Hav & Hf & _ & Hn & _).
  rewrite Hblocks, Hf, Hn, Ht, Hb, Hav by (try discriminate; reflexivity).
  repeat split.
Defined.

(** Loading the module where the slab and the registration both succeed. *)
Lemma init_unwinds_after_register_witness :
  let h := demo_host v1_superblock true in
  kmem_cache_create h = true /\ register_filesystem h = 0 /\
  init_minix_fs h unloaded
  = (0, {| minix_inode_cachep := false; minix_fs_registered := true |}).
Proof.
  cbv zeta. split; [reflexivity|]. split; [reflexivity|].
  pose proof (init_unwinds_after_register (demo_host v1_superblock true)
                                          unloaded eq_refl) as H.
  destruct (init_minix_fs (demo_host v1_superblock true) unloaded)
    as [ret [cache reg]].
  destruct H as (_ & _ & H). destruct (H eq_refl) as (-> & Hr & Hc).
  cbn in Hr, Hc. subst. reflexivity.
Defined.

(** * End-to-end scenarios of the specification *)

(** Scenario 1: after a writable mount of the clean V1 volume the on-disk
    state has lost VALID, the in-memory state keeps it, and the superblock
    buffer is dirty. *)
Example scenario_clean_V1_mount :
  exists s' sbi,
    minix_fill_super linux_minix_h (demo_host v1_superblock true) fresh_sb
    = mounted s' /\
    s_fs_info s' = Some sbi /\
    s_state (minix_sb_of v1_superblock) = 1 /\
    s_state (sbi_ms sbi) = 0 /\
    sbi_mount_state sbi = 1 /\
    sbi_sbh_dirty sbi = true /\
    i_ino <$> s_root s' = Some MINIX_ROOT_INO.
Proof.
  eexists _, _. split; [vm_compute; reflexivity|]. repeat split.
Qed.

(** Scenario 3, on V1 where the inode count is 16 bits wide: 65535 inodes
    need eight bitmap blocks of 1024 bytes, one is not enough. *)
Example scenario_starved_bitmap :
  minix_blocks_needed 65535 BLOCK_SIZE = 8 /\
  exists s',
    minix_fill_super linux_minix_h (demo_host starved_superblock true) fresh_sb
    = failed out_no_bitmap (- EINVAL) s' /\
    s_fs_info s' = None.
Proof.
  split; [reflexivity|]. eexists. split; [vm_compute; reflexivity|].
  reflexivity.
Qed.

(** Scenario 6: read-only to read-write clears VALID on disk; going back to
    read-only restores it. *)
Example scenario_remount_round_trip :
  let '(_, rw, _) :=
    minix_remount linux_minix_h v1_sb_rdonly v1_volume false in
  let '(_, ro, _) := minix_remount linux_minix_h fresh_sb rw true in
  s_state (sbi_ms v1_volume) = 1 /\
  s_state (sbi_ms rw) = 0 /\ sbi_mount_state rw = 1 /\
  s_state (sbi_ms ro) = 1 /\ sbi_sbh_dirty ro = true.
Proof. vm_compute. repeat split. Qed.

(** * Further properties of the driver *)

(** ** What a successful mount went through *)

Lemma read_map_lookup h s n : forall block l (k : nat),
  read_map h s block n = Some l -> (k < n)%nat ->
  l !! k = bread h (s_blocksize s) (block + Z.of_nat k).
Proof.
  induction n as [|n IH]; intros block l k; cbn; [lia|].
  unfold sb_bread. destruct (bread h (s_blocksize s) block) as [d|] eqn:Hd;
    [|discriminate].
  destruct (read_map h s (block + 1) n) as [l'|] eqn:Hr; [|discriminate].
  intros [= <-] Hk. rewrite lookup_cons. destruct k as [|k].
  - rewrite Z.add_0_r. symmetry. exact Hd.
  - rewrite (IH _ _ k Hr) by lia. f_equal. lia.
Qed.

(** The steps behind [mounted s']. *)
Lemma fill_super_inversion hdr h s s' :
  minix_fill_super hdr h s = mounted s' ->
  exists d s2 sbi0 imap zmap root,
    bread h BLOCK_SIZE 1 = Some d /\
    parse_super hdr h d (sb_with_blocksize BLOCK_SIZE s) = (s2, Some sbi0) /\
    sbi_imap_blocks sbi0 <> 0 /\ sbi_zmap_blocks sbi0 <> 0 /\
    read_map h s2 2 (Z.to_nat (sbi_imap_blocks sbi0)) = Some imap /\
    read_map h s2 (2 + Z.of_nat (Z.to_nat (sbi_imap_blocks sbi0)))
             (Z.to_nat (sbi_zmap_blocks sbi0)) = Some zmap /\
    minix_blocks_needed (sbi_ninodes sbi0) (s_blocksize s2)
      <= sbi_imap_blocks sbi0 /\
    minix_blocks_needed
      (sbi_nzones sbi0 - sbi_firstdatazone sbi0 + 1) (s_blocksize s2)
      <= sbi_zmap_blocks sbi0 /\
    finish_mount hdr h s2
      (sbi_with_maps (set_bit0_of_first imap) (set_bit0_of_first zmap) sbi0)
    = mounted s' /\
    let sbi1 :=
      sbi_with_maps (set_bit0_of_first imap) (set_bit0_of_first zmap) sbi0 in
    let s1 := sb_with_fs_info (Some sbi1) s2 in
    minix_iget h (sbi_version sbi0) s1 MINIX_ROOT_INO = Ok root /\
    let sbi' :=
      if s_rdonly s2 then sbi1
      else sbi_with_state (sbi_mount_state sbi0)
             (if version_eqb (sbi_version sbi0) MINIX_V3 then sbi_ms sbi0
              else set_s_state
                     (u16 (Z.land (s_state (sbi_ms sbi0))
                                  (Z.lnot (MINIX_VALID_FS hdr))))
                     (sbi_ms sbi0))
             true sbi1 in
    s' = sb_with_root (Some root) (sb_with_fs_info (Some sbi') s1).
Proof.
  unfold minix_fill_super, fill_fail.
  destruct (kzalloc_sbi h); cbn [negb]; [|discriminate].
  unfold sb_set_blocksize at 1.
  destruct (set_blocksize_ok h BLOCK_SIZE); cbn; [|discriminate].
  unfold sb_bread at 1. cbn [s_blocksize sb_with_blocksize].
  destruct (bread h BLOCK_SIZE 1) as [d|] eqn:Hd; [|discriminate].
  destruct (parse_super hdr h d _) as [s2 [sbi0|]] eqn:Hp; [|discriminate].
  unfold load_bitmaps, fill_fail.
  destruct (Z.eqb_spec (sbi_imap_blocks sbi0) 0) as [|Hi]; [discriminate|].
  destruct (Z.eqb_spec (sbi_zmap_blocks sbi0) 0) as [|Hz]; [discriminate|].
  cbn [orb]. destruct (kzalloc_map h); cbn [negb]; [|discriminate].
  destruct (read_map h s2 2 _) as [imap|] eqn:Hri; [|discriminate].
  destruct (read_map h s2 (2 + _) _) as [zmap|] eqn:Hrz; [|discriminate].
  cbn [sbi_with_maps sbi_imap_blocks sbi_zmap_blocks sbi_ninodes sbi_nzones
       sbi_firstdatazone].
  destruct (Z.ltb_spec (sbi_imap_blocks sbi0)
              (minix_blocks_needed (sbi_ninodes sbi0) (s_blocksize s2)))
    as [|Hin]; [discriminate|].
  destruct (Z.ltb_spec (sbi_zmap_blocks sbi0)
              (minix_blocks_needed
                 (sbi_nzones sbi0 - sbi_firstdatazone sbi0 + 1)
                 (s_blocksize s2)))
    as [|Hzn]; [discriminate|].
  intros Hf. pose proof Hf as Hf'. revert Hf'.
  unfold finish_mount, fill_fail.
  cbn [sbi_with_maps sbi_version sbi_ms sbi_mount_state s_rdonly
       sb_with_fs_info].
  destruct (minix_iget h (sbi_version sbi0) _ MINIX_ROOT_INO) as [root|] eqn:Hg;
    [|discriminate].
  destruct (d_make_root h root); cbn [negb]; [|discriminate].
  intros [= <-].
  exists d, s2, sbi0, imap, zmap, root.
  do 9 (split; [first [assumption | reflexivity]|]).
  cbv zeta. split; [first [exact Hg | reflexivity]|].
  destruct (s_rdonly s2); cbn [negb]; [reflexivity|].
  destruct (version_eqb (sbi_version sbi0) MINIX_V3); reflexivity.
Qed.

(** What the magic dispatch leaves in the superblock object and in the
    [minix_sb_info]. *)
Lemma parse_super_facts hdr h d s s2 sbi0 :
  parse_super hdr h d s = (s2, Some sbi0) ->
  s_rdonly s2 = s_rdonly s /\ s_root s2 = s_root s /\
  sbi_ms sbi0 = minix_sb_of d /\ sbi_sbh_dirty sbi0 = false /\
  (sbi_version sbi0 <> MINIX_V3 ->
     s_blocksize s2 = s_blocksize s /\
     sbi_mount_state sbi0 = s_state (minix_sb_of d)) /\
  (sbi_version sbi0 = MINIX_V3 ->
     sbi_mount_state sbi0 = MINIX_VALID_FS hdr /\
     s_blocksize s2 =
       if set_blocksize_ok h (s3_blocksize (minix3_sb_of hdr d))
       then s3_blocksize (minix3_sb_of hdr d) else s_blocksize s) /\
  match sbi_version sbi0 with
  | MINIX_V1 =>
      s_max_links s2 = MINIX_LINK_MAX hdr /\
      (sbi_dirsize sbi0 = 16 /\ sbi_namelen sbi0 = 14 \/
       sbi_dirsize sbi0 = 32 /\ sbi_namelen sbi0 = 30)
  | MINIX_V2 =>
      s_max_links s2 = MINIX2_LINK_MAX hdr /\
      (sbi_dirsize sbi0 = 16 /\ sbi_namelen sbi0 = 14 \/
       sbi_dirsize sbi0 = 32 /\ sbi_namelen sbi0 = 30)
  | MINIX_V3 =>
      s_max_links s2 = MINIX2_LINK_MAX hdr /\
      sbi_dirsize sbi0 = 64 /\ sbi_namelen sbi0 = 60
  end.
Proof.
  unfold parse_super, sb_set_blocksize.
  repeat split_magic; intros [= <- <-]; cbn;
    repeat split; try discriminate; try congruence; auto;
    destruct (set_blocksize_ok h _); reflexivity.
Qed.

(** The layout descriptor of a mounted volume, for use in later proofs. *)
Lemma fill_super_layout (hdr : minix_h) (h : host) (s s' : super_block) :
  minix_fill_super hdr h s = mounted s' ->
  exists sbi,
    s_fs_info s' = Some sbi /\
    length (sbi_imap sbi) = Z.to_nat (sbi_imap_blocks sbi) /\
    length (sbi_zmap sbi) = Z.to_nat (sbi_zmap_blocks sbi) /\
    1 <= sbi_imap_blocks sbi < 2 ^ 16 /\
    1 <= sbi_zmap_blocks sbi < 2 ^ 16 /\
    s_rdonly s' = s_rdonly s /\
    (sbi_version sbi <> MINIX_V3 -> s_blocksize s' = BLOCK_SIZE) /\
    match sbi_version sbi with
    | MINIX_V1 =>
        s_max_links s' = MINIX_LINK_MAX hdr /\
        (sbi_dirsize sbi = 16 /\ sbi_namelen sbi = 14 \/
         sbi_dirsize sbi = 32 /\ sbi_namelen sbi = 30)
    | MINIX_V2 =>
        s_max_links s' = MINIX2_LINK_MAX hdr /\
        (sbi_dirsize sbi = 16 /\ sbi_namelen sbi = 14 \/
         sbi_dirsize sbi = 32 /\ sbi_namelen sbi = 30)
    | MINIX_V3 =>
        s_max_links s' = MINIX2_LINK_MAX hdr /\
        sbi_dirsize sbi = 64 /\ sbi_namelen sbi = 60
    end.
Proof.
  intros Hm.
  destruct (fill_super_inversion _ _ _ _ Hm)
    as (d & s2 & sbi0 & imap & zmap & root & _ & Hp & Hi & Hz & Hri & Hrz &
        _ & _ & _ & _ & Hs').
  cbv zeta in Hs'.
  destruct (parse_super_ranges _ _ _ _ _ _ Hp) as (_ & _ & _ & Hir & Hzr).
  destruct (parse_super_facts _ _ _ _ _ _ Hp)
    as (Hro & _ & _ & _ & Hv12 & _ & Hrow).
  apply read_map_length in Hri, Hrz.
  assert (Hli : length (set_bit0_of_first imap) = length imap)
    by (destruct imap; reflexivity).
  assert (Hlz : length (set_bit0_of_first zmap) = length zmap)
    by (destruct zmap; reflexivity).
  assert (Hsbi : exists sbi, s_fs_info s' = Some sbi /\
            sbi_imap sbi = set_bit0_of_first imap /\
            sbi_zmap sbi = set_bit0_of_first zmap /\
            sbi_imap_blocks sbi = sbi_imap_blocks sbi0 /\
            sbi_zmap_blocks sbi = sbi_zmap_blocks sbi0 /\
            sbi_version sbi = sbi_version sbi0 /\
            sbi_dirsize sbi = sbi_dirsize sbi0 /\
            sbi_namelen sbi = sbi_namelen sbi0).
  { subst s'. eexists. split; [reflexivity|].
    destruct (s_rdonly s2); cbn; repeat split. }
  destruct Hsbi as (sbi & Hinfo & Him & Hzm & Hci & Hcz & Hv & Hds & Hnl).
  assert (Hsb : s_rdonly s' = s_rdonly s2 /\ s_blocksize s' = s_blocksize s2 /\
                s_max_links s' = s_max_links s2)
    by (subst s'; repeat split).
  destruct Hsb as (Hsr & Hsbs & Hsl).
  exists sbi. rewrite Him, Hzm, Hci, Hcz, Hv, Hds, Hnl, Hsr, Hsbs, Hsl.
  split; [exact Hinfo|]. split; [congruence|]. split; [congruence|].
  split; [lia|]. split; [lia|]. split; [exact Hro|].
  split; [intros Hv'; apply (Hv12 Hv')|]. exact Hrow.
Qed.

(** X1. A volume that mounts has a consistent layout descriptor: each
    bitmap holds as many blocks as its count says, both counts lie between 1
    and 65535, the directory stride, name length and link ceiling are those
    of one row of the version's table, and a V1 or V2 volume has 1024-byte
    blocks. The read-only flag is the one mount was called with. *)
Theorem mounted_layout (hdr : minix_h) (h : host) (s s' : super_block) :
  minix_fill_super hdr h s = mounted s' ->
  exists sbi,
    s_fs_info s' = Some sbi /\
    length (sbi_imap sbi) = Z.to_nat (sbi_imap_blocks sbi) /\
    length (sbi_zmap sbi) = Z.to_nat (sbi_zmap_blocks sbi) /\
    1 <= sbi_imap_blocks sbi < 2 ^ 16 /\
    1 <= sbi_zmap_blocks sbi < 2 ^ 16 /\
    s_rdonly s' = s_rdonly s /\
    (sbi_version sbi <> MINIX_V3 -> s_blocksize s' = BLOCK_SIZE) /\
    match sbi_version sbi with
    | MINIX_V1 =>
        s_max_links s' = MINIX_LINK_MAX hdr /\
        (sbi_dirsize sbi = 16 /\ sbi_namelen sbi = 14 \/
         sbi_dirsize sbi = 32 /\ sbi_namelen sbi = 30)
    | MINIX_V2 =>
        s_max_links s' = MINIX2_LINK_MAX hdr /\
        (sbi_dirsize sbi = 16 /\ sbi_namelen sbi = 14 \/
         sbi_dirsize sbi = 32 /\ sbi_namelen sbi = 30)
    | MINIX_V3 =>
        s_max_links s' = MINIX2_LINK_MAX hdr /\
        sbi_dirsize sbi = 64 /\ sbi_namelen sbi = 60
    end.
Proof. exact (fill_super_layout hdr h s s'). Qed.

(** X2. The bitmaps of a mounted volume are the device blocks from block 2
    on, read at the block size of the volume: the inode bitmap first, the
    zone bitmap right behind it. Only bit 0 of the first block of each
    differs from what the device holds. *)
Theorem bitmaps_are_device_blocks (hdr : minix_h) (h : host)
    (s s' : super_block) :
  minix_fill_super hdr h s = mounted s' ->
  exists sbi,
    s_fs_info s' = Some sbi /\
    forall k : nat,
      ((k < length (sbi_imap sbi))%nat ->
       sbi_imap sbi !! k =
         (if decide (k = 0%nat) then minix_set_bit 0 else id)
         <$> bread h (s_blocksize s') (2 + Z.of_nat k)) /\
      ((k < length (sbi_zmap sbi))%nat ->
       sbi_zmap sbi !! k =
         (if decide (k = 0%nat) then minix_set_bit 0 else id)
         <$> bread h (s_blocksize s')
               (2 + sbi_imap_blocks sbi + Z.of_nat k)).
Proof.
  intros Hm.
  destruct (fill_super_inversion _ _ _ _ Hm)
    as (d & s2 & sbi0 & imap & zmap & root & _ & Hp & Hi & Hz & Hri & Hrz &
        _ & _ & _ & _ & Hs').
  cbv zeta in Hs'.
  destruct (parse_super_ranges _ _ _ _ _ _ Hp) as (_ & _ & _ & Hir & Hzr).
  assert (Hset : forall (l : list Z) (k : nat),
             set_bit0_of_first l !! k =
             (if decide (k = 0%nat) then minix_set_bit 0 else id) <$> l !! k).
  { intros [|x l] [|k]; cbn; try reflexivity.
    destruct (l !! k); reflexivity. }
  pose proof (read_map_length _ _ _ _ _ Hri) as Hli.
  pose proof (read_map_length _ _ _ _ _ Hrz) as Hlz.
  assert (Hlen : forall l : list Z, length (set_bit0_of_first l) = length l)
    by (intros [|? ?]; reflexivity).
  assert (Hbs : s_blocksize s' = s_blocksize s2) by (subst s'; reflexivity).
  assert (Hmaps : exists sbi, s_fs_info s' = Some sbi /\
            sbi_imap sbi = set_bit0_of_first imap /\
            sbi_zmap sbi = set_bit0_of_first zmap /\
            sbi_imap_blocks sbi = sbi_imap_blocks sbi0).
  { subst s'. eexists. split; [reflexivity|].
    destruct (s_rdonly s2); cbn; repeat split. }
  destruct Hmaps as (sbi & Hinfo & Him & Hzm & Hcnt).
  exists sbi. split; [exact Hinfo|]. intros k.
  rewrite Him, Hzm, !Hlen, !Hset, Hbs, Hcnt. split; intros Hk.
  - rewrite (read_map_lookup _ _ _ _ _ k Hri) by lia. reflexivity.
  - rewrite (read_map_lookup _ _ _ _ _ k Hrz) by lia.
    do 2 f_equal. lia.
Qed.

(** ** The on-disk state across mount, remount and unmount *)

Lemma set_s_state_restore ms x :
  set_s_state (s_state ms) (set_s_state x ms) = ms.
Proof. destruct ms; reflexivity. Qed.

(** Clearing a bit that is not set changes nothing. *)
Lemma clear_unset_bit st valid :
  0 <= st < 2 ^ 16 -> Z.land st valid = 0 ->
  u16 (Z.land st (Z.lnot valid)) = st.
Proof.
  intros Hr Hv. unfold u16, wrap. rewrite <- Z.land_ones by lia.
  apply Z.bits_inj'. intros n Hn.
  rewrite !Z.land_spec, Z.lnot_spec by lia.
  assert (Hb : Z.testbit st n && Z.testbit valid n = false)
    by (rewrite <- Z.land_spec, Hv; apply Z.bits_0).
  destruct (Z_lt_le_dec n 16) as [Hlt|Hge].
  - rewrite Z.ones_spec_low by lia.
    destruct (Z.testbit st n), (Z.testbit valid n); cbn in *; congruence.
  - rewrite Z.ones_spec_high by lia. rewrite andb_false_r.
    symmetry. rewrite <- (Z.mod_small st (2 ^ 16)) by lia.
    apply Z.mod_pow2_bits_high. lia.
Qed.

(** The state a mount leaves in memory and in the superblock buffer, for
    use in later proofs. *)
Lemma fill_super_state (hdr : minix_h) (h : host) (s s' : super_block) :
  minix_fill_super hdr h s = mounted s' ->
  exists d sbi,
    bread h BLOCK_SIZE 1 = Some d /\ s_fs_info s' = Some sbi /\
    let ms := minix_sb_of d in
    (sbi_version sbi <> MINIX_V3 -> sbi_mount_state sbi = s_state ms) /\
    (sbi_version sbi = MINIX_V3 ->
       sbi_mount_state sbi = MINIX_VALID_FS hdr /\ sbi_ms sbi = ms) /\
    (s_rdonly s = true -> sbi_ms sbi = ms /\ sbi_sbh_dirty sbi = false) /\
    (s_rdonly s = false ->
       sbi_sbh_dirty sbi = true /\
       (sbi_version sbi <> MINIX_V3 ->
          sbi_ms sbi
          = set_s_state
              (u16 (Z.land (s_state ms) (Z.lnot (MINIX_VALID_FS hdr)))) ms /\
          Z.land (s_state (sbi_ms sbi)) (MINIX_VALID_FS hdr) = 0)).
Proof.
  intros Hm.
  destruct (fill_super_inversion _ _ _ _ Hm)
    as (d & s2 & sbi0 & imap & zmap & root & Hd & Hp & _ & _ & _ & _ &
        _ & _ & _ & _ & Hs').
  cbv zeta in Hs'.
  destruct (parse_super_facts _ _ _ _ _ _ Hp)
    as (Hro & _ & Hms & Hdirty & Hv12 & Hv3 & _).
  cbn [s_rdonly sb_with_blocksize] in Hro.
  exists d. subst s'. eexists. split; [exact Hd|]. split; [reflexivity|].
  cbv zeta. rewrite <- Hro.
  destruct (s_rdonly s2); cbn; rewrite ?Hms, ?Hdirty.
  - split; [intros Hv; apply (Hv12 Hv)|].
    split; [intros Hv; split; [apply (Hv3 Hv) | reflexivity]|].
    split; [intros _; split; reflexivity | discriminate].
  - split; [intros Hv; apply (Hv12 Hv)|].
    split; [intros Hv; split; [apply (Hv3 Hv) | rewrite Hv; reflexivity]|].
    split; [discriminate|]. intros _. split; [reflexivity|].
    intros Hv. destruct (sbi_version sbi0); try congruence; cbn;
      (split; [reflexivity | apply valid_bit_cleared]).
Qed.

(** X3. The mount-state policy. The in-memory mount state of a V1 or V2
    volume is the on-disk state as read, that of a V3 volume is VALID. A
    read-only mount leaves the superblock buffer as read and clean. A
    writable mount dirties it and, on V1 and V2, clears VALID in the on-disk
    state; the V3 view is never written. *)
Theorem mount_state_policy (hdr : minix_h) (h : host) (s s' : super_block) :
  minix_fill_super hdr h s = mounted s' ->
  exists d sbi,
    bread h BLOCK_SIZE 1 = Some d /\ s_fs_info s' = Some sbi /\
    let ms := minix_sb_of d in
    (sbi_version sbi <> MINIX_V3 -> sbi_mount_state sbi = s_state ms) /\
    (sbi_version sbi = MINIX_V3 ->
       sbi_mount_state sbi = MINIX_VALID_FS hdr /\ sbi_ms sbi = ms) /\
    (s_rdonly s = true -> sbi_ms sbi = ms /\ sbi_sbh_dirty sbi = false) /\
    (s_rdonly s = false ->
       sbi_sbh_dirty sbi = true /\
       (sbi_version sbi <> MINIX_V3 ->
          sbi_ms sbi
          = set_s_state
              (u16 (Z.land (s_state ms) (Z.lnot (MINIX_VALID_FS hdr)))) ms /\
          Z.land (s_state (sbi_ms sbi)) (MINIX_VALID_FS hdr) = 0)).
Proof. exact (fill_super_state hdr h s s'). Qed.

(** X4. Mount followed by unmount: [minix_put_super] releases every bitmap
    buffer and the superblock buffer, one release each, and detaches the
    volume. The superblock view it releases is the view mount read from the
    device, whatever the version and the mode: the VALID bit a writable
    mount cleared is back. A read-only volume is released clean. *)
Theorem mount_then_put_super (hdr : minix_h) (h : host) (s s' : super_block) :
  minix_fill_super hdr h s = mounted s' ->
  exists d sbi,
    bread h BLOCK_SIZE 1 = Some d /\ s_fs_info s' = Some sbi /\
    let '(s'', out, releases) := minix_put_super s' sbi in
    s_fs_info s'' = None /\
    sbi_ms out = minix_sb_of d /\
    sbi_sbh_dirty out = negb (s_rdonly s) /\
    releases
    = map rel_imap (seq 0 (length (sbi_imap sbi)))
      ++ map rel_zmap (seq 0 (length (sbi_zmap sbi))) ++ [rel_sbh].
Proof.
  intros Hm.
  destruct (fill_super_layout _ _ _ _ Hm)
    as (sbi & Hinfo & Hli & Hlz & _ & _ & Hro' & _).
  destruct (fill_super_inversion _ _ _ _ Hm)
    as (d & s2 & sbi0 & imap & zmap & root & Hd & Hp & _ & _ & _ & _ &
        _ & _ & _ & _ & Hs').
  cbv zeta in Hs'.
  destruct (parse_super_facts _ _ _ _ _ _ Hp)
    as (Hro & _ & Hms & Hdirty & Hv12 & Hv3 & _).
  cbn [s_rdonly sb_with_blocksize] in Hro.
  exists d, sbi. split; [exact Hd|]. split; [exact Hinfo|].
  unfold minix_put_super. rewrite <- Hli, <- Hlz.
  split; [reflexivity|].
  split; [|split; [|reflexivity]].
  - rewrite Hs' in Hinfo. cbn in Hinfo. injection Hinfo as <-.
    rewrite Hs'. cbn [s_rdonly sb_with_root sb_with_fs_info].
    destruct (s_rdonly s2); cbn; [exact Hms|].
    destruct (sbi_version sbi0) eqn:Hv; cbn.
    + rewrite (proj2 (Hv12 ltac:(discriminate))), <- Hms.
      apply set_s_state_restore.
    + rewrite (proj2 (Hv12 ltac:(discriminate))), <- Hms.
      apply set_s_state_restore.
    + exact Hms.
  - rewrite Hs' in Hinfo. cbn in Hinfo. injection Hinfo as <-.
    rewrite Hs'. cbn [s_rdonly sb_with_root sb_with_fs_info]. rewrite <- Hro.
    destruct (s_rdonly s2); cbn; [exact Hdirty | reflexivity].
Qed.

(** ** How mount fails *)

Lemma minix_iget_errors h v s ino e :
  minix_iget h v s ino = Err e -> e = - ENOMEM \/ e = - EIO.
Proof.
  unfold minix_iget, V1_minix_iget, V2_minix_iget.
  repeat case_match; intros [= <-]; auto.
Qed.

(** X5. A mount that fails returns a negative errno fixed by the exit taken:
    [-ENOMEM] when the [minix_sb_info] or the bitmap array cannot be
    allocated, the error of the root inode ([-EIO] or [-ENOMEM]) through
    [out_no_root], [-EINVAL] on every other exit. Except on the first
    allocation failure, which returns before anything is attached, the
    superblock object is left without volume; its root is never set. *)
Theorem mount_failure_codes (hdr : minix_h) (h : host) (s s' : super_block)
    (l : exit_path) (ret : Z) :
  minix_fill_super hdr h s = failed l ret s' ->
  ret < 0 /\
  match l with
  | ret_no_sbi => ret = - ENOMEM /\ s' = s
  | out_no_map => ret = - ENOMEM /\ s_fs_info s' = None
  | out_no_root => (ret = - EIO \/ ret = - ENOMEM) /\ s_fs_info s' = None
  | out_bad_hblock | out_bad_sb | out_no_fs | out_illegal_sb | out_no_bitmap =>
      ret = - EINVAL /\ s_fs_info s' = None
  end /\
  s_root s' = s_root s.
Proof.
  intros Hf.
  assert (Hcore :
    match l with
    | ret_no_sbi => ret = - ENOMEM /\ s' = s
    | out_no_map => ret = - ENOMEM /\ s_fs_info s' = None
    | out_no_root => (ret = - EIO \/ ret = - ENOMEM) /\ s_fs_info s' = None
    | _ => ret = - EINVAL /\ s_fs_info s' = None
    end /\ s_root s' = s_root s).
  { revert Hf. unfold minix_fill_super, fill_fail.
    destruct (kzalloc_sbi h); cbn [negb];
      [|intros [= <- <- <-]; repeat split].
    unfold sb_set_blocksize at 1.
    destruct (set_blocksize_ok h BLOCK_SIZE); cbn;
      [|intros [= <- <- <-]; repeat split].
    destruct (sb_bread h _ 1) as [d|]; [|intros [= <- <- <-]; repeat split].
    destruct (parse_super hdr h d _) as [s2 [sbi0|]] eqn:Hp.
    - destruct (parse_super_facts _ _ _ _ _ _ Hp) as (_ & Hroot & _).
      cbn in Hroot.
      unfold load_bitmaps, finish_mount, fill_fail.
      repeat match goal with
      | |- context [match ?x with _ => _ end] =>
          tryif is_var x then fail else destruct x eqn:?
      end; intros [= <- <- <-]; cbn; repeat split; try assumption;
        try (right; reflexivity).
      all: match goal with
           | Hg : minix_iget _ _ _ _ = Err _ |- _ =>
               destruct (minix_iget_errors _ _ _ _ _ Hg); auto
           end.
    - assert (Hroot : s_root s2 = s_root s).
      { revert Hp. unfold parse_super. repeat split_magic;
          intros Heq; inversion Heq; reflexivity. }
      intros [= <- <- <-]. repeat split. exact Hroot. }
  destruct Hcore as [Hl Hroot]. split; [|split; [exact Hl | exact Hroot]].
  unfold ENOMEM, EIO, EINVAL in Hl.
  destruct l; destruct Hl as [Hl _]; try destruct Hl as [Hl|Hl]; lia.
Qed.

Lemma set_s_state_same ms : set_s_state (s_state ms) ms = ms.
Proof. destruct ms; reflexivity. Qed.

(** X6. Remount round trip. A volume taken from read-only to read-write and
    back to read-only has the superblock view it started with, whatever its
    version and whether or not its on-disk state had VALID: on V1 and V2 the
    first remount records the on-disk state in memory and clears VALID on
    disk, the second puts the recorded state back (or finds nothing to put
    back); a V3 view is never written. *)
Theorem remount_round_trip (hdr : minix_h) (s_ro s_rw : super_block)
    (sbi : minix_sb_info) :
  s_rdonly s_ro = true -> s_rdonly s_rw = false ->
  0 <= s_state (sbi_ms sbi) < 2 ^ 16 ->
  let '(_, rw, _) := minix_remount hdr s_ro sbi false in
  let '(_, ro, _) := minix_remount hdr s_rw rw true in
  sbi_ms ro = sbi_ms sbi /\
  (sbi_version sbi <> MINIX_V3 ->
     sbi_mount_state rw = s_state (sbi_ms sbi) /\
     Z.land (s_state (sbi_ms rw)) (MINIX_VALID_FS hdr) = 0 /\
     sbi_mount_state ro = s_state (sbi_ms sbi)).
Proof.
  intros Hro Hrw Hrange. unfold minix_remount. rewrite Hro, Hrw.
  cbn [Bool.eqb].
  set (valid := MINIX_VALID_FS hdr). set (st := s_state (sbi_ms sbi)) in *.
  destruct (version_eqb (sbi_version sbi) MINIX_V3) eqn:Hv; cbn [negb].
  - (* V3 *)
    cbn [sbi_with_state sbi_ms sbi_mount_state sbi_version].
    rewrite Hv. fold st.
    assert (Hv3 : sbi_version sbi = MINIX_V3)
      by (destruct (sbi_version sbi); try discriminate; reflexivity).
    destruct (negb (Z.land st valid =? 0) || (Z.land valid valid =? 0));
      (split; [reflexivity | congruence]).
  - cbn [sbi_with_state sbi_ms sbi_mount_state sbi_version set_s_state
         s_state].
    rewrite Hv. fold st. cbn [negb].
    rewrite valid_bit_cleared. cbn [Z.eqb negb orb].
    destruct (Z.eqb_spec (Z.land st valid) 0) as [Hclean|Hset].
    + cbn [sbi_ms sbi_mount_state sbi_with_state].
      rewrite (clear_unset_bit st valid Hrange Hclean).
      split; [apply set_s_state_same|].
      intros _. repeat split.
    + cbn [sbi_ms sbi_mount_state sbi_with_state].
      split; [apply set_s_state_restore|].
      intros _. repeat split.
Qed.

(** ** Inodes: write then read *)

Lemma copy_zones_take (n : nat) (src dst : list Z) :
  (n <= length src)%nat -> (n <= length dst)%nat ->
  take n (copy_zones 0 n src dst) = take n src.
Proof.
  intros Hs Hd. apply list_eq. intros k.
  destruct (decide (k < n)%nat) as [Hk|Hk].
  - rewrite !lookup_take_lt by lia. rewrite copy_zones_lookup by lia.
    case_decide; [|lia].
    destruct (lookup_lt_is_Some_2 src k ltac:(lia)) as [x ->]. reflexivity.
  - rewrite !lookup_take_ge by lia. reflexivity.
Qed.

Lemma wrap_small w x : 0 <= x < 2 ^ w -> wrap w x = x.
Proof. intros Hx. unfold wrap. apply Z.mod_small, Hx. Qed.

(** The type bits of a mode survive the store into a 16-bit field. *)
Lemma type_bits_u16 m : Z.land (u16 m) S_IFMT = Z.land m S_IFMT.
Proof.
  unfold u16, wrap. rewrite <- Z.land_ones by lia.
  rewrite <- Z.land_assoc. reflexivity.
Qed.

(** The record an update leaves in the buffer. *)
Lemma V1_update_record h s i bh :
  V1_minix_update_inode h s i = Some bh ->
  exists old,
    minix_V1_raw_inode h s (i_ino i) = Some old /\
    r1_mode (b_data bh) = u16 (i_mode i) /\
    r1_nlinks (b_data bh) = u8 (i_nlink i) /\
    r1_size (b_data bh) = u32 (i_size i) /\
    r1_uid (b_data bh) = u16 (fs_high2lowuid h (i_uid i)) /\
    r1_gid (b_data bh) = u8 (fs_high2lowgid h (i_gid i)) /\
    r1_time (b_data bh) = u32 (tv_sec (i_mtime i)) /\
    r1_zone (b_data bh) =
      if S_ISCHR (i_mode i) || S_ISBLK (i_mode i)
      then <[0%nat := u16 (old_encode_dev h (i_rdev i))]> (r1_zone (b_data old))
      else copy_zones 0 9 (i_zones i) (r1_zone (b_data old)).
Proof.
  unfold V1_minix_update_inode.
  destruct (minix_V1_raw_inode h s (i_ino i)) as [old|]; [|discriminate].
  intros Hbh. exists old. split; [reflexivity|].
  injection Hbh as <-. repeat split.
Qed.

Lemma V2_update_record h s i bh :
  V2_minix_update_inode h s i = Some bh ->
  exists old,
    minix_V2_raw_inode h s (i_ino i) = Some old /\
    r2_mode (b_data bh) = u16 (i_mode i) /\
    r2_nlinks (b_data bh) = u16 (i_nlink i) /\
    r2_size (b_data bh) = u32 (i_size i) /\
    r2_uid (b_data bh) = u16 (fs_high2lowuid h (i_uid i)) /\
    r2_gid (b_data bh) = u16 (fs_high2lowgid h (i_gid i)) /\
    r2_mtime (b_data bh) = u32 (tv_sec (i_mtime i)) /\
    r2_atime (b_data bh) = u32 (tv_sec (i_atime i)) /\
    r2_ctime (b_data bh) = u32 (tv_sec (i_ctime i)) /\
    r2_zone (b_data bh) =
      if S_ISCHR (i_mode i) || S_ISBLK (i_mode i)
      then <[0%nat := u32 (old_encode_dev h (i_rdev i))]> (r2_zone (b_data old))
      else copy_zones 0 10 (i_zones i) (r2_zone (b_data old)).
Proof.
  unfold V2_minix_update_inode.
  destruct (minix_V2_raw_inode h s (i_ino i)) as [old|]; [|discriminate].
  intros Hbh. exists old. split; [reflexivity|].
  injection Hbh as <-. repeat split.
Qed.

(** X7. V1 write-back followed by a read of the same record. The inode read
    back has the mode, link count, size and modification time that were
    written, reduced to the width of their on-disk fields (16, 8, 32 and 32
    bits), and exactly those when they fit. Its three times are all the
    written modification time: the access and change times are lost. For a
    file that is not a device node, with a record of nine zone words, the
    first nine zone words come back as they were. *)
Theorem V1_write_then_read (h h' : host) (s : super_block) (i i0 : inode)
    (bh bh' : buffer_head minix_inode) :
  V1_minix_update_inode h s i = Some bh ->
  minix_V1_raw_inode h' s (i_ino i0) = Some bh' ->
  b_data bh' = b_data bh ->
  exists i',
    V1_minix_iget h' s i0 = Ok i' /\
    i_ino i' = i_ino i0 /\ i_new i' = false /\
    i_mode i' = u16 (i_mode i) /\
    i_nlink i' = u8 (i_nlink i) /\
    i_size i' = u32 (i_size i) /\
    i_uid i' = u16 (fs_high2lowuid h (i_uid i)) /\
    i_gid i' = u8 (fs_high2lowgid h (i_gid i)) /\
    i_mtime i' = {| tv_sec := u32 (tv_sec (i_mtime i)); tv_nsec := 0 |} /\
    i_atime i' = i_mtime i' /\ i_ctime i' = i_mtime i' /\
    (0 <= i_mode i < 2 ^ 16 -> 0 <= i_nlink i < 2 ^ 8 ->
     0 <= i_size i < 2 ^ 32 -> 0 <= tv_sec (i_mtime i) < 2 ^ 32 ->
       i_mode i' = i_mode i /\ i_nlink i' = i_nlink i /\
       i_size i' = i_size i /\ tv_sec (i_mtime i') = tv_sec (i_mtime i)) /\
    (S_ISCHR (i_mode i) || S_ISBLK (i_mode i) = false ->
     (forall old, minix_V1_raw_inode h s (i_ino i) = Some old ->
                  length (r1_zone (b_data old)) = 9%nat) ->
     (9 <= length (i_zones i))%nat -> (9 <= length (i_zones i0))%nat ->
       take 9 (i_zones i') = take 9 (i_zones i)).
Proof.
  intros Hup Hrd Hsame. unfold V1_minix_iget. rewrite Hrd, Hsame.
  eexists. split; [reflexivity|].
  destruct (V1_update_record _ _ _ _ Hup)
    as (old & Hold & Hmo & Hnl & Hsz & Hui & Hgi & Hti & Hzo).
  cbn -[take copy_zones u8 u16 u32]. rewrite Hmo, Hnl, Hsz, Hui, Hgi, Hti.
  do 10 (split; [reflexivity|]). split.
  - intros Hm Hn Hs Ht. unfold u16, u8, u32.
    rewrite !wrap_small by assumption. repeat split.
  - intros Hdev Hlen Hz Hz0. rewrite Hzo, Hdev.
    specialize (Hlen old Hold).
    rewrite copy_zones_take
      by (rewrite ?copy_zones_length; lia).
    apply copy_zones_take; lia.
Qed.

(** X8. V2/V3 write-back followed by a read of the same record: the three
    times are kept apart, each reduced to 32 bits with zero nanoseconds; the
    link count has 16 bits; ten zone words come back. *)
Theorem V2_write_then_read (h h' : host) (s : super_block) (i i0 : inode)
    (bh bh' : buffer_head minix2_inode) :
  V2_minix_update_inode h s i = Some bh ->
  minix_V2_raw_inode h' s (i_ino i0) = Some bh' ->
  b_data bh' = b_data bh ->
  exists i',
    V2_minix_iget h' s i0 = Ok i' /\
    i_ino i' = i_ino i0 /\ i_new i' = false /\
    i_mode i' = u16 (i_mode i) /\
    i_nlink i' = u16 (i_nlink i) /\
    i_size i' = u32 (i_size i) /\
    i_uid i' = u16 (fs_high2lowuid h (i_uid i)) /\
    i_gid i' = u16 (fs_high2lowgid h (i_gid i)) /\
    i_mtime i' = {| tv_sec := u32 (tv_sec (i_mtime i)); tv_nsec := 0 |} /\
    i_atime i' = {| tv_sec := u32 (tv_sec (i_atime i)); tv_nsec := 0 |} /\
    i_ctime i' = {| tv_sec := u32 (tv_sec (i_ctime i)); tv_nsec := 0 |} /\
    (0 <= tv_sec (i_mtime i) < 2 ^ 32 -> 0 <= tv_sec (i_atime i) < 2 ^ 32 ->
     0 <= tv_sec (i_ctime i) < 2 ^ 32 -> 0 <= i_nlink i < 2 ^ 16 ->
       tv_sec (i_mtime i') = tv_sec (i_mtime i) /\
       tv_sec (i_atime i') = tv_sec (i_atime i) /\
       tv_sec (i_ctime i') = tv_sec (i_ctime i) /\
       i_nlink i' = i_nlink i) /\
    (S_ISCHR (i_mode i) || S_ISBLK (i_mode i) = false ->
     (forall old, minix_V2_raw_inode h s (i_ino i) = Some old ->
                  length (r2_zone (b_data old)) = 10%nat) ->
     (10 <= length (i_zones i))%nat -> (10 <= length (i_zones i0))%nat ->
       take 10 (i_zones i') = take 10 (i_zones i)).
Proof.
  intros Hup Hrd Hsame. unfold V2_minix_iget. rewrite Hrd, Hsame.
  eexists. split; [reflexivity|].
  destruct (V2_update_record _ _ _ _ Hup)
    as (old & Hold & Hmo & Hnl & Hsz & Hui & Hgi & Hmt & Hat & Hct & Hzo).
  cbn -[take copy_zones u8 u16 u32].
  rewrite Hmo, Hnl, Hsz, Hui, Hgi, Hmt, Hat, Hct.
  do 10 (split; [reflexivity|]). split.
  - intros Hm Ha Hc Hn. unfold u16, u32.
    rewrite !wrap_small by assumption. repeat split.
  - intros Hdev Hlen Hz Hz0. rewrite Hzo, Hdev.
    specialize (Hlen old Hold).
    rewrite copy_zones_take
      by (rewrite ?copy_zones_length; lia).
    apply copy_zones_take; lia.
Qed.

(** ** Device nodes *)

(** The file types are exclusive: a device node is no regular file, no
    directory and no symlink. *)
Lemma device_mode_class m :
  S_ISCHR m || S_ISBLK m = true ->
  S_ISREG m = false /\ S_ISDIR m = false /\ S_ISLNK m = false.
Proof.
  unfold S_ISCHR, S_ISBLK, S_ISREG, S_ISDIR, S_ISLNK,
    S_IFCHR, S_IFBLK, S_IFREG, S_IFDIR, S_IFLNK.
  generalize (Z.land m S_IFMT). intros t Ht.
  apply orb_true_iff in Ht. destruct Ht as [Ht|Ht]; apply Z.eqb_eq in Ht;
    subst t; repeat split.
Qed.

Lemma mode_class_u16 m :
  S_ISREG (u16 m) = S_ISREG m /\ S_ISDIR (u16 m) = S_ISDIR m /\
  S_ISLNK (u16 m) = S_ISLNK m /\ S_ISCHR (u16 m) = S_ISCHR m /\
  S_ISBLK (u16 m) = S_ISBLK m.
Proof.
  unfold S_ISREG, S_ISDIR, S_ISLNK, S_ISCHR, S_ISBLK.
  rewrite type_bits_u16. repeat split.
Qed.

(** X9. Device numbers across write and read. For a character or block
    device the write stores the encoded device number in zone word 0 and
    leaves every other zone word of the record as it was; the read installs
    the special-file operations and takes the device number decoded from
    that word, so the number comes back whenever decoding undoes encoding
    on it. *)
Theorem device_number_round_trip (h h' : host) (s : super_block)
    (i i0 : inode) :
  S_ISCHR (i_mode i) || S_ISBLK (i_mode i) = true ->
  (forall bh bh', V1_minix_update_inode h s i = Some bh ->
     minix_V1_raw_inode h' s (i_ino i0) = Some bh' ->
     b_data bh' = b_data bh ->
     r1_zone (b_data bh) <> [] ->
     let dev := old_decode_dev h' (u16 (old_encode_dev h (i_rdev i))) in
     exists old i',
       minix_V1_raw_inode h s (i_ino i) = Some old /\
       drop 1 (r1_zone (b_data bh)) = drop 1 (r1_zone (b_data old)) /\
       V1_minix_iget h' s i0 = Ok i' /\
       i_op i' = Some (special_inode dev) /\ i_rdev i' = dev /\
       (dev = i_rdev i -> i_rdev i' = i_rdev i)) /\
  (forall bh bh', V2_minix_update_inode h s i = Some bh ->
     minix_V2_raw_inode h' s (i_ino i0) = Some bh' ->
     b_data bh' = b_data bh ->
     r2_zone (b_data bh) <> [] ->
     let dev := old_decode_dev h' (u32 (old_encode_dev h (i_rdev i))) in
     exists old i',
       minix_V2_raw_inode h s (i_ino i) = Some old /\
       drop 1 (r2_zone (b_data bh)) = drop 1 (r2_zone (b_data old)) /\
       V2_minix_iget h' s i0 = Ok i' /\
       i_op i' = Some (special_inode dev) /\ i_rdev i' = dev /\
       (dev = i_rdev i -> i_rdev i' = i_rdev i)).
Proof.
  intros Hdev.
  destruct (device_mode_class _ Hdev) as (Hreg & Hdir & Hlnk).
  destruct (mode_class_u16 (i_mode i)) as (Ur & Ud & Ul & Uc & Ub).
  split.
  - intros bh bh' Hup Hrd Hsame Hne dev.
    destruct (V1_update_record _ _ _ _ Hup)
      as (old & Hold & Hmo & _ & _ & _ & _ & _ & Hzo).
    rewrite Hdev in Hzo.
    assert (Hz0 : r1_zone (b_data bh) !! 0%nat
                  = Some (u16 (old_encode_dev h (i_rdev i)))).
    { rewrite Hzo. apply list_lookup_insert_eq.
      destruct (r1_zone (b_data old)) as [|x l] eqn:Hl; cbn; [|lia].
      rewrite Hzo in Hne. cbn in Hne. congruence. }
    exists old. unfold V1_minix_iget. rewrite Hrd, Hsame. eexists.
    split; [exact Hold|]. split.
    { rewrite Hzo. destruct (r1_zone (b_data old)); reflexivity. }
    split; [reflexivity|].
    unfold minix_set_inode, unlock_new_inode.
    cbn [i_op i_rdev i_mode]. rewrite Hz0, Hmo, Ur, Ud, Ul, Uc, Ub.
    rewrite Hreg, Hdir, Hlnk, Hdev. cbn. repeat split. auto.
  - intros bh bh' Hup Hrd Hsame Hne dev.
    destruct (V2_update_record _ _ _ _ Hup)
      as (old & Hold & Hmo & _ & _ & _ & _ & _ & _ & _ & Hzo).
    rewrite Hdev in Hzo.
    assert (Hz0 : r2_zone (b_data bh) !! 0%nat
                  = Some (u32 (old_encode_dev h (i_rdev i)))).
    { rewrite Hzo. apply list_lookup_insert_eq.
      destruct (r2_zone (b_data old)) as [|x l] eqn:Hl; cbn; [|lia].
      rewrite Hzo in Hne. cbn in Hne. congruence. }
    exists old. unfold V2_minix_iget. rewrite Hrd, Hsame. eexists.
    split; [exact Hold|]. split.
    { rewrite Hzo. destruct (r2_zone (b_data old)); reflexivity. }
    split; [reflexivity|].
    unfold minix_set_inode, unlock_new_inode.
    cbn [i_op i_rdev i_mode]. rewrite Hz0, Hmo, Ur, Ud, Ul, Uc, Ub.
    rewrite Hreg, Hdir, Hlnk, Hdev. cbn. repeat split. auto.
Qed.

(** ** The inode cache *)

(** X10. [minix_iget] never hands out an inode still marked new: a fresh
    inode is populated and unlocked, a cached one is returned as found. So
    a later lookup that finds the inode in the cache returns that same
    inode without reading the device, whatever the device then holds. *)
Theorem iget_idempotent (h : host) (v : version) (s : super_block) (ino : Z)
    (i' : inode) :
  minix_iget h v s ino = Ok i' ->
  i_new i' = false /\
  forall (h2 : host) (v2 : version) (s2 : super_block) (ino2 : Z),
    iget_locked h2 ino2 = Some i' -> minix_iget h2 v2 s2 ino2 = Ok i'.
Proof.
  intros Hg.
  assert (Hnew : i_new i' = false).
  { revert Hg. unfold minix_iget, V1_minix_iget, V2_minix_iget.
    destruct (iget_locked h ino) as [i|]; [|discriminate].
    destruct (i_new i) eqn:Hn; cbn [negb].
    - repeat case_match; intros [= <-]; reflexivity.
    - intros [= <-]. exact Hn. }
  split; [exact Hnew|].
  intros h2 v2 s2 ino2 Hc. unfold minix_iget. rewrite Hc, Hnew. reflexivity.
Qed.

(** ** Write-back: buffers and results *)

(** X11. [minix_write_inode] returns 0 or [-EIO]. When the raw-inode reader
    of the volume's version returns the buffer of the inode, that buffer is
    released exactly once, as the last call, on the error path too, and it
    is synced exactly once if the caller asked for it and not at all
    otherwise; without sync the result is 0. When the reader returns
    nothing, nothing is released or synced and the result is [-EIO]. *)
Theorem write_inode_releases_once (h : host) (v : version) (s : super_block)
    (i : inode) (sync_all : bool) :
  let readable := raw_inode_readable h v s (i_ino i) in
  let '(ret, released, calls) := minix_write_inode h v s i sync_all in
  (ret = 0 \/ ret = - EIO) /\
  count_calls (brelse_inode_buffer (i_ino i)) calls
  = (if readable then 1%nat else 0%nat) /\
  count_calls (sync_buffer (i_ino i)) calls
  = (if readable && sync_all then 1%nat else 0%nat) /\
  last calls = (if readable then Some (brelse_inode_buffer (i_ino i))
                else None) /\
  (if readable
   then (exists bh, released = Some bh) /\
        (if sync_all then True else ret = 0)
   else released = None /\ ret = - EIO /\ calls = []).
Proof.
  intros readable.
  pose proof (updated_of_reader h v s i) as Hreader. cbv zeta in Hreader.
  fold readable in Hreader.
  unfold minix_write_inode.
  destruct (if version_eqb v MINIX_V1 then _ else _) as [bh|];
    destruct readable;
    try (destruct Hreader as (bh' & Hbh & Hd); discriminate);
    try discriminate.
  - destruct Hreader as (bh' & [= <-] & Hd).
    rewrite Hd, andb_true_r.
    destruct sync_all.
    + destruct (buffer_req _ && negb (buffer_uptodate _));
        unfold count_calls; cbn; rewrite !Z.eqb_refl; cbn;
        repeat split; eauto.
    + unfold count_calls; cbn; rewrite !Z.eqb_refl; cbn;
        repeat split; eauto.
  - repeat split; auto.
Qed.

(** ** Eviction of special files *)

(** X12. Evicting an unlinked device node frees its inode but never runs a
    zone walker: the calls are the page-cache truncation, the buffer
    invalidation, [clear_inode] and [minix_free_inode], and the zone array,
    whose first word holds the device number, is left alone. *)
Theorem evict_device_node (v : version) (i : inode) :
  S_ISCHR (i_mode i) || S_ISBLK (i_mode i) = true ->
  i_nlink i = 0 ->
  let '(i', calls) := minix_evict_inode v i in
  calls = [truncate_inode_pages_final (i_ino i);
           invalidate_inode_buffers (i_ino i); clear_inode (i_ino i);
           minix_free_inode (i_ino i)] /\
  i_zones i' = i_zones i /\ i_rdev i' = i_rdev i /\ i_size i' = 0.
Proof.
  intros Hdev Hn.
  destruct (device_mode_class _ Hdev) as (Hreg & Hdir & Hlnk).
  unfold minix_evict_inode, minix_truncate. rewrite Hn.
  cbn [Z.eqb inode_with_size i_mode i_nlink i_ino].
  rewrite Hreg, Hdir, Hlnk, Hn. cbn. repeat split.
Qed.

(** ** Module load and unload *)

(** X13. The outcomes of [init_minix_fs]. It returns 0 exactly when the
    inode cache is created and the registration succeeds. When the cache
    cannot be created it returns [-ENOMEM] and registers nothing; when the
    registration fails it returns that error and nothing is registered. In
    every case the module is left without inode cache, and
    [exit_minix_fs] after it leaves nothing registered. *)
Theorem init_outcomes (h : host) (st : module_state) :
  let '(ret, st') := init_minix_fs h st in
  minix_inode_cachep st' = false /\
  (ret = 0 <-> kmem_cache_create h = true /\ register_filesystem h = 0) /\
  (kmem_cache_create h = false ->
     ret = - ENOMEM /\ minix_fs_registered st' = minix_fs_registered st) /\
  (kmem_cache_create h = true -> register_filesystem h <> 0 ->
     ret = register_filesystem h /\
     minix_fs_registered st' = minix_fs_registered st) /\
  exit_minix_fs st'
  = {| minix_inode_cachep := false; minix_fs_registered := false |}.
Proof.
  unfold init_minix_fs, init_inodecache.
  destruct (kmem_cache_create h); cbn.
  - split; [reflexivity|]. split; [tauto|]. split; [discriminate|].
    split; [|reflexivity]. intros _ Hr. split; [reflexivity|].
    apply Z.eqb_neq in Hr. rewrite Hr. apply orb_false_r.
  - split; [reflexivity|]. split.
    + unfold ENOMEM. split; [discriminate | intros [? _]; discriminate].
    + split; [intros _; split; reflexivity|]. split; [discriminate|].
      reflexivity.
Qed.

(** ** Statfs: the filesystem id *)

(** X14. The two words of [f_fsid] are the low and the high half of the
    64-bit encoded device number: put together they give it back. *)
Theorem statfs_fsid_halves (h : host) (s : super_block) (sbi : minix_sb_info) :
  let buf := minix_statfs h s sbi in
  0 <= f_fsid0 buf < 2 ^ 32 /\ 0 <= f_fsid1 buf < 2 ^ 32 /\
  f_fsid0 buf + 2 ^ 32 * f_fsid1 buf = u64 (huge_encode_dev h (s_dev s)).
Proof.
  cbv zeta. unfold minix_statfs. cbn [f_fsid0 f_fsid1].
  set (id := u64 (huge_encode_dev h (s_dev s))).
  assert (Hid : 0 <= id < 2 ^ 64)
    by (subst id; unfold u64, wrap; apply Z.mod_pos_bound; lia).
  unfold u32, wrap. rewrite Z.shiftr_div_pow2 by lia.
  pose proof (Z.mod_pos_bound id (2 ^ 32) ltac:(lia)).
  pose proof (Z.mod_pos_bound (id / 2 ^ 32) (2 ^ 32) ltac:(lia)).
  split; [assumption|]. split; [assumption|].
  rewrite (Z.mod_small (id / 2 ^ 32)).
  - pose proof (Z.div_mod id (2 ^ 32) ltac:(lia)). lia.
  - split; [apply Z.div_pos; lia|].
    apply Z.div_lt_upper_bound; lia.
Qed.

(** ** The write path *)

(** X15. [minix_write_begin] passes on the result of [block_write_begin].
    It undoes a failed write only when the range ended past the end of the
    file, and then trims to the current size, never below: the page cache
    first, then the zones, through the walker that [minix_truncate] picks
    for the file. A write that succeeds, or fails inside the file, makes no
    call. *)
Theorem write_begin_undo (bwb : Z) (v : version) (i : inode) (pos len : Z) :
  let '(ret, calls) := minix_write_begin bwb v i pos len in
  ret = bwb /\
  (bwb = 0 \/ pos + len <= i_size i -> calls = []) /\
  (bwb <> 0 -> i_size i < pos + len ->
     calls = truncate_pagecache (i_ino i) (i_size i)
             :: map walk (minix_truncate v i) /\
     (S_ISREG (i_mode i) || S_ISDIR (i_mode i) || S_ISLNK (i_mode i) = true ->
        calls = [truncate_pagecache (i_ino i) (i_size i);
                 walk (match v with
                       | MINIX_V1 => V1_minix_truncate (i_ino i) (i_size i)
                       | MINIX_V2 | MINIX_V3 =>
                           V2_minix_truncate (i_ino i) (i_size i)
                       end)]) /\
     (S_ISREG (i_mode i) || S_ISDIR (i_mode i) || S_ISLNK (i_mode i) = false ->
        calls = [truncate_pagecache (i_ino i) (i_size i)])).
Proof.
  unfold minix_write_begin, minix_write_failed.
  destruct (Z.eqb_spec bwb 0) as [Hz|Hnz]; cbn [negb].
  - split; [reflexivity|]. split; [reflexivity|]. intros; congruence.
  - split; [reflexivity|].
    destruct (Z.ltb_spec (i_size i) (pos + len)) as [Hlt|Hge].
    + split; [intros [? | ?]; [congruence | lia]|].
      intros _ _. split; [reflexivity|]. unfold minix_truncate.
      split; intros Hm; rewrite Hm; cbn; [destruct v|]; reflexivity.
    + split; [reflexivity|]. intros _ ?. lia.
Qed.

(** * Properties of sysfs mounting and initialisation *)

(** X16. [sysfs_mount] and [lshfs_mount], each on its own hierarchy. A
    mount without [SB_KERNMOUNT] by a caller who may not mount is refused
    with [-EPERM] before any namespace reference is taken. Otherwise the
    namespace is grabbed once and the result of [kernfs_mount_ns] is
    returned as it is; the reference is kept exactly when a new superblock
    was created, and the superblock is marked visible to user namespaces
    exactly when it is new and the mount did not fail. Killing a new
    superblock afterwards drops the reference that was kept. *)
Theorem mount_namespace_refs (kh : Sysfs.host) (st : Sysfs.state) (flags : Z) :
  Sysfs.sysfs_mount kh st flags = Sysfs.mount_on kh (Sysfs.sysfs_root st) flags /\
  Sysfs.lshfs_mount kh st flags = Sysfs.mount_on kh (Sysfs.lshfs_root st) flags /\
  forall root,
  let '(r, calls) := Sysfs.mount_on kh root flags in
  let ns := Sysfs.kobj_ns_grab_current kh in
  let '(r0, new_sb) := Sysfs.kernfs_mount_ns kh root flags ns in
  (Z.land flags (Sysfs.SB_KERNMOUNT kh) = 0 ->
   Sysfs.kobj_ns_current_may_mount kh = false ->
     r = Err (- Sysfs.EPERM) /\ calls = []) /\
  (Z.land flags (Sysfs.SB_KERNMOUNT kh) <> 0 \/
   Sysfs.kobj_ns_current_may_mount kh = true ->
     r = r0 /\
     head calls = Some (Sysfs.ns_grab ns) /\
     Sysfs.ns_refs calls = (if new_sb then 1 else 0) /\
     (forall sb, In (Sysfs.set_userns_visible sb) calls
                 <-> new_sb = true /\ r0 = Ok sb) /\
     (forall sb, new_sb = true -> r0 = Ok sb ->
        Sysfs.kernfs_super_ns kh sb = ns ->
        calls ++ Sysfs.sysfs_kill_sb kh sb
        = [Sysfs.ns_grab ns; Sysfs.set_userns_visible sb;
           Sysfs.kernfs_kill_sb sb; Sysfs.ns_drop ns] /\
        Sysfs.ns_refs (calls ++ Sysfs.sysfs_kill_sb kh sb) = 0 /\
        Sysfs.lshfs_kill_sb kh sb = Sysfs.sysfs_kill_sb kh sb)).
Proof.
  split; [reflexivity|]. split; [reflexivity|]. intros root.
  unfold Sysfs.mount_on.
  destruct (Sysfs.kernfs_mount_ns kh root flags (Sysfs.kobj_ns_grab_current kh))
    as [r0 new_sb] eqn:Hm.
  destruct (Z.eqb_spec (Z.land flags (Sysfs.SB_KERNMOUNT kh)) 0) as [Hk|Hk];
    destruct (Sysfs.kobj_ns_current_may_mount kh) eqn:Hp; cbn [negb andb].
  2: { split; [intros; split; reflexivity|]. intros [? | ?]; congruence. }
  all: split; [intros; congruence|]; intros _.
  all: split; [reflexivity|]; split; [reflexivity|].
  all: destruct new_sb; cbn [negb].
  all: destruct r0 as [sb0|e]; unfold Sysfs.ns_refs, Sysfs.sysfs_kill_sb,
         Sysfs.lshfs_kill_sb; cbn.
  all: split; [reflexivity|].
  all: split;
         [ intros sb;
           intuition (try discriminate; try congruence;
                      try (right; left; congruence))
         | intros sb H1 H2 H3; try discriminate;
           injection H2 as ->; rewrite H3; repeat split ].
Qed.

(** X17. The outcomes of [sysfs_init], provided kernfs reports failures with
    a non-zero error. It returns 0 exactly when both hierarchies are
    created and both filesystems register; then "sysfs" and "lshfs" are
    registered in this order and nothing is destroyed. When the second
    hierarchy cannot be created its error is returned and the first
    hierarchy stays allocated. When "sysfs" does not register, the sysfs
    hierarchy is destroyed and the lshfs one stays. When "lshfs" does not
    register, the lshfs hierarchy is destroyed while "sysfs" stays
    registered on its hierarchy. *)
Theorem sysfs_init_outcomes (kh : Sysfs.host) (st : Sysfs.state) :
  (forall k e, Sysfs.kernfs_create_root kh k = Err e -> e <> 0) ->
  let '(ret, st') := Sysfs.sysfs_init kh st in
  let reg1 := Sysfs.register_fs kh "sysfs" in
  let reg2 := Sysfs.register_fs kh "lshfs" in
  (ret = 0 <->
     exists p1 p2, Sysfs.kernfs_create_root kh 0 = Ok p1 /\
                   Sysfs.kernfs_create_root kh 1 = Ok p2 /\
                   reg1 = 0 /\ reg2 = 0) /\
  (forall e, Sysfs.kernfs_create_root kh 0 = Err e ->
     ret = e /\ Sysfs.created st' = Sysfs.created st /\
     Sysfs.registered st' = Sysfs.registered st) /\
  (forall p1 e, Sysfs.kernfs_create_root kh 0 = Ok p1 ->
     Sysfs.kernfs_create_root kh 1 = Err e ->
     ret = e /\ Sysfs.created st' = Sysfs.created st ++ [p1] /\
     Sysfs.destroyed st' = Sysfs.destroyed st /\
     Sysfs.registered st' = Sysfs.registered st) /\
  (forall p1 p2, Sysfs.kernfs_create_root kh 0 = Ok p1 ->
     Sysfs.kernfs_create_root kh 1 = Ok p2 ->
     Sysfs.created st' = Sysfs.created st ++ [p1; p2] /\
     Sysfs.sysfs_root_kn st' = Some (Sysfs.root_kn kh p1) /\
     Sysfs.lshfs_root_kn st' = Some (Sysfs.root_kn kh p2) /\
     (reg1 <> 0 ->
        ret = reg1 /\ Sysfs.destroyed st' = Sysfs.destroyed st ++ [p1] /\
        Sysfs.registered st' = Sysfs.registered st) /\
     (reg1 = 0 -> reg2 <> 0 ->
        ret = reg2 /\ Sysfs.destroyed st' = Sysfs.destroyed st ++ [p2] /\
        Sysfs.registered st' = Sysfs.registered st ++ ["sysfs"%string]) /\
     (reg1 = 0 -> reg2 = 0 ->
        ret = 0 /\ Sysfs.destroyed st' = Sysfs.destroyed st /\
        Sysfs.registered st'
        = Sysfs.registered st ++ ["sysfs"%string; "lshfs"%string])).
Proof.
  intros Herr. unfold Sysfs.sysfs_init.
  destruct (Sysfs.kernfs_create_root kh 0) as [p1|e1] eqn:H1.
  2: { cbn. split; [split; [intros ->; exfalso; apply (Herr _ _ H1 eq_refl)
                           | intros (? & ? & ? & _); discriminate]|].
       split; [intros e [= <-]; repeat split|].
       split; intros; discriminate. }
  destruct (Sysfs.kernfs_create_root kh 1) as [p2|e2] eqn:H2.
  2: { cbn. split; [split; [intros ->; exfalso; apply (Herr _ _ H2 eq_refl)
                           | intros (? & ? & ? & ? & _); discriminate]|].
       split; [intros; discriminate|].
       split; [intros ? e [= <-] [= <-]; repeat split|].
       intros; discriminate. }
  destruct (Z.eqb_spec (Sysfs.register_fs kh "sysfs") 0) as [R1|R1];
    cbn [negb].
  - destruct (Z.eqb_spec (Sysfs.register_fs kh "lshfs") 0) as [R2|R2];
      cbn [negb]; cbv zeta.
    + split; [split; [intros _; exists p1, p2; repeat split; assumption
                     | reflexivity]|].
      split; [intros; discriminate|]. split; [intros; discriminate|].
      intros ? ? [= <-] [= <-]. cbn. rewrite app_nil_r.
      repeat split; intros; congruence.
    + split; [split; [intros; congruence
                     | intros (? & ? & _ & _ & _ & ?); congruence]|].
      split; [intros; discriminate|]. split; [intros; discriminate|].
      intros ? ? [= <-] [= <-]. cbn.
      repeat split; intros; congruence.
  - cbv zeta.
    split; [split; [intros; congruence
                   | intros (? & ? & _ & _ & ? & _); congruence]|].
    split; [intros; discriminate|]. split; [intros; discriminate|].
    intros ? ? [= <-] [= <-]. cbn. rewrite ?app_nil_r.
    repeat split; intros; congruence.
Qed.

(** * The further properties at concrete inputs *)

(** The clean V1 volume of scenario 1, mounted read-write. *)
Lemma mounted_layout_witness :
  let h := demo_host v1_superblock true in
  exists s', minix_fill_super linux_minix_h h fresh_sb = mounted s' /\
  exists sbi, s_fs_info s' = Some sbi /\
    length (sbi_imap sbi) = 1%nat /\ length (sbi_zmap sbi) = 1%nat /\
    s_blocksize s' = 1024 /\ s_max_links s' = 250 /\
    sbi_dirsize sbi = 16 /\ sbi_namelen sbi = 14.
Proof.
  cbv zeta. eexists. split; [vm_compute; reflexivity|].
  destruct (mounted_layout linux_minix_h (demo_host v1_superblock true)
              fresh_sb _ ltac:(vm_compute; reflexivity))
    as (sbi & Hinfo & Hli & Hlz & _ & _ & _ & Hbs & Hrow).
  injection Hinfo as <-. eexists. split; [reflexivity|]. repeat split.
Defined.

Lemma bitmaps_are_device_blocks_witness :
  let h := demo_host v1_superblock true in
  exists s' sbi,
    minix_fill_super linux_minix_h h fresh_sb = mounted s' /\
    s_fs_info s' = Some sbi /\
    sbi_imap sbi !! 0%nat = minix_set_bit 0 <$> bread h 1024 2 /\
    sbi_zmap sbi !! 0%nat = minix_set_bit 0 <$> bread h 1024 3.
Proof.
  cbv zeta.
  destruct (bitmaps_are_device_blocks linux_minix_h
              (demo_host v1_superblock true) fresh_sb _
              ltac:(vm_compute; reflexivity))
    as (sbi & Hinfo & Hk).
  eexists _, sbi. split; [vm_compute; reflexivity|].
  split; [exact Hinfo|].
  injection Hinfo as <-.
  destruct (Hk 0%nat) as [Hi Hz]. split.
  - apply Hi. cbn. lia.
  - apply Hz. cbn. lia.
Defined.

Lemma mount_state_policy_witness :
  let h := demo_host v1_superblock true in
  s_rdonly fresh_sb = false /\
  exists s' sbi,
    minix_fill_super linux_minix_h h fresh_sb = mounted s' /\
    s_fs_info s' = Some sbi /\
    sbi_mount_state sbi = 1 /\ s_state (sbi_ms sbi) = 0 /\
    sbi_sbh_dirty sbi = true.
Proof.
  cbv zeta. split; [reflexivity|].
  destruct (mount_state_policy linux_minix_h (demo_host v1_superblock true)
              fresh_sb _ ltac:(vm_compute; reflexivity))
    as (d & sbi & Hd & Hinfo & H).
  cbv zeta in H. destruct H as (Hst & _ & _ & Hrw).
  eexists _, sbi. split; [vm_compute; reflexivity|].
  split; [exact Hinfo|].
  injection Hinfo as <-. injection Hd as <-.
  destruct (Hrw eq_refl) as [Hdirty Hms].
  destruct Hms as [Hms _]; [discriminate|].
  repeat split.
Defined.

Lemma mount_then_put_super_witness :
  let h := demo_host v1_superblock true in
  exists s' sbi,
    minix_fill_super linux_minix_h h fresh_sb = mounted s' /\
    s_fs_info s' = Some sbi /\
    s_state (sbi_ms sbi) = 0 /\
    s_state (sbi_ms (snd (fst (minix_put_super s' sbi)))) = 1 /\
    snd (minix_put_super s' sbi) = [rel_imap 0; rel_zmap 0; rel_sbh].
Proof.
  cbv zeta.
  destruct (mount_then_put_super linux_minix_h (demo_host v1_superblock true)
              fresh_sb _ ltac:(vm_compute; reflexivity))
    as (d & sbi & Hd & Hinfo & H).
  eexists _, sbi. split; [vm_compute; reflexivity|].
  split; [exact Hinfo|].
  injection Hinfo as <-. injection Hd as <-.
  destruct (minix_put_super _ _) as [[s'' out] rel].
  destruct H as (_ & Hms & _ & Hrel). cbn [fst snd].
  rewrite Hms, Hrel. repeat split.
Defined.

(** The volume with too few inode-bitmap blocks. *)
Lemma mount_failure_codes_witness :
  let h := demo_host starved_superblock true in
  exists s',
    minix_fill_super linux_minix_h h fresh_sb
    = failed out_no_bitmap (- EINVAL) s' /\
    s_fs_info s' = None /\ s_root s' = None.
Proof.
  cbv zeta. eexists. split; [vm_compute; reflexivity|].
  destruct (mount_failure_codes linux_minix_h
              (demo_host starved_superblock true) fresh_sb _ _ _
              ltac:(vm_compute; reflexivity))
    as (_ & (_ & Hinfo) & Hroot).
  split; [exact Hinfo | exact Hroot].
Defined.

(** Scenario 6, in general form, on the volume of scenario 1. *)
Lemma remount_round_trip_witness :
  s_rdonly v1_sb_rdonly = true /\ s_rdonly fresh_sb = false /\
  0 <= s_state (sbi_ms v1_volume) < 2 ^ 16 /\
  let rw := snd (fst (minix_remount linux_minix_h v1_sb_rdonly v1_volume false)) in
  let ro := snd (fst (minix_remount linux_minix_h fresh_sb rw true)) in
  s_state (sbi_ms rw) = 0 /\ sbi_ms ro = sbi_ms v1_volume.
Proof.
  split; [reflexivity|]. split; [reflexivity|].
  assert (Hr : 0 <= s_state (sbi_ms v1_volume) < 2 ^ 16)
    by (split; discriminate || reflexivity).
  split; [exact Hr|].
  pose proof (remount_round_trip linux_minix_h v1_sb_rdonly fresh_sb v1_volume
                eq_refl eq_refl Hr) as H.
  cbv zeta.
  destruct (minix_remount linux_minix_h v1_sb_rdonly v1_volume false)
    as [[r1 rw] c1] eqn:E1.
  cbn [fst snd].
  destruct (minix_remount linux_minix_h fresh_sb rw true)
    as [[r2 ro] c2] eqn:E2.
  destruct H as [Hms _]. split; [|exact Hms].
  injection E1 as _ <- _. reflexivity.
Defined.

(** A regular file of 5000 bytes written back and read again. *)
Lemma V1_write_then_read_witness :
  let h := demo_host v1_superblock true in
  let h' := reread_host (flushed_V1 h unlinked_file) root_raw_V2 in
  exists i',
    V1_minix_iget h' fresh_sb (new_inode 7) = Ok i' /\
    i_size i' = 5000 /\ i_mode i' = 0x81A4 /\
    i_atime i' = {| tv_sec := 5; tv_nsec := 0 |} /\
    take 9 (i_zones i') = [10; 11; 12; 13; 14; 0; 0; 0; 0].
Proof.
  cbv zeta.
  destruct (V1_write_then_read (demo_host v1_superblock true)
              (reread_host (flushed_V1 (demo_host v1_superblock true)
                                       unlinked_file) root_raw_V2)
              fresh_sb unlinked_file (new_inode 7) _ _
              eq_refl eq_refl eq_refl)
    as (i' & Hi & _ & _ & Hmode & _ & Hsize & _ & _ & Hmt & Hat & _ & _ & Hz).
  exists i'. split; [exact Hi|].
  split; [rewrite Hsize; reflexivity|].
  split; [rewrite Hmode; reflexivity|].
  split; [rewrite Hat, Hmt; reflexivity|].
  rewrite Hz; [reflexivity | reflexivity | | cbn; lia | cbn; lia].
  intros old [= <-]. reflexivity.
Defined.

(** The same file on a V2 volume: the three times stay apart. *)
Lemma V2_write_then_read_witness :
  let h := demo_host v1_superblock true in
  let h' := reread_host root_raw_V1 (flushed_V2 h unlinked_tty) in
  exists i',
    V2_minix_iget h' fresh_sb (new_inode 9) = Ok i' /\
    i_mtime i' = {| tv_sec := 6; tv_nsec := 0 |} /\
    i_atime i' = {| tv_sec := 7; tv_nsec := 0 |} /\
    i_ctime i' = {| tv_sec := 8; tv_nsec := 0 |}.
Proof.
  cbv zeta.
  destruct (V2_write_then_read (demo_host v1_superblock true)
              (reread_host root_raw_V1
                 (flushed_V2 (demo_host v1_superblock true) unlinked_tty))
              fresh_sb unlinked_tty (new_inode 9) _ _
              eq_refl eq_refl eq_refl)
    as (i' & Hi & _ & _ & _ & _ & _ & _ & _ & Hmt & Hat & Hct & _).
  exists i'. split; [exact Hi|].
  rewrite Hmt, Hat, Hct. repeat split.
Defined.

(** The terminal device node, major 4 minor 1. *)
Lemma device_number_round_trip_witness :
  let h := reread_host root_raw_V1 root_raw_V2 in
  let h' := reread_host (flushed_V1 h unlinked_tty) root_raw_V2 in
  S_ISCHR (i_mode unlinked_tty) = true /\
  exists i',
    V1_minix_iget h' fresh_sb (new_inode 9) = Ok i' /\
    i_rdev i' = 0x400001 /\ i_op i' = Some (special_inode 0x400001).
Proof.
  cbv zeta. split; [reflexivity|].
  destruct (device_number_round_trip (reread_host root_raw_V1 root_raw_V2)
              (reread_host
                 (flushed_V1 (reread_host root_raw_V1 root_raw_V2) unlinked_tty)
                 root_raw_V2)
              fresh_sb unlinked_tty (new_inode 9) eq_refl) as [H1 _].
  destruct (H1 _ _ eq_refl eq_refl eq_refl)
    as (old & i' & _ & _ & Hi & Hop & Hrdev & _).
  { discriminate. }
  exists i'. split; [exact Hi|]. rewrite Hrdev, Hop. repeat split.
Defined.

(** The root inode looked up twice, the second time on a dead device. *)
Lemma iget_idempotent_witness :
  exists i',
    minix_iget (demo_host v1_superblock true) MINIX_V1 fresh_sb 1 = Ok i' /\
    i_new i' = false /\
    minix_iget (cached_host i') MINIX_V1 fresh_sb 1 = Ok i'.
Proof.
  eexists. split; [vm_compute; reflexivity|].
  destruct (iget_idempotent (demo_host v1_superblock true) MINIX_V1 fresh_sb 1
              _ ltac:(vm_compute; reflexivity)) as [Hnew Hagain].
  split; [exact Hnew|]. apply Hagain. reflexivity.
Defined.

(** A synchronous V2 flush of the file of scenario 5 where the record is
    read and the write succeeds, and the same flush on a volume whose inode
    table cannot be read. *)
Lemma write_inode_releases_once_witness :
  (raw_inode_readable (demo_host v1_superblock true) MINIX_V2 fresh_sb 7 = true /\
   let '(ret, released, calls) :=
     minix_write_inode (demo_host v1_superblock true) MINIX_V2 fresh_sb
                       unlinked_file true in
   count_calls (brelse_inode_buffer 7) calls = 1%nat /\
   count_calls (sync_buffer 7) calls = 1%nat /\
   last calls = Some (brelse_inode_buffer 7) /\
   exists bh, released = Some bh) /\
  (raw_inode_readable unreadable_host MINIX_V2 fresh_sb 7 = false /\
   minix_write_inode unreadable_host MINIX_V2 fresh_sb unlinked_file true
   = (- EIO, None, [])).
Proof.
  pose proof (write_inode_releases_once (demo_host v1_superblock true) MINIX_V2
                fresh_sb unlinked_file true) as H1.
  pose proof (write_inode_releases_once unreadable_host MINIX_V2 fresh_sb
                unlinked_file true) as H2.
  cbv zeta in H1, H2.
  destruct (minix_write_inode (demo_host v1_superblock true) MINIX_V2 fresh_sb
              unlinked_file true) as [[ret1 released1] calls1].
  destruct (minix_write_inode unreadable_host MINIX_V2 fresh_sb unlinked_file
              true) as [[ret2 released2] calls2].
  destruct H1 as (_ & Hb & Hs & Hl & Hr & _).
  destruct H2 as (_ & _ & _ & _ & -> & -> & ->).
  split; split; try reflexivity.
  split; [exact Hb|]. split; [exact Hs|]. split; [exact Hl | exact Hr].
Defined.

Lemma evict_device_node_witness :
  S_ISCHR (i_mode unlinked_tty) || S_ISBLK (i_mode unlinked_tty) = true /\
  i_nlink unlinked_tty = 0 /\
  snd (minix_evict_inode MINIX_V2 unlinked_tty)
  = [truncate_inode_pages_final 9; invalidate_inode_buffers 9;
     clear_inode 9; minix_free_inode 9].
Proof.
  split; [reflexivity|]. split; [reflexivity|].
  pose proof (evict_device_node MINIX_V2 unlinked_tty eq_refl eq_refl) as H.
  destruct (minix_evict_inode MINIX_V2 unlinked_tty) as [i' calls].
  destruct H as [H _]. exact H.
Defined.

(** Loading the module without memory for the inode cache. *)
Lemma init_outcomes_witness :
  kmem_cache_create slabless_host = false /\
  init_minix_fs slabless_host unloaded = (- ENOMEM, unloaded).
Proof.
  split; [reflexivity|].
  pose proof (init_outcomes slabless_host unloaded) as H.
  destruct (init_minix_fs slabless_host unloaded) as [ret [c r]].
  destruct H as (Hc & _ & Hfail & _). cbn in Hc.
  destruct (Hfail eq_refl) as [-> Hr]. cbn in Hr. subst. reflexivity.
Defined.

(** A write of 4096 bytes at offset 4096 into the 5000-byte file fails. *)
Lemma write_begin_undo_witness :
  -28 <> 0 /\ i_size linked_file < 4096 + 4096 /\
  minix_write_begin (-28) MINIX_V1 linked_file 4096 4096
  = (-28, [truncate_pagecache 7 5000; walk (V1_minix_truncate 7 5000)]).
Proof.
  split; [discriminate|]. split; [reflexivity|].
  pose proof (write_begin_undo (-28) MINIX_V1 linked_file 4096 4096) as H.
  destruct (minix_write_begin (-28) MINIX_V1 linked_file 4096 4096)
    as [ret calls].
  destruct H as (-> & _ & H).
  destruct H as (_ & Hreg & _); [discriminate | reflexivity |].
  rewrite (Hreg eq_refl). reflexivity.
Defined.

(** A user mount refused, and a kernel mount that creates the superblock
    and is killed again. *)
Lemma mount_namespace_refs_witness :
  let kh := Sysfs.host_failing "none" in
  Sysfs.sysfs_mount kh Sysfs.boot 0 = (Err (- Sysfs.EPERM), []) /\
  fst (Sysfs.sysfs_mount kh Sysfs.boot (2 ^ 22)) = Ok 5 /\
  Sysfs.ns_refs (snd (Sysfs.sysfs_mount kh Sysfs.boot (2 ^ 22))) = 1 /\
  Sysfs.ns_refs (snd (Sysfs.sysfs_mount kh Sysfs.boot (2 ^ 22))
                 ++ Sysfs.sysfs_kill_sb kh 5) = 0.
Proof.
  cbv zeta.
  destruct (mount_namespace_refs (Sysfs.host_failing "none") Sysfs.boot 0)
    as (E0 & _ & H0).
  destruct (mount_namespace_refs (Sysfs.host_failing "none") Sysfs.boot
              (2 ^ 22)) as (E1 & _ & H1).
  specialize (H0 (Sysfs.sysfs_root Sysfs.boot)).
  specialize (H1 (Sysfs.sysfs_root Sysfs.boot)).
  rewrite E0, E1.
  destruct (Sysfs.mount_on (Sysfs.host_failing "none")
              (Sysfs.sysfs_root Sysfs.boot) 0) as [r0 c0].
  destruct (Sysfs.mount_on (Sysfs.host_failing "none")
              (Sysfs.sysfs_root Sysfs.boot) (2 ^ 22)) as [r1 c1].
  cbn in H0, H1.
  destruct H0 as [H0 _]. destruct (H0 eq_refl eq_refl) as [-> ->].
  destruct H1 as [_ H1].
  destruct H1 as (-> & _ & Hrefs & _ & Hkill); [left; discriminate|].
  destruct (Hkill 5 eq_refl eq_refl eq_refl) as (_ & Hbal & _).
  cbn [fst snd]. repeat split; assumption.
Defined.

(** Initialisation where "lshfs" does not register. *)
Lemma sysfs_init_outcomes_witness :
  let kh := Sysfs.host_failing "lshfs" in
  (forall k e, Sysfs.kernfs_create_root kh k = Err e -> e <> 0) /\
  fst (Sysfs.sysfs_init kh Sysfs.boot) = -16 /\
  Sysfs.registered (snd (Sysfs.sysfs_init kh Sysfs.boot)) = ["sysfs"%string] /\
  Sysfs.destroyed (snd (Sysfs.sysfs_init kh Sysfs.boot)) = [101] /\
  Sysfs.created (snd (Sysfs.sysfs_init kh Sysfs.boot)) = [100; 101].
Proof.
  cbv zeta.
  assert (Herr : forall k e,
            Sysfs.kernfs_create_root (Sysfs.host_failing "lshfs") k = Err e ->
            e <> 0) by (intros k e; discriminate).
  split; [exact Herr|].
  pose proof (sysfs_init_outcomes (Sysfs.host_failing "lshfs") Sysfs.boot Herr)
    as H.
  destruct (Sysfs.sysfs_init (Sysfs.host_failing "lshfs") Sysfs.boot)
    as [ret st'].
  cbv zeta in H. destruct H as (_ & _ & _ & H).
  destruct (H 100 101 eq_refl eq_refl) as (Hc & _ & _ & _ & H2 & _).
  destruct H2 as (-> & Hd & Hr); [reflexivity | discriminate |].
  cbn [fst snd]. rewrite Hc, Hd, Hr. repeat split.
Defined.

(** ** Mount followed by a remount to read-only *)

Lemma remount_ro_restores hdr s sbi ms :
  s_rdonly s = false -> sbi_version sbi <> MINIX_V3 ->
  0 <= s_state ms < 2 ^ 16 ->
  sbi_mount_state sbi = s_state ms ->
  sbi_ms sbi
  = set_s_state (u16 (Z.land (s_state ms) (Z.lnot (MINIX_VALID_FS hdr)))) ms ->
  sbi_ms (snd (fst (minix_remount hdr s sbi true))) = ms.
Proof.
  intros Hs Hv Hrange Hmnt Hms. unfold minix_remount. rewrite Hs.
  cbn [Bool.eqb].
  assert (Hclr : Z.land (s_state (sbi_ms sbi)) (MINIX_VALID_FS hdr) = 0)
    by (rewrite Hms; apply valid_bit_cleared).
  rewrite Hclr, Hmnt. cbn [Z.eqb negb orb].
  destruct (Z.eqb_spec (Z.land (s_state ms) (MINIX_VALID_FS hdr)) 0)
    as [Hclean|Hset]; cbn [fst snd].
  - rewrite Hms, (clear_unset_bit _ _ Hrange Hclean).
    apply set_s_state_same.
  - assert (Hne : version_eqb (sbi_version sbi) MINIX_V3 = false)
      by (destruct (sbi_version sbi); try reflexivity; congruence).
    rewrite Hne. cbn [sbi_with_state sbi_ms]. rewrite Hms.
    apply set_s_state_restore.
Qed.

Lemma remount_keeps_maps hdr s sbi flags_rdonly :
  let sbi' := snd (fst (minix_remount hdr s sbi flags_rdonly)) in
  sbi_imap sbi' = sbi_imap sbi /\ sbi_zmap sbi' = sbi_zmap sbi /\
  fst (fst (minix_remount hdr s sbi flags_rdonly)) = 0 /\
  (sbi_version sbi = MINIX_V3 -> sbi_ms sbi' = sbi_ms sbi).
Proof.
  unfold minix_remount.
  destruct (sbi_version sbi) eqn:Hv; cbn [version_eqb negb];
    destruct (Bool.eqb flags_rdonly (s_rdonly s)); cbn;
    try (repeat split; try discriminate; fail);
    destruct flags_rdonly; cbn;
    try (repeat split; try discriminate; fail);
    destruct (negb _ || _); cbn; repeat split; discriminate.
Qed.

(** X18. A volume mounted read-write and then remounted read-only has, in
    its superblock buffer, the very superblock that mount read from the
    device: the remount puts back the VALID bit the mount cleared, or finds
    that none was set. The call returns 0 and leaves the bitmaps alone. *)
Theorem mount_then_remount_ro (hdr : minix_h) (h : host) (s s' : super_block) :
  s_rdonly s = false ->
  minix_fill_super hdr h s = mounted s' ->
  exists d sbi,
    bread h BLOCK_SIZE 1 = Some d /\ s_fs_info s' = Some sbi /\
    let '(ret, ro, _) := minix_remount hdr s' sbi true in
    ret = 0 /\ sbi_ms ro = minix_sb_of d /\
    sbi_imap ro = sbi_imap sbi /\ sbi_zmap ro = sbi_zmap sbi.
Proof.
  intros Hrw Hm.
  destruct (fill_super_state _ _ _ _ Hm) as (d & sbi & Hd & Hinfo & H).
  cbv zeta in H. destruct H as (Hst & Hv3 & _ & Hw).
  destruct (Hw Hrw) as [_ Hms].
  destruct (fill_super_layout _ _ _ _ Hm)
    as (sbi2 & Hinfo2 & _ & _ & _ & _ & Hro & _).
  rewrite Hrw in Hro.
  exists d, sbi. split; [exact Hd|]. split; [exact Hinfo|].
  pose proof (remount_keeps_maps hdr s' sbi true) as (Hi & Hz & Hret & Hk3).
  assert (Hview : sbi_ms (snd (fst (minix_remount hdr s' sbi true)))
                  = minix_sb_of d).
  { assert (Hcase : sbi_version sbi = MINIX_V3 \/ sbi_version sbi <> MINIX_V3)
      by (destruct (sbi_version sbi); auto; right; discriminate).
    destruct Hcase as [Hv|Hv].
    - rewrite (Hk3 Hv). apply (Hv3 Hv).
    - apply (remount_ro_restores hdr s' sbi (minix_sb_of d) Hro Hv).
      + apply b_u16_range.
      + apply (Hst Hv).
      + apply (Hms Hv). }
  destruct (minix_remount hdr s' sbi true) as [[ret ro] calls].
  cbn [fst snd] in *. repeat split; assumption.
Qed.

Lemma mount_then_remount_ro_witness :
  let h := demo_host v1_superblock true in
  s_rdonly fresh_sb = false /\
  exists s' sbi,
    minix_fill_super linux_minix_h h fresh_sb = mounted s' /\
    s_fs_info s' = Some sbi /\
    s_state (sbi_ms sbi) = 0 /\
    s_state (sbi_ms (snd (fst (minix_remount linux_minix_h s' sbi true)))) = 1.
Proof.
  cbv zeta. split; [reflexivity|].
  destruct (mount_then_remount_ro linux_minix_h (demo_host v1_superblock true)
              fresh_sb _ eq_refl ltac:(vm_compute; reflexivity))
    as (d & sbi & Hd & Hinfo & H).
  eexists _, sbi. split; [vm_compute; reflexivity|].
  split; [exact Hinfo|].
  injection Hinfo as <-. injection Hd as <-.
  destruct (minix_remount linux_minix_h _ _ true) as [[ret ro] calls].
  destruct H as (_ & Hms & _). cbn [fst snd]. rewrite Hms. repeat split.
Defined.
